(** * Shallow embedding of [app.py]

    [app.py] holds two Streamlit scripts.  The first one drives a
    text -> image -> text chain through [st.session_state.step]; the
    second one searches a museum collection and fabricates a colour
    palette per artwork.

    The embedding follows the script: the session dictionary is a finite
    map, [st.cache_data] is a memo table keyed by the function and its
    arguments, the hosted models are an oracle whose calls are logged, and
    [st.rerun()] is a control outcome of its own, which a Python
    [except Exception] handler does not catch.

    What the framework decides is an input of a run: the values the two
    sidebar widgets return and the button whose click triggered the run.
    A button is pressed in one run only; the reruns that [st.rerun()]
    schedules have none.  The client of lines 8-15 is taken as created
    (a missing key stops the script before it has any state; a [None]
    client makes every call raise inside the [try] blocks, which the
    oracle covers). *)

From Stdlib Require Import ZArith NArith List String Ascii Lia.
From Stdlib Require Import DecimalString Decimal.
From Stdlib Require QArith.
From stdpp Require Import base gmap strings list.

Local Open Scope string_scope.
Local Open Scope list_scope.
Local Open Scope Z_scope.

(** ** Python values *)

(** A Python [str] is a sequence of code points; [len] counts them. *)
Abbreviation pystr := (list N).

Fixpoint utf8_decode (bs : list N) : pystr :=
  match bs with
  | [] => []
  | b :: r =>
    if (b <? 128)%N then b :: utf8_decode r
    else if (b <? 224)%N then
      match r with
      | c1 :: r1 =>
        N.lor (N.shiftl (N.land b 31) 6) (N.land c1 63) :: utf8_decode r1
      | _ => []
      end
    else if (b <? 240)%N then
      match r with
      | c1 :: c2 :: r2 =>
        N.lor (N.shiftl (N.land b 15) 12)
          (N.lor (N.shiftl (N.land c1 63) 6) (N.land c2 63)) :: utf8_decode r2
      | _ => []
      end
    else
      match r with
      | c1 :: c2 :: c3 :: r3 =>
        N.lor (N.shiftl (N.land b 7) 18)
          (N.lor (N.shiftl (N.land c1 63) 12)
             (N.lor (N.shiftl (N.land c2 63) 6) (N.land c3 63)))
          :: utf8_decode r3
      | _ => []
      end
  end.

(** [u "..."] is the Python literal written in the (UTF-8) source. *)
Definition u (s : string) : pystr :=
  utf8_decode (map N_of_ascii (list_ascii_of_string s)).
Arguments u : simpl never.

Inductive pyval : Type :=
| VNone
| VInt (z : Z)
| VStr (s : pystr).

#[global] Instance pyval_eq_dec : EqDecision pyval.
Proof. solve_decision. Defined.

#[global] Instance pyval_countable : Countable pyval.
Proof.
  refine (inj_countable'
    (fun v => match v with
              | VNone => inl tt
              | VInt z => inr (inl z)
              | VStr s => inr (inr s)
              end)
    (fun x => match x with
              | inl _ => VNone
              | inr (inl z) => VInt z
              | inr (inr s) => VStr s
              end) _).
  by intros [].
Defined.

(** Truth value of an object in a condition. *)
Definition truthy (v : pyval) : bool :=
  match v with
  | VNone => false
  | VInt z => negb (z =? 0)
  | VStr [] => false
  | VStr (_ :: _) => true
  end.

(** [str(n)] for an int, and the text an f-string inserts for a value. *)
Definition py_str_int (z : Z) : pystr :=
  u (NilEmpty.string_of_int (Z.to_int z)).

Definition py_str (v : pyval) : pystr :=
  match v with
  | VNone => u "None"
  | VInt z => py_str_int z
  | VStr s => s
  end.

Fixpoint startswith (s p : pystr) {struct p} : bool :=
  match p, s with
  | [], _ => true
  | _ :: _, [] => false
  | c :: p', d :: s' => (c =? d)%N && startswith s' p'
  end.

Definition of_option (o : option pystr) : pyval :=
  match o with
  | Some s => VStr s
  | None => VNone
  end.

Definition is_str (v : pyval) : Prop := exists s, v = VStr s.

Definition none_or_str (v : pyval) : Prop := v = VNone \/ is_str v.

(** ** Exceptions, the outside world, the page *)

Inductive exn : Type :=
| AttributeError (what : string)
| TypeError (what : string)
| LibraryError (msg : pystr).   (* any other Exception, with its text *)

(** [str(e)] *)
Definition exn_str (e : exn) : pystr :=
  match e with
  | AttributeError w => u w
  | TypeError w => u w
  | LibraryError m => m
  end.

(** One request to a hosted model. *)
Inductive call : Type :=
| CallChat (system_prompt user_prompt : pystr)
| CallImage (prompt : pyval)
| CallVision (instruction : pystr) (image_url : pyval).

(** What the client library hands back: the field the script reads
    ([message.content], [data[0].url], possibly [None]) or an exception. *)
Inductive resp : Type :=
| Returned (v : option pystr)
| Raised (msg : pystr).

Inductive button : Type := BtnStart | BtnReset | BtnStep2 | BtnStep3.

#[global] Instance button_eq_dec : EqDecision button.
Proof. solve_decision. Defined.

Definition button_eqb (a b : button) : bool :=
  match a, b with
  | BtnStart, BtnStart | BtnReset, BtnReset
  | BtnStep2, BtnStep2 | BtnStep3, BtnStep3 => true
  | _, _ => false
  end.

(** Elements a run puts on the page, in order. *)
Inductive elem : Type :=
| Title (s : pystr)
| Header (s : pystr)
| Markdown (s : pystr)
| InfoBox (s : pystr)
| ErrorBox (s : pystr)
| WarningBox (s : pystr)
| Image (url : pyval)
| ButtonEl (b : button).

(** Names of the memoised functions. *)
Abbreviation ckey := (string * list pyval)%type.

Record state : Type := mkState {
  sess : gmap string pyval;     (* st.session_state *)
  cache : gmap ckey pyval;      (* the st.cache_data tables *)
  calls : list call;            (* requests sent so far *)
  out : list elem               (* page of the current run *)
}.

Definition with_sess (f : gmap string pyval -> gmap string pyval) (σ : state) :=
  mkState (f (sess σ)) (cache σ) (calls σ) (out σ).
Definition with_cache (f : gmap ckey pyval -> gmap ckey pyval) (σ : state) :=
  mkState (sess σ) (f (cache σ)) (calls σ) (out σ).
Definition with_calls (f : list call -> list call) (σ : state) :=
  mkState (sess σ) (cache σ) (f (calls σ)) (out σ).
Definition with_out (f : list elem -> list elem) (σ : state) :=
  mkState (sess σ) (cache σ) (calls σ) (f (out σ)).

(** ** The script monad *)

Inductive outcome (A : Type) : Type :=
| Ok (a : A) (σ : state)
| Rerun (σ : state)              (* st.rerun() *)
| Raise (e : exn) (σ : state).   (* an uncaught Exception *)
Arguments Ok {A} a σ.
Arguments Rerun {A} σ.
Arguments Raise {A} e σ.

Definition M (A : Type) : Type := state -> outcome A.

Definition ret {A} (a : A) : M A := fun σ => Ok a σ.

Definition bind {A B} (m : M A) (f : A -> M B) : M B :=
  fun σ =>
    match m σ with
    | Ok a σ' => f a σ'
    | Rerun σ' => Rerun σ'
    | Raise e σ' => Raise e σ'
    end.

Declare Scope script_scope.
Delimit Scope script_scope with script.
Bind Scope script_scope with M.
Notation "x ← y ; z" := (bind y (fun x => z))
  (at level 20, y at level 100, z at level 200, only parsing) : script_scope.
Notation "y ;; z" := (bind y (fun _ => z))
  (at level 100, z at level 200, only parsing, right associativity)
  : script_scope.
Local Open Scope script_scope.

Definition raise {A} (e : exn) : M A := fun σ => Raise e σ.
Definition st_rerun {A} : M A := fun σ => Rerun σ.

Definition when (b : bool) (m : M unit) : M unit :=
  if b then m else ret tt.

(** [try: body / except Exception as e: handler e]; [st.rerun()] passes
    through, its exception is not an [Exception]. *)
Definition try_except {A} (body : M A) (handler : exn -> M A) : M A :=
  fun σ =>
    match body σ with
    | Raise e σ' => handler e σ'
    | o => o
    end.

(** [st.session_state.<k>] *)
Definition sget (k : string) : M pyval :=
  fun σ =>
    match sess σ !! k with
    | Some v => Ok v σ
    | None => Raise (AttributeError k) σ
    end.

(** [st.session_state.<k> = v] *)
Definition sset (k : string) (v : pyval) : M unit :=
  fun σ => Ok tt (with_sess (insert k v) σ).

(** A loop of [del st.session_state[key]] *)
Definition smodify (f : gmap string pyval -> gmap string pyval) : M unit :=
  fun σ => Ok tt (with_sess f σ).

(** [k in st.session_state] *)
Definition shas (k : string) : M bool :=
  fun σ =>
    match sess σ !! k with
    | Some _ => Ok true σ
    | None => Ok false σ
    end.

Definition emit (e : elem) : M unit :=
  fun σ => Ok tt (with_out (fun o => o ++ [e]) σ).

(** [a == n], [a > n] against an int literal. *)
Definition py_eq_int (v : pyval) (n : Z) : bool :=
  match v with
  | VInt z => z =? n
  | _ => false
  end.

Definition py_gt_int (v : pyval) (n : Z) : M bool :=
  match v with
  | VInt z => ret (n <? z)
  | _ => raise (TypeError "'>' not supported")
  end.

(** [len(v)] *)
Definition py_len (v : pyval) : M Z :=
  match v with
  | VStr s => ret (Z.of_nat (length s))
  | _ => raise (TypeError "object has no len()")
  end.

(** [v.startswith(p)] *)
Definition py_startswith (v : pyval) (p : pystr) : M bool :=
  match v with
  | VStr s => ret (startswith s p)
  | _ => raise (AttributeError "startswith")
  end.

(** * The transformation chain (first script) *)

Module Chain.

Record widgets : Type := mkWidgets {
  topic_input : pystr;   (* st.text_input(..., key="topic_input") *)
  role_select : pystr    (* st.selectbox(..., key="role_select") *)
}.

Definition error_prefix_text : pystr := u "텍스트 생성 오류".
Definition error_prefix_image : pystr := u "이미지 생성 오류".
Definition error_prefix_vision : pystr := u "이미지 분석 오류".

Definition vision_instruction : pystr :=
  u "당신은 전문 예술 비평가입니다. 이 이미지를 보고 느낀 것을 100자 이내로 자세하게 묘사하고 분석해 주세요. 색상, 구도, 분위기를 명확히 언급해야 합니다.".

Section Script.

(** The hosted models: the answer to a request may depend on every
    request made before it. *)
Variable respond : list call -> call -> resp.

(** [st.image]: [None] when the image is shown, [Some msg] when the call
    raises an exception with text [msg]. *)
Variable st_image : pyval -> option pystr.

(** A client call: logged, and either the field read from the response
    or the exception. *)
Definition api (c : call) : M pyval :=
  fun σ =>
    let σ' := with_calls (fun l => l ++ [c]) σ in
    match respond (calls σ) c with
    | Returned v => Ok (of_option v) σ'
    | Raised m => Raise (LibraryError m) σ'
    end.

(** [@st.cache_data]: the body runs on a miss only, and what it returns
    is stored under the function and its arguments. *)
Definition cache_data (name : string) (args : list pyval)
    (body : M pyval) : M pyval :=
  fun σ =>
    match cache σ !! (name, args) with
    | Some v => Ok v σ
    | None =>
      match body σ with
      | Ok v σ' => Ok v (with_cache (insert (name, args) v) σ')
      | o => o
      end
    end.

Definition generate_start_text (topic role : pyval) : M pyval :=
  cache_data "generate_start_text" [topic; role]
    (let system_prompt :=
       u "당신은 '" ++ py_str role ++
       u "' 역할입니다. 주어진 주제에 대해 50자 내외의 시적인 구절이나 짧은 스토리를 생성하세요. 창의적이고 감성적인 표현을 사용해야 합니다." in
     try_except
       (api (CallChat system_prompt (u "주제: " ++ py_str topic)))
       (fun e => ret (VStr (error_prefix_text ++ u ": " ++ exn_str e)))).

Definition generate_image_from_text (prompt : pyval) : M pyval :=
  cache_data "generate_image_from_text" [prompt]
    (try_except
       (api (CallImage prompt))
       (fun e => ret (VStr (error_prefix_image ++ u ": " ++ exn_str e)))).

Definition analyze_image_to_text (image_url : pyval) : M pyval :=
  cache_data "analyze_image_to_text" [image_url]
    (try_except
       (api (CallVision vision_instruction image_url))
       (fun e => ret (VStr (error_prefix_vision ++ u ": " ++ exn_str e)))).

(** *** One run of the script *)

Variable w : widgets.
(** The button whose click triggered this run, if any. *)
Variable clicked : option button.

(** [st.button]: shown, and true in the run its click triggered. *)
Definition st_button (b : button) : M bool :=
  emit (ButtonEl b);;
  ret (match clicked with
       | Some b' => button_eqb b' b
       | None => false
       end).

Definition st_image_show (url : pyval) : M unit :=
  match st_image url with
  | None => emit (Image url)
  | Some m => raise (LibraryError m)
  end.

(* lines 18-24 *)
Definition init_block : M unit :=
  present ← shas "step";
  when (negb present)
    (sset "step" (VInt 0);;
     sset "start_text" VNone;;
     sset "image_url" VNone;;
     sset "final_text" VNone;;
     sset "user_topic" (VStr (u ""));;
     sset "start_role" (VStr (u "AI 시인"))).

(* lines 101-103: every key but the two inputs is deleted *)
Definition reset_keys (s : gmap string pyval) : gmap string pyval :=
  filter (fun kv => kv.1 = "user_topic" \/ kv.1 = "start_role") s.

(* lines 87-104 *)
Definition sidebar : M unit :=
  emit (Header (u "입력 및 설정"));;
  sset "user_topic" (VStr (topic_input w));;
  sset "start_role" (VStr (role_select w));;
  start ← st_button BtnStart;
  when start
    (sset "step" (VInt 1);;
     sset "start_text" VNone;;
     sset "image_url" VNone;;
     sset "final_text" VNone);;
  step ← sget "step";
  positive ← py_gt_int step 0;
  reset ← (if positive then st_button BtnReset else ret false);
  when reset
    (smodify reset_keys;; st_rerun).

(* lines 113-125 *)
Definition col1 : M unit :=
  emit (Header (u "1. 시작 텍스트"));;
  step ← sget "step";
  when (py_eq_int step 1)
    (topic ← sget "user_topic";
     role ← sget "start_role";
     text ← generate_start_text topic role;
     sset "start_text" text;;
     sset "step" (VInt 2);;
     st_rerun);;
  start_text ← sget "start_text";
  when (truthy start_text)
    (role ← sget "start_role";
     emit (Markdown (u "**역할:** " ++ py_str role));;
     emit (InfoBox (py_str start_text));;
     step ← sget "step";
     go ← (if py_eq_int step 2 then st_button BtnStep2 else ret false);
     when go (sset "step" (VInt 3);; st_rerun)).

(* lines 128-150 *)
Definition col2 : M unit :=
  emit (Header (u "2. 중간 이미지"));;
  step ← sget "step";
  when (py_eq_int step 3)
    (prompt ← sget "start_text";
     url ← generate_image_from_text prompt;
     sset "image_url" url;;
     url ← sget "image_url";
     ok ← (if truthy url
           then bad ← py_startswith url error_prefix_image; ret (negb bad)
           else ret false);
     (if ok : bool then sset "step" (VInt 4) else sset "step" (VInt 99));;
     st_rerun);;
  url ← sget "image_url";
  when (truthy url)
    (prompt ← sget "start_text";
     emit (Markdown (u "**프롬프트:** `" ++ py_str prompt ++ u "`"));;
     bad ← py_startswith url error_prefix_image;
     if bad : bool then emit (ErrorBox (py_str url))
     else
       try_except
         (st_image_show url;;
          step ← sget "step";
          go ← (if py_eq_int step 4 then st_button BtnStep3 else ret false);
          when go (sset "step" (VInt 5);; st_rerun))
         (fun e => emit (ErrorBox (u "이미지 표시 오류: " ++ exn_str e)))).

(* lines 160-171: the comparison shown under the final text *)
Definition result_analysis (final_text : pyval) : M unit :=
  emit (InfoBox (py_str final_text));;
  emit (Markdown (u "---"));;
  emit (Header (u "4. 결과 분석 및 왜곡 시각화"));;
  start_text ← sget "start_text";
  len_start ← py_len start_text;
  final_text ← sget "final_text";
  len_final ← py_len final_text;
  emit (Markdown (u "**시작 텍스트 길이:** " ++ py_str_int len_start ++ u "자"));;
  emit (Markdown (u "**최종 텍스트 길이:** " ++ py_str_int len_final ++ u "자"));;
  emit (WarningBox (u "*(LLM이 시각 정보를 묘사하며 원본 정보가 손실되거나 새로운 정보가 추가되는 '전달 왜곡' 현상 발생)*")).

(* lines 153-171 *)
Definition col3 : M unit :=
  emit (Header (u "3. 최종 텍스트 (역변환)"));;
  step ← sget "step";
  when (py_eq_int step 5)
    (url ← sget "image_url";
     text ← analyze_image_to_text url;
     sset "final_text" text;;
     sset "step" (VInt 6);;
     st_rerun);;
  final_text ← sget "final_text";
  when (truthy final_text) (result_analysis final_text).

(* lines 82-84 *)
Definition page_head : M unit :=
  emit (Title (u "🔗 AI 변환 사슬: 전달 왜곡 분석"));;
  emit (Markdown (u "텍스트 $\rightarrow$ 이미지 $\rightarrow$ 텍스트 변환 사슬을 통해 AI 모델 간의 **정보 전달 왜곡**을 탐구합니다."));;
  emit (Markdown (u "---")).

Definition script : M unit :=
  init_block;;
  page_head;;
  sidebar;;
  col1;;
  col2;;
  col3.

(** A run starts from an empty page. *)
Definition run (σ : state) : outcome unit :=
  script (with_out (fun _ => []) σ).

End Script.

(** The three stages: memo key, request, error prefix. *)
Inductive stage : Type :=
| Stage1 (topic role : pyval)
| Stage2 (prompt : pyval)
| Stage3 (image_url : pyval).

Definition request1 (topic role : pyval) : call :=
  CallChat
    (u "당신은 '" ++ py_str role ++
     u "' 역할입니다. 주어진 주제에 대해 50자 내외의 시적인 구절이나 짧은 스토리를 생성하세요. 창의적이고 감성적인 표현을 사용해야 합니다.")
    (u "주제: " ++ py_str topic).

Definition stage_key (s : stage) : ckey :=
  match s with
  | Stage1 topic role => ("generate_start_text", [topic; role])
  | Stage2 prompt => ("generate_image_from_text", [prompt])
  | Stage3 image_url => ("analyze_image_to_text", [image_url])
  end.

Definition stage_request (s : stage) : call :=
  match s with
  | Stage1 topic role => request1 topic role
  | Stage2 prompt => CallImage prompt
  | Stage3 image_url => CallVision vision_instruction image_url
  end.

Definition stage_prefix (s : stage) : pystr :=
  match s with
  | Stage1 _ _ => error_prefix_text
  | Stage2 _ => error_prefix_image
  | Stage3 _ => error_prefix_vision
  end.

(** *** What a memoised stage function returns and leaves behind *)

(** The value the function body returns for a response. *)
Definition answer (prefix : pystr) (r : resp) : pyval :=
  match r with
  | Returned v => of_option v
  | Raised m => VStr (prefix ++ u ": " ++ m)
  end.

Section StageEffect.

Variable respond : list call -> call -> resp.

Definition stage_value (s : stage) (ca : gmap ckey pyval) (l : list call)
    : pyval :=
  match ca !! stage_key s with
  | Some v => v
  | None => answer (stage_prefix s) (respond l (stage_request s))
  end.

Definition stage_cache (s : stage) (ca : gmap ckey pyval) (l : list call)
    : gmap ckey pyval :=
  match ca !! stage_key s with
  | Some _ => ca
  | None =>
    <[stage_key s := answer (stage_prefix s) (respond l (stage_request s))]> ca
  end.

Definition stage_calls (s : stage) (ca : gmap ckey pyval) (l : list call)
    : list call :=
  match ca !! stage_key s with
  | Some _ => l
  | None => l ++ [stage_request s]
  end.

End StageEffect.

Section Sessions.

Variable respond : list call -> call -> resp.
Variable st_image : pyval -> option pystr.

(** A click and the reruns it causes: the run the click triggers gets
    the widget values [w]; every run that [st.rerun()] schedules has no
    button pressed and gets the values [w'] the widgets return then. *)
Fixpoint interact (fuel : nat) (w : widgets) (clicked : option button)
    (w' : widgets) (σ : state) : outcome unit :=
  match run respond st_image w clicked σ with
  | Rerun σ' =>
    match fuel with
    | O => Rerun σ'
    | S fuel' => interact fuel' w' None w' σ'
    end
  | o => o
  end.

(** Any sequence of runs, each with its widget values and its click. *)
Fixpoint run_events (es : list (widgets * option button)) (σ : state)
    : outcome unit :=
  match es with
  | [] => Ok tt σ
  | (w, c) :: es' =>
    match run respond st_image w c σ with
    | Ok _ σ' | Rerun σ' => run_events es' σ'
    | Raise e σ' => Raise e σ'
    end
  end.

(** States a server process can be in: it starts with an empty memo
    table; a browser session starts with an empty [st.session_state]
    and shares the memo table; every run leaves a state behind. *)
Inductive reachable : state -> Prop :=
| reach_start : reachable (mkState ∅ ∅ [] [])
| reach_session σ :
    reachable σ -> reachable (with_sess (fun _ => ∅) σ)
| reach_run σ w c σ' :
    reachable σ ->
    run respond st_image w c σ = Ok tt σ' \/
    run respond st_image w c σ = Rerun σ' ->
    reachable σ'.

End Sessions.

Definition transform (respond : list call -> call -> resp) (s : stage)
    : M pyval :=
  match s with
  | Stage1 topic role => generate_start_text respond topic role
  | Stage2 prompt => generate_image_from_text respond prompt
  | Stage3 image_url => analyze_image_to_text respond image_url
  end.

(** The test line 132 applies to the stored image url. *)
Definition image_ok (v : pyval) : bool :=
  match v with
  | VStr s => truthy v && negb (startswith s error_prefix_image)
  | _ => false
  end.

(** *** The session as the six fields the script keeps *)

Record view : Type := View {
  v_step : Z;
  v_start_text : pyval;
  v_image_url : pyval;
  v_final_text : pyval;
  v_user_topic : pyval;
  v_start_role : pyval
}.

Definition has_view (s : gmap string pyval) (V : view) : Prop :=
  s !! "step" = Some (VInt (v_step V)) /\
  s !! "start_text" = Some (v_start_text V) /\
  s !! "image_url" = Some (v_image_url V) /\
  s !! "final_text" = Some (v_final_text V) /\
  s !! "user_topic" = Some (v_user_topic V) /\
  s !! "start_role" = Some (v_start_role V).

Definition post (σ' : state) (V : view) (ca : gmap ckey pyval)
    (l : list call) : Prop :=
  has_view (sess σ') V /\ cache σ' = ca /\ calls σ' = l.

(** Every memoised value is a text or [None]. *)
Definition cache_ok (ca : gmap ckey pyval) : Prop :=
  forall k v, ca !! k = Some v -> none_or_str v.

(** The fields are typed as the script leaves them, the first text is
    there from step 3 on, and a final text exists at step 6 only.  A
    session without a step (a new one, or one just reset) has no final
    text either. *)
Definition good_view (V : view) : Prop :=
  none_or_str (v_start_text V) /\
  none_or_str (v_image_url V) /\
  none_or_str (v_final_text V) /\
  (3 <= v_step V -> is_str (v_start_text V)) /\
  (v_final_text V <> VNone -> v_step V = 6).

Definition inv (σ : state) : Prop :=
  cache_ok (cache σ) /\
  ((sess σ !! "step" = None /\ sess σ !! "final_text" = None) \/
   exists V, has_view (sess σ) V /\ good_view V).

(** Keys the first six assignments of a fresh session create. *)
Definition init_keys (s : gmap string pyval) : gmap string pyval :=
  <["start_role" := VStr (u "AI 시인")]>
    (<["user_topic" := VStr (u "")]>
       (<["final_text" := VNone]>
          (<["image_url" := VNone]>
             (<["start_text" := VNone]>
                (<["step" := VInt 0]> s))))).

(** The state once the head of the page is out. *)
Definition headed (σ : state) : state :=
  with_out (fun o => o ++ [Markdown (u "---")])
    (with_out (fun o => o ++ [Markdown (u "텍스트 $\rightarrow$ 이미지 $\rightarrow$ 텍스트 변환 사슬을 통해 AI 모델 간의 **정보 전달 왜곡**을 탐구합니다.")])
       (with_out (fun o => o ++ [Title (u "🔗 AI 변환 사슬: 전달 왜곡 분석")]) σ)).

Definition titled (σ : state) : state :=
  headed (with_out (fun _ => []) σ).

(** What one run may do to the fields and to the call log when neither
    the start nor the reset button is pressed. *)
Definition forward (V : view) (l : list call) (V' : view) (l' : list call)
    : Prop :=
  (v_step V' = v_step V \/ v_step V' = v_step V + 1 \/
   (v_step V = 3 /\ v_step V' = 99)) /\
  (v_step V <> 1 -> v_start_text V' = v_start_text V) /\
  (v_step V <> 3 -> v_image_url V' = v_image_url V) /\
  (v_step V <> 5 -> v_final_text V' = v_final_text V) /\
  (l' = l \/
   (v_step V = 1 /\ exists t r, l' = l ++ [request1 t r]) \/
   (v_step V = 3 /\ l' = l ++ [CallImage (v_start_text V)]) \/
   (v_step V = 5 /\
    l' = l ++ [CallVision vision_instruction (v_image_url V)])).

Definition final_state {A} (o : outcome A) : state :=
  match o with
  | Ok _ σ | Rerun σ | Raise _ σ => σ
  end.

Definition field (k : string) (σ : state) : option pyval := sess σ !! k.

(** How a run ended. *)
Definition reruns {A} (o : outcome A) : bool :=
  match o with
  | Rerun _ => true
  | _ => false
  end.

Definition returns {A} (o : outcome A) : bool :=
  match o with
  | Ok _ _ => true
  | _ => false
  end.

(** Text of a page element, and substring search, to inspect a page. *)
Definition elem_text (e : elem) : pystr :=
  match e with
  | Title s | Header s | Markdown s | InfoBox s | ErrorBox s
  | WarningBox s => s
  | Image v => py_str v
  | ButtonEl _ => []
  end.

Fixpoint contains (s p : pystr) : bool :=
  startswith s p ||
  match s with
  | [] => false
  | _ :: s' => contains s' p
  end.

End Chain.

(** * The museum dashboard (second script): search and palette *)

Module Museum.

(** A parsed JSON document, as [response.json()] returns it. *)
#[warnings="-register-all"]
Inductive json : Type :=
| JNull
| JBool (b : bool)
| JNum (z : Z)
| JStr (s : pystr)
| JList (l : list json)
| JDict (kv : list (pystr * json)).

Inductive result (A : Type) : Type :=
| Return (a : A)
| Throw (e : exn).
Arguments Return {A} a.
Arguments Throw {A} e.

Definition rbind {A B} (r : result A) (f : A -> result B) : result B :=
  match r with
  | Return a => f a
  | Throw e => Throw e
  end.

Definition MET_API_URL : pystr :=
  u "https://collectionapi.metmuseum.org/public/collection/v1/".

(** What [requests.get] hands back: the status code and the body, [None]
    when the body is not JSON. *)
Inductive http_response : Type :=
| HttpResponse (status : Z) (body : option json).

Fixpoint assoc (k : pystr) (kv : list (pystr * json)) : option json :=
  match kv with
  | [] => None
  | (k', v) :: kv' => if decide (k = k') then Some v else assoc k kv'
  end.

(** [data.get(key, default)] *)
Definition dict_get (data : json) (key : pystr) (default : json)
    : result json :=
  match data with
  | JDict kv =>
    Return (match assoc key kv with
            | Some v => v
            | None => default
            end)
  | _ => Throw (AttributeError "get")
  end.

(** [v[:10]] *)
Definition slice10 (v : json) : result json :=
  match v with
  | JList l => Return (JList (take 10 l))
  | JStr s => Return (JStr (take 10 s))
  | _ => Throw (TypeError "object is not subscriptable")
  end.

(** [response.raise_for_status()] *)
Definition raise_for_status (r : http_response) : result unit :=
  match r with
  | HttpResponse status _ =>
    if (400 <=? status) && (status <? 600)
    then Throw (LibraryError (u "HTTPError"))
    else Return tt
  end.

(** [response.json()] *)
Definition response_json (r : http_response) : result json :=
  match r with
  | HttpResponse _ (Some data) => Return data
  | HttpResponse _ None => Throw (LibraryError (u "JSONDecodeError"))
  end.

(** [len] of what the function returns as ids. *)
Definition ids_len (v : json) : nat :=
  match v with
  | JList l => length l
  | JStr s => length s
  | _ => 0
  end.

Record mstate : Type := mkMState {
  search_cache : gmap pyval (json * json);   (* st.cache_data table *)
  requests : list pystr                      (* urls fetched so far *)
}.

(* line 202 *)
Definition search_url (query : pyval) : pystr :=
  MET_API_URL ++ u "search?q=" ++ py_str query ++
  u "&hasImages=true&limit=20".

Section Search.

(** [requests.get]: the answer may depend on what was fetched before;
    [Throw] is a connection failure. *)
Variable requests_get : list pystr -> pystr -> result http_response.

(* lines 198-209, the function under the decorator *)
Definition search_artworks_body (query : pyval) (log : list pystr)
    : result (json * json) * list pystr :=
  if negb (truthy query) then (Return (JNum 0, JList []), log)
  else
    let search_url := search_url query in
    let attempt :=
      rbind (requests_get log search_url) (fun response =>
      rbind (raise_for_status response) (fun _ =>
      rbind (response_json response) (fun data =>
      rbind (dict_get data (u "total") (JNum 0)) (fun total =>
      rbind (dict_get data (u "objectIDs") (JList [])) (fun ids =>
      rbind (slice10 ids) (fun top =>
      Return (total, top))))))) in
    match attempt with
    | Return r => (Return r, log ++ [search_url])
    | Throw _ => (Return (JNum 0, JList []), log ++ [search_url])
    end.

(* lines 195-209 *)
Definition search_artworks (query : pyval) (σ : mstate)
    : result (json * json) * mstate :=
  match search_cache σ !! query with
  | Some r => (Return r, σ)
  | None =>
    match search_artworks_body query (requests σ) with
    | (Return r, log) =>
      (Return r, mkMState (<[query := r]> (search_cache σ)) log)
    | (Throw e, log) => (Throw e, mkMState (search_cache σ) log)
    end
  end.

(** Every memoised result has at most ten ids, and the one of an empty
    query is [(0, [])]. *)
Definition search_cache_ok (ca : gmap pyval (json * json)) : Prop :=
  forall q total ids,
    ca !! q = Some (total, ids) ->
    (ids_len ids <= 10)%nat /\
    (truthy q = false -> total = JNum 0 /\ ids = JList []).

End Search.

Definition hex_options : list pystr :=
  [u "#A2C4D8"; u "#F2E8D5"; u "#3A5C3C"; u "#F7DC6F"; u "#C4B4D8";
   u "#5A7B8E"; u "#1D2E40"; u "#111111"; u "#F9F9F9"; u "#E74C3C";
   u "#F1C40F"; u "#3498DB"; u "#C4A86A"].

Section Palette.

(** NumPy's global generator and its floats are taken as they are:
    [rng] is the generator state, [F] the float type. *)
Variable rng : Type.
Variable F : Type.
(** state after [np.random.seed(n)], for a valid seed *)
Variable seed_state : Z -> rng.
(** [np.random.choice(a, size=k, replace=False)] *)
Variable np_choice : rng -> list pystr -> nat -> list pystr * rng.
(** [np.random.rand(k)] *)
Variable np_rand : rng -> nat -> list F * rng.
Variable np_sum : list F -> F.
Variable fdiv : F -> F -> F.

Definition np_random_seed (n : Z) (g : rng) : result unit * rng :=
  if (0 <=? n) && (n <? 2 ^ 32) then (Return tt, seed_state n)
  else (Throw (LibraryError (u "Seed must be between 0 and 2**32 - 1")), g).

Record DataFrame : Type := mkDataFrame {
  Artist : list pyval;
  Artwork : list pyval;
  Color_HEX : list pystr;
  Frequency : list F;
  Artwork_ID : list Z
}.

(** [pd.DataFrame(data)] for a dict of five lists. *)
Definition pd_DataFrame (artist artwork : list pyval)
    (color_hex : list pystr) (frequency : list F) (artwork_id : list Z)
    : result DataFrame :=
  let n := length artist in
  if (length artwork =? n)%nat && (length color_hex =? n)%nat &&
     (length frequency =? n)%nat && (length artwork_id =? n)%nat
  then Return (mkDataFrame artist artwork color_hex frequency artwork_id)
  else Throw (LibraryError (u "All arrays must be of the same length")).

Definition nrows (df : DataFrame) : nat := length (Artist df).

(* lines 230-250; [g] is the global generator before the call *)
Definition simulate_palette_data (object_id : Z) (title artist : pyval)
    (g : rng) : result DataFrame * rng :=
  match np_random_seed (object_id mod 100) g with
  | (Throw e, g') => (Throw e, g')
  | (Return _, g0) =>
    let '(selected_hex, g1) := np_choice g0 hex_options 5 in
    let '(frequencies, g2) := np_rand g1 5 in
    let frequencies := map (fun x => fdiv x (np_sum frequencies)) frequencies in
    (pd_DataFrame (repeat artist 5) (repeat title 5) selected_hex
       frequencies (repeat object_id 5), g2)
  end.

(** Follows the spec's words: a generator seeded with [id % 100] picks
    five colours, and five random frequency values are each divided by
    their sum. *)
Definition spec_palette (object_id : Z) : list pystr * list F :=
  let seed := object_id mod 100 in
  let '(colors, g1) := np_choice (seed_state seed) hex_options 5 in
  let raw := fst (np_rand g1 5) in
  (colors, map (fun x => fdiv x (np_sum raw)) raw).

(** The colour and frequency columns of a result, when there is one. *)
Definition palette_of (r : result DataFrame * rng)
    : option (list pystr * list F) :=
  match fst r with
  | Return df => Some (Color_HEX df, Frequency df)
  | Throw _ => None
  end.

End Palette.

Arguments mkDataFrame {F}.
Arguments Artist {F} _.
Arguments Artwork {F} _.
Arguments Color_HEX {F} _.
Arguments Frequency {F} _.
Arguments Artwork_ID {F} _.
Arguments nrows {F} df.
Arguments palette_of {rng F} r.

End Museum.


(** * Concrete collaborators used to run the script *)

Module Stubs.
Import Chain.

(** Every model answers. *)
Definition respond_ok (h : list call) (c : call) : resp :=
  match c with
  | CallChat _ _ => Returned (Some (u "Neon rain on empty streets."))
  | CallImage _ => Returned (Some (u "ref-1"))
  | CallVision _ _ =>
    Returned (Some (u "A moody blue cityscape, sparse and melancholic."))
  end.

(** The chat model is down; the image model answers. *)
Definition respond_chat_down (h : list call) (c : call) : resp :=
  match c with
  | CallChat _ _ => Raised (u "timeout")
  | CallImage _ => Returned (Some (u "ref-1"))
  | CallVision _ _ => Returned (Some (u "A grey square."))
  end.

(** The image model is down. *)
Definition respond_image_down (h : list call) (c : call) : resp :=
  match c with
  | CallChat _ _ => Returned (Some (u "Neon rain on empty streets."))
  | CallImage _ => Raised (u "quota exceeded")
  | CallVision _ _ => Returned (Some (u "never asked"))
  end.

(** [st.image] shows every image. *)
Definition image_shown (url : pyval) : option pystr := None.

Definition w_city : widgets :=
  mkWidgets (u "lonely future city") (u "AI poet").

Definition w_sea : widgets := mkWidgets (u "바다") (u "AI 철학자").

(** The values the two sidebar widgets are created with. *)
Definition w_default : widgets :=
  mkWidgets (u "미래 도시의 고독") (u "AI 시인").

Definition fresh : state := mkState ∅ ∅ [] [].

(** One click and its reruns, with the widgets left alone. *)
Definition click (respond : list call -> call -> resp) (w : widgets)
    (b : button) (σ : state) : state :=
  final_state (interact respond image_shown 3 w (Some b) w σ).

(** The session at step 3 with the image model down: the first text is
    there and the button for step 2 has just been pressed. *)
Definition at_step3 : state :=
  final_state
    (run respond_image_down image_shown w_city (Some BtnStep2)
       (click respond_image_down w_city BtnStart fresh)).

(** A whole chain: start, step 2, step 3. *)
Definition full_chain (respond : list call -> call -> resp) (w : widgets)
    (σ : state) : state :=
  click respond w BtnStep3 (click respond w BtnStep2 (click respond w BtnStart σ)).

End Stubs.

(** * Concrete collaborators for the museum functions *)

Module MuseumStubs.
Import Museum.

(** The collection answers every search with twelve object ids. *)
Definition twelve_ids : json :=
  JDict [(u "total", JNum 12);
         (u "objectIDs", JList (map (fun n => JNum (Z.of_nat n)) (seq 1 12)))].

Definition get_twelve (log : list pystr) (url : pystr)
    : result http_response :=
  Return (HttpResponse 200 (Some twelve_ids)).

Definition no_requests : mstate := mkMState ∅ [].

(** A toy generator: its state is a counter; a choice without
    replacement takes the first entries of the options rotated by the
    counter; the random numbers are the next counters over 16. *)
Definition toy_seed (n : Z) : nat := Z.to_nat n.

Definition toy_choice (g : nat) (options : list pystr) (k : nat)
    : list pystr * nat :=
  (take k (rotate g options), S g).

Definition toy_rand (g : nat) (k : nat) : list QArith_base.Q * nat :=
  (map (fun i => QArith_base.Qmake (Z.of_nat (g + i + 1)) 16) (seq 0 k),
   (g + k)%nat).

Definition toy_sum (l : list QArith_base.Q) : QArith_base.Q :=
  fold_left QArith_base.Qplus l (QArith_base.Qmake 0 1).

Abbreviation toy_simulate :=
  (simulate_palette_data nat QArith_base.Q toy_seed toy_choice toy_rand
     toy_sum QArith_base.Qdiv).

End MuseumStubs.

(** * The transformation chain: sessions between runs *)

Module ChainShape.
Import Chain.

(** Which field values go with which step once a run is over: the
    results are filled in the order of the stages. *)
Definition ordered (V : view) : Prop :=
  (v_step V = 0 \/ v_step V = 2 \/ v_step V = 3 \/ v_step V = 4 \/
   v_step V = 5 \/ v_step V = 6 \/ v_step V = 99) /\
  none_or_str (v_start_text V) /\
  none_or_str (v_image_url V) /\
  none_or_str (v_final_text V) /\
  (v_step V = 0 -> v_start_text V = VNone) /\
  (3 <= v_step V -> truthy (v_start_text V) = true) /\
  (v_step V < 4 -> v_image_url V = VNone) /\
  (4 <= v_step V <= 6 -> image_ok (v_image_url V) = true) /\
  (v_step V = 99 -> image_ok (v_image_url V) = false) /\
  (v_step V <> 6 -> v_final_text V = VNone).

Definition shaped (σ : state) : Prop :=
  cache_ok (cache σ) /\
  (sess σ !! "step" = None \/ exists V, has_view (sess σ) V /\ ordered V).

(** The buttons on a page, in the order they were put there. *)
Fixpoint buttons (page : list elem) : list button :=
  match page with
  | [] => []
  | ButtonEl b :: page' => b :: buttons page'
  | _ :: page' => buttons page'
  end.

(** The buttons the script offers for the fields of a session. *)
Definition offered (st_image : pyval -> option pystr) (V : view)
    : list button :=
  [BtnStart] ++
  (if 0 <? v_step V then [BtnReset] else []) ++
  (if (v_step V =? 2) && truthy (v_start_text V) then [BtnStep2] else []) ++
  (if (v_step V =? 4) && image_ok (v_image_url V) &&
      match st_image (v_image_url V) with
      | None => true
      | Some _ => false
      end
   then [BtnStep3] else []).

(** *** The page of a run that returns, block by block *)

(* lines 82-84 *)
Definition head_page : list elem :=
  [Title (u "🔗 AI 변환 사슬: 전달 왜곡 분석");
   Markdown (u "텍스트 $\rightarrow$ 이미지 $\rightarrow$ 텍스트 변환 사슬을 통해 AI 모델 간의 **정보 전달 왜곡**을 탐구합니다.");
   Markdown (u "---")].

(* lines 87-104 *)
Definition sidebar_page (n : Z) : list elem :=
  [Header (u "입력 및 설정"); ButtonEl BtnStart] ++
  (if 0 <? n then [ButtonEl BtnReset] else []).

(* lines 113-125 *)
Definition col1_page (n : Z) (st ro : pyval) : list elem :=
  Header (u "1. 시작 텍스트") ::
  (if truthy st
   then [Markdown (u "**역할:** " ++ py_str ro); InfoBox (py_str st)] ++
        (if n =? 2 then [ButtonEl BtnStep2] else [])
   else []).

(* lines 128-150 *)
Definition col2_page (st_image : pyval -> option pystr) (n : Z)
    (st im : pyval) : list elem :=
  Header (u "2. 중간 이미지") ::
  (if truthy im
   then Markdown (u "**프롬프트:** `" ++ py_str st ++ u "`") ::
        (if image_ok im
         then match st_image im with
              | None =>
                Image im :: (if n =? 4 then [ButtonEl BtnStep3] else [])
              | Some m => [ErrorBox (u "이미지 표시 오류: " ++ m)]
              end
         else [ErrorBox (py_str im)])
   else []).

Definition text_len (v : pyval) : Z :=
  match v with
  | VStr s => Z.of_nat (length s)
  | _ => 0
  end.

(* lines 153-171, for a first and a final text that are texts *)
Definition col3_page (st ft : pyval) : list elem :=
  Header (u "3. 최종 텍스트 (역변환)") ::
  (if truthy ft
   then [InfoBox (py_str ft);
         Markdown (u "---");
         Header (u "4. 결과 분석 및 왜곡 시각화");
         Markdown (u "**시작 텍스트 길이:** " ++ py_str_int (text_len st) ++
                   u "자");
         Markdown (u "**최종 텍스트 길이:** " ++ py_str_int (text_len ft) ++
                   u "자");
         WarningBox (u "*(LLM이 시각 정보를 묘사하며 원본 정보가 손실되거나 새로운 정보가 추가되는 '전달 왜곡' 현상 발생)*")]
   else []).

Definition page_of (st_image : pyval -> option pystr) (V : view)
    : list elem :=
  head_page ++
  sidebar_page (v_step V) ++
  col1_page (v_step V) (v_start_text V) (v_start_role V) ++
  col2_page st_image (v_step V) (v_start_text V) (v_image_url V) ++
  col3_page (v_start_text V) (v_final_text V).

(** A run with neither the start nor the reset button pressed. *)
Definition plain (e : widgets * option button) : Prop :=
  e.2 <> Some BtnStart /\ e.2 <> Some BtnReset.

End ChainShape.

Module StubsMore.
Import Chain Stubs.

(** The vision model is down. *)
Definition respond_vision_down (h : list call) (c : call) : resp :=
  match c with
  | CallChat _ _ => Returned (Some (u "Neon rain on empty streets."))
  | CallImage _ => Returned (Some (u "ref-1"))
  | CallVision _ _ => Raised (u "overloaded")
  end.

(** The chat model answers with an empty text. *)
Definition respond_chat_empty (h : list call) (c : call) : resp :=
  match c with
  | CallChat _ _ => Returned (Some [])
  | CallImage _ => Returned (Some (u "ref-1"))
  | CallVision _ _ => Returned (Some (u "never asked"))
  end.

(** The image model answers without a url. *)
Definition respond_image_none (h : list call) (c : call) : resp :=
  match c with
  | CallChat _ _ => Returned (Some (u "Neon rain on empty streets."))
  | CallImage _ => Returned None
  | CallVision _ _ => Returned (Some (u "never asked"))
  end.

(** [st.image] cannot load any image. *)
Definition image_broken (url : pyval) : option pystr :=
  Some (u "cannot identify image file").

(** The session at step 5 with the vision model down. *)
Definition at_step5 : state :=
  final_state
    (run respond_vision_down image_shown w_city (Some BtnStep3)
       (click respond_vision_down w_city BtnStep2
          (click respond_vision_down w_city BtnStart fresh))).

(** The session at step 3 with an image model that returns no url. *)
Definition at_step3_none : state :=
  final_state
    (run respond_image_none image_shown w_city (Some BtnStep2)
       (click respond_image_none w_city BtnStart fresh)).

(** The session at step 4, the image url stored. *)
Definition at_step4 : state :=
  click respond_ok w_city BtnStep2 (click respond_ok w_city BtnStart fresh).

End StubsMore.

(** * The museum dashboard: artwork details, the session and its buttons *)

Module Dashboard.
Import Museum.

(** Truth value of a parsed JSON value in a condition. *)
Definition json_truthy (j : json) : bool :=
  match j with
  | JNull => false
  | JBool b => b
  | JNum z => negb (z =? 0)
  | JStr [] => false
  | JStr (_ :: _) => true
  | JList [] => false
  | JList (_ :: _) => true
  | JDict [] => false
  | JDict (_ :: _) => true
  end.

(** Equality of the values [st.cache_data] keys a call by: the type
    counts, so [1] and [True] are different arguments. *)
Fixpoint json_eqb (a b : json) {struct a} : bool :=
  match a, b with
  | JNull, JNull => true
  | JBool x, JBool y => Bool.eqb x y
  | JNum x, JNum y => x =? y
  | JStr x, JStr y => bool_decide (x = y)
  | JList l, JList l' =>
    (fix go (l l' : list json) {struct l} : bool :=
       match l, l' with
       | [], [] => true
       | x :: xs, y :: ys => json_eqb x y && go xs ys
       | _, _ => false
       end) l l'
  | JDict kv, JDict kv' =>
    (fix go (kv kv' : list (pystr * json)) {struct kv} : bool :=
       match kv, kv' with
       | [], [] => true
       | (k, x) :: xs, (k', y) :: ys =>
         bool_decide (k = k') && json_eqb x y && go xs ys
       | _, _ => false
       end) kv kv'
  | _, _ => false
  end.

(** [total > 0]; a bool is an int. *)
Definition py_gt0 (j : json) : result bool :=
  match j with
  | JNum z => Return (0 <? z)
  | JBool b => Return b
  | _ => Throw (TypeError "'>' not supported")
  end.

(** The items of [for x in v]. *)
Definition py_iter (v : json) : result (list json) :=
  match v with
  | JList l => Return l
  | JStr s => Return (map (fun c => JStr [c]) s)
  | JDict kv => Return (map (fun p => JStr p.1) kv)
  | _ => Throw (TypeError "object is not iterable")
  end.

(** *** Python dicts keyed by JSON values *)

(** What a dict compares keys by: lists and dicts cannot be keys, and
    [True] is the key [1]. *)
Inductive key : Type :=
| KNone
| KInt (z : Z)
| KStr (s : pystr).

#[global] Instance key_eq_dec : EqDecision key.
Proof. solve_decision. Defined.

Definition key_of (j : json) : option key :=
  match j with
  | JNull => Some KNone
  | JBool b => Some (KInt (Z.b2z b))
  | JNum z => Some (KInt z)
  | JStr s => Some (KStr s)
  | JList _ | JDict _ => None
  end.

Section Dict.
Context {V : Type}.

(** A dict in insertion order: the key objects with their values. *)
Fixpoint dict_find (k : key) (d : list (json * V)) : option V :=
  match d with
  | [] => None
  | (j, v) :: d' =>
    if decide (key_of j = Some k) then Some v else dict_find k d'
  end.

Fixpoint dict_put (k : key) (j : json) (v : V) (d : list (json * V))
    : list (json * V) :=
  match d with
  | [] => [(j, v)]
  | (j', v') :: d' =>
    if decide (key_of j' = Some k) then (j', v) :: d'
    else (j', v') :: dict_put k j v d'
  end.

(** [d[j] = v] *)
Definition dict_set (j : json) (v : V) (d : list (json * V))
    : result (list (json * V)) :=
  match key_of j with
  | Some k => Return (dict_put k j v d)
  | None => Throw (TypeError "unhashable type")
  end.

(** [j in d] *)
Definition dict_has (j : json) (d : list (json * V)) : result bool :=
  match key_of j with
  | Some k =>
    Return (match dict_find k d with
            | Some _ => true
            | None => false
            end)
  | None => Throw (TypeError "unhashable type")
  end.

Fixpoint dict_remove (k : key) (d : list (json * V)) : list (json * V) :=
  match d with
  | [] => []
  | (j, v) :: d' =>
    if decide (key_of j = Some k) then dict_remove k d'
    else (j, v) :: dict_remove k d'
  end.

(** [del d[j]] *)
Definition dict_del (j : json) (d : list (json * V))
    : result (list (json * V)) :=
  match key_of j with
  | Some k =>
    match dict_find k d with
    | Some _ => Return (dict_remove k d)
    | None => Throw (LibraryError (u "KeyError"))
    end
  | None => Throw (TypeError "unhashable type")
  end.

End Dict.

(** [kv.get(key, default)] for the pairs of a JSON object. *)
Definition field_or (kv : list (pystr * json)) (key : pystr)
    (default : json) : json :=
  match assoc key kv with
  | Some v => v
  | None => default
  end.

(** The dict [get_artwork_details] returns. *)
Record detail : Type := mkDetail {
  title : json;
  artist : json;
  year : json;
  image_url : json;
  object_id : json
}.

(** An entry of the search results: its key can be a key, it is the id
    the details were asked for, and the artwork has an image. *)
Definition entry_ok (e : json * detail) : Prop :=
  is_Some (key_of e.1) /\
  key_of (object_id e.2) = key_of e.1 /\
  json_truthy (image_url e.2) = true.

Definition keys {V : Type} (d : list (json * V)) : list (option key) :=
  map (fun e => key_of e.1) d.

(** Every memoised search result can be iterated over and has at most
    ten items. *)
Definition search_cache_sliced (ca : gmap pyval (json * json)) : Prop :=
  forall q total ids,
    ca !! q = Some (total, ids) ->
    exists items, py_iter ids = Return items /\ (length items <= 10)%nat.

Fixpoint cache_find (k : json) (c : list (json * option detail))
    : option (option detail) :=
  match c with
  | [] => None
  | (k', r) :: c' => if json_eqb k' k then Some r else cache_find k c'
  end.

Section App.

(** [requests.get], as for the search. *)
Variable requests_get : list pystr -> pystr -> result http_response.
(** The text an f-string inserts for a list or a dict. *)
Variable repr_of : json -> pystr.
(** NumPy, as for the palette. *)
Variable rng : Type.
Variable F : Type.
Variable seed_state : Z -> rng.
Variable np_choice : rng -> list pystr -> nat -> list pystr * rng.
Variable np_rand : rng -> nat -> list F * rng.
Variable np_sum : list F -> F.
Variable fdiv : F -> F -> F.
(** The table cell that holds a JSON value which is not [None], an int
    or a text. *)
Variable cell_other : json -> pyval.

(** The text an f-string inserts for a value. *)
Definition format_value (j : json) : pystr :=
  match j with
  | JNull => u "None"
  | JBool true => u "True"
  | JBool false => u "False"
  | JNum z => py_str_int z
  | JStr s => s
  | JList _ | JDict _ => repr_of j
  end.

(* line 214 *)
Definition object_url (object_id : json) : pystr :=
  MET_API_URL ++ u "objects/" ++ format_value object_id.

(* lines 214-228, the function under the decorator *)
Definition get_artwork_details_body (object_id : json) (log : list pystr)
    : option detail * list pystr :=
  let url := object_url object_id in
  let attempt :=
    rbind (requests_get log url) (fun response =>
    rbind (raise_for_status response) (fun _ =>
    rbind (response_json response) (fun data =>
    rbind (dict_get data (u "title") (JStr (u "제목 없음"))) (fun title =>
    rbind (dict_get data (u "artistDisplayName") (JStr (u "작가 미상")))
      (fun artist =>
    rbind (dict_get data (u "objectDate") (JStr (u "불명"))) (fun year =>
    rbind (dict_get data (u "primaryImage") JNull) (fun image_url =>
    Return (mkDetail title artist year image_url object_id)))))))) in
  match attempt with
  | Return d => (Some d, log ++ [url])
  | Throw _ => (None, log ++ [url])
  end.

(** What the second script works on, apart from its session: the memo
    table and the request log of the search, the memo table of the
    details, and NumPy's global generator. *)
Record world : Type := mkWorld {
  net : mstate;
  detail_cache : list (json * option detail);
  gen : rng
}.

(* lines 211-228 *)
Definition get_artwork_details (object_id : json) (ω : world)
    : option detail * world :=
  match cache_find object_id (detail_cache ω) with
  | Some r => (r, ω)
  | None =>
    let '(r, log) := get_artwork_details_body object_id (requests (net ω)) in
    (r, mkWorld (mkMState (search_cache (net ω)) log)
          ((object_id, r) :: detail_cache ω) (gen ω))
  end.

(** Every memoised detail is the one of the id it is stored under. *)
Definition details_ok (ω : world) : Prop :=
  forall k d,
    cache_find k (detail_cache ω) = Some (Some d) -> object_id d = k.

(** *** Tables *)

(** [pd.DataFrame()] *)
Definition empty_frame : DataFrame F := mkDataFrame [] [] [] [] [].

Definition df_append (a b : DataFrame F) : DataFrame F :=
  mkDataFrame (Artist a ++ Artist b) (Artwork a ++ Artwork b)
    (Color_HEX a ++ Color_HEX b) (Frequency a ++ Frequency b)
    (Artwork_ID a ++ Artwork_ID b).

(** [pd.concat(frames, ignore_index=True)] *)
Definition pd_concat (frames : list (DataFrame F)) : result (DataFrame F) :=
  match frames with
  | [] => Throw (LibraryError (u "No objects to concatenate"))
  | df :: rest => Return (fold_left df_append rest df)
  end.

(** A JSON value in a table cell. *)
Definition cell (j : json) : pyval :=
  match j with
  | JNull => VNone
  | JNum z => VInt z
  | JStr s => VStr s
  | _ => cell_other j
  end.

(** [object_id % 100] is taken of an int; a bool is an int; for any
    other value the call raises before it has seeded the generator or
    when it seeds it. *)
Definition id_int (j : json) : result Z :=
  match j with
  | JNum z => Return z
  | JBool b => Return (Z.b2z b)
  | _ => Throw (TypeError "unsupported operand type(s) for %")
  end.

(** [simulate_palette_data] called with values of a session. *)
Definition simulate_for (object_id title artist : json) (g : rng)
    : result (DataFrame F) * rng :=
  match id_int object_id with
  | Return z =>
    simulate_palette_data rng F seed_state np_choice np_rand np_sum fdiv
      z (cell title) (cell artist) g
  | Throw e => (Throw e, g)
  end.

(* lines 337-338, the list comprehension *)
Fixpoint simulate_all (arts : list detail) (g : rng)
    : result (list (DataFrame F)) * rng :=
  match arts with
  | [] => (Return [], g)
  | a :: rest =>
    match simulate_for (object_id a) (title a) (artist a) g with
    | (Throw e, g1) => (Throw e, g1)
    | (Return df, g1) =>
      match simulate_all rest g1 with
      | (Return frames, g2) => (Return (df :: frames), g2)
      | (Throw e, g2) => (Throw e, g2)
      end
    end
  end.

(** *** The session *)

(** The table of a session is kept by its five columns; the column that
    [create_heatmap] adds to it in place is not part of it. *)
Record session : Type := mkSession {
  step : Z;
  search_results_details : option (list (json * detail));
  analyzed_artworks : list (json * detail);
  df_palette : DataFrame F
}.

(* lines 186-190: the four keys are created together *)
Definition new_session : session := mkSession 0 None [] empty_frame.

Definition init (s : option session) : session :=
  match s with
  | Some s => s
  | None => new_session
  end.

(** How the run of a click ends: with [st.rerun()], with an uncaught
    exception, or by going on to draw the page. *)
Inductive run_end : Type :=
| Restarted (s : option session) (ω : world)
| Crashed (e : exn) (s : option session) (ω : world)
| Continued (s : option session) (ω : world).

(* lines 308-311; the dict is filled in place, so what was stored before
   an exception stays *)
Fixpoint load_details (ids : list json) (found : list (json * detail))
    (ω : world) : option exn * list (json * detail) * world :=
  match ids with
  | [] => (None, found, ω)
  | object_id :: rest =>
    let '(detail, ω1) := get_artwork_details object_id ω in
    match detail with
    | Some d =>
      if json_truthy (image_url d) then
        match dict_set object_id d found with
        | Return found1 => load_details rest found1 ω1
        | Throw e => (Some e, found, ω1)
        end
      else load_details rest found ω1
    | None => load_details rest found ω1
    end
  end.

Definition with_net (n : mstate) (ω : world) : world :=
  mkWorld n (detail_cache ω) (gen ω).

Definition with_gen (g : rng) (ω : world) : world :=
  mkWorld (net ω) (detail_cache ω) g.

(* lines 301-320 *)
Definition on_search (search_query : pystr) (s : session) (ω : world)
    : run_end :=
  if truthy (VStr search_query) then
    match search_artworks requests_get (VStr search_query) (net ω) with
    | (Throw e, n1) => Crashed e (Some s) (with_net n1 ω)
    | (Return (total, ids), n1) =>
      let ω1 := with_net n1 ω in
      match py_gt0 total with
      | Throw e => Crashed e (Some s) ω1
      | Return true =>
        let s1 :=
          mkSession (step s) (Some []) (analyzed_artworks s) (df_palette s) in
        match py_iter ids with
        | Throw e => Crashed e (Some s1) ω1
        | Return items =>
          let '(err, found, ω2) := load_details items [] ω1 in
          match err with
          | Some e =>
            Crashed e
              (Some (mkSession (step s) (Some found) (analyzed_artworks s)
                       (df_palette s))) ω2
          | None =>
            Restarted
              (Some (mkSession 1 (Some found) (analyzed_artworks s)
                       (df_palette s))) ω2
          end
        end
      | Return false =>
        Restarted
          (Some (mkSession 0 (search_results_details s)
                   (analyzed_artworks s) (df_palette s))) ω1
      end
    end
  else Continued (Some s) ω.

(* lines 334-340 *)
Definition on_delete (obj_id : json) (s : session) (ω : world) : run_end :=
  match dict_del obj_id (analyzed_artworks s) with
  | Throw e => Crashed e (Some s) ω
  | Return rest =>
    let s1 :=
      mkSession (step s) (search_results_details s) rest (df_palette s) in
    match simulate_all (map snd rest) (gen ω) with
    | (Throw e, g) => Crashed e (Some s1) (with_gen g ω)
    | (Return frames, g) =>
      match pd_concat frames with
      | Throw e => Crashed e (Some s1) (with_gen g ω)
      | Return df =>
        Restarted
          (Some (mkSession (step s) (search_results_details s) rest df))
          (with_gen g ω)
      end
    end
  end.

(* lines 345-347 *)
Definition on_reset (ω : world) : run_end := Restarted None ω.

(* lines 371-378 *)
Definition on_add (obj_id : json) (d : detail) (s : session) (ω : world)
    : run_end :=
  match dict_set obj_id d (analyzed_artworks s) with
  | Throw e => Crashed e (Some s) ω
  | Return arts =>
    let s1 :=
      mkSession (step s) (search_results_details s) arts (df_palette s) in
    match simulate_for obj_id (title d) (artist d) (gen ω) with
    | (Throw e, g) => Crashed e (Some s1) (with_gen g ω)
    | (Return new_df, g) =>
      match pd_concat [df_palette s; new_df] with
      | Throw e => Crashed e (Some s1) (with_gen g ω)
      | Return df =>
        Restarted (Some (mkSession 2 (search_results_details s) arts df))
          (with_gen g ω)
      end
    end
  end.

(** A click: the search button with the text of the input, the delete
    button of the i-th analysed artwork, the reset button, the add
    button of the i-th search result. *)
Inductive event : Type :=
| ClickSearch (search_query : pystr)
| ClickDelete (i : nat)
| ClickReset
| ClickAdd (i : nat).

(** The run of a click, up to the block of its button: the session is
    created when there is none, and a button that the page does not
    have cannot be clicked. *)
Definition handle (e : event) (s : option session) (ω : world) : run_end :=
  let s0 := init s in
  match e with
  | ClickSearch q => on_search q s0 ω
  | ClickDelete i =>
    match analyzed_artworks s0 !! i with
    | Some (obj_id, _) => on_delete obj_id s0 ω
    | None => Continued (Some s0) ω
    end
  | ClickReset => on_reset ω
  | ClickAdd i =>
    match search_results_details s0 with
    | Some results =>
      if 1 <=? step s0 then
        match results !! i with
        | Some (obj_id, d) =>
          match dict_has obj_id (analyzed_artworks s0) with
          | Return false => on_add obj_id d s0 ω
          | Return true => Continued (Some s0) ω
          | Throw e => Crashed e (Some s0) ω
          end
        | None => Continued (Some s0) ω
        end
      else Continued (Some s0) ω
    | None => Continued (Some s0) ω
    end
  end.

(** The session and the world a run leaves behind. *)
Definition session_of (r : run_end) : option session :=
  match r with
  | Restarted s _ | Crashed _ s _ | Continued s _ => s
  end.

Definition world_of (r : run_end) : world :=
  match r with
  | Restarted _ ω | Crashed _ _ ω | Continued _ ω => ω
  end.

Definition crashed (r : run_end) : bool :=
  match r with
  | Crashed _ _ _ => true
  | _ => false
  end.

(** Clicks one after the other, as long as none ends in an exception. *)
Fixpoint handle_all (es : list event) (s : option session) (ω : world)
    : option (option session * world) :=
  match es with
  | [] => Some (s, ω)
  | e :: es' =>
    match handle e s ω with
    | Crashed _ _ _ => None
    | Restarted s' ω' | Continued s' ω' => handle_all es' s' ω'
    end
  end.

(* lines 396-398: the options of the select box, by their label *)
Definition option_label (d : detail) : pystr :=
  u "[" ++ format_value (artist d) ++ u "] " ++ format_value (title d).

Definition artwork_options (arts : list (json * detail))
    : list (json * json) :=
  fold_left
    (fun options e =>
       dict_put (KStr (option_label e.2)) (JStr (option_label e.2)) e.1
         options)
    arts [].

(* line 401; [st.selectbox] returns one of the labels, or [None] when
   there is none *)
Definition selected_id (options : list (json * json))
    (selected_title : option pystr) : result json :=
  match dict_find (match selected_title with
                   | Some t => KStr t
                   | None => KNone
                   end) options with
  | Some k => Return k
  | None => Throw (LibraryError (u "KeyError"))
  end.

(** A row of the table. *)
Record row : Type := mkRow {
  r_artist : pyval;
  r_artwork : pyval;
  r_hex : pystr;
  r_frequency : F;
  r_id : Z
}.

Fixpoint rows5 (a w : list pyval) (c : list pystr) (f : list F)
    (i : list Z) : list row :=
  match a, w, c, f, i with
  | a0 :: a', w0 :: w', c0 :: c', f0 :: f', i0 :: i' =>
    mkRow a0 w0 c0 f0 i0 :: rows5 a' w' c' f' i'
  | _, _, _, _, _ => []
  end.

Definition df_rows (df : DataFrame F) : list row :=
  rows5 (Artist df) (Artwork df) (Color_HEX df) (Frequency df)
    (Artwork_ID df).

Definition df_of_rows (rs : list row) : DataFrame F :=
  mkDataFrame (map r_artist rs) (map r_artwork rs) (map r_hex rs)
    (map r_frequency rs) (map r_id rs).

(** A table whose columns have one length. *)
Definition rect (df : DataFrame F) : Prop :=
  length (Artwork df) = length (Artist df) /\
  length (Color_HEX df) = length (Artist df) /\
  length (Frequency df) = length (Artist df) /\
  length (Artwork_ID df) = length (Artist df).

(* lines 270 and 403: [df[df['Artwork_ID'] == selected_id]] for the key
   of a dict; the column holds ints, which no text and no [None] is
   equal to *)
Definition rows_with_id (df : DataFrame F) (selected_id : json)
    : DataFrame F :=
  df_of_rows
    (List.filter
       (fun r => match id_int selected_id with
                 | Return z => r_id r =? z
                 | Throw _ => false
                 end)
       (df_rows df)).

(** The five rows of an artwork. *)
Definition rows_of (d : detail) : DataFrame F :=
  let z := match id_int (object_id d) with
           | Return z => z
           | Throw _ => 0
           end in
  let p := spec_palette rng F seed_state np_choice np_rand np_sum fdiv z in
  mkDataFrame (repeat (cell (artist d)) 5) (repeat (cell (title d)) 5)
    p.1 p.2 (repeat z 5).

(** The table of a list of artworks: their rows, one artwork after the
    other. *)
Definition frame_of (arts : list (json * detail)) : DataFrame F :=
  fold_left df_append (map (fun e => rows_of e.2) arts) empty_frame.

(** A session in which the table is the one of the analysed artworks,
    the step is 0, 1 or 2, and step 2 comes with an analysed artwork. *)
Definition tidy (s : session) : Prop :=
  match search_results_details s with
  | Some r => Forall entry_ok r /\ NoDup (keys r)
  | None => True
  end /\
  Forall entry_ok (analyzed_artworks s) /\
  NoDup (keys (analyzed_artworks s)) /\
  Forall (fun e => exists z, id_int (object_id e.2) = Return z)
    (analyzed_artworks s) /\
  df_palette s = frame_of (analyzed_artworks s) /\
  (step s = 0 \/ step s = 1 \/ step s = 2) /\
  (step s = 2 -> analyzed_artworks s <> []).

Definition ok_session (s : option session) : Prop :=
  match s with
  | None => True
  | Some s => tidy s
  end.

End App.

Arguments mkWorld {rng}.
Arguments net {rng} _.
Arguments detail_cache {rng} _.
Arguments gen {rng} _.
Arguments mkSession {F}.
Arguments step {F} _.
Arguments search_results_details {F} _.
Arguments analyzed_artworks {F} _.
Arguments df_palette {F} _.
Arguments empty_frame {F}.
Arguments df_append {F}.
Arguments pd_concat {F}.
Arguments new_session {F}.
Arguments init {F}.
Arguments Restarted {rng F}.
Arguments Crashed {rng F}.
Arguments Continued {rng F}.
Arguments session_of {rng F}.
Arguments world_of {rng F}.
Arguments crashed {rng F}.
Arguments with_net {rng}.
Arguments with_gen {rng}.
Arguments details_ok {rng}.

End Dashboard.

(** * Concrete collaborators for the dashboard *)

Module DashboardStubs.
Import Museum MuseumStubs Dashboard.

Definition no_repr (j : json) : pystr := [].

Definition no_cell (j : json) : pyval := VNone.

Definition van_gogh : json :=
  JDict [(u "title", JStr (u "Wheat Field with Cypresses"));
         (u "artistDisplayName", JStr (u "Vincent van Gogh"));
         (u "primaryImage", JStr (u "https://images.example/436535.jpg"))].

Definition no_image : json :=
  JDict [(u "title", JStr (u "Chair"));
         (u "artistDisplayName", JStr (u ""));
         (u "objectDate", JStr (u "ca. 1900"));
         (u "primaryImage", JStr (u ""))].

(** The collection: a search finds twelve ids; object 3 is not found,
    object 5 has no image, every other object is the same painting. *)
Definition collection (log : list pystr) (url : pystr)
    : result http_response :=
  if startswith url (MET_API_URL ++ u "search") then
    Return (HttpResponse 200 (Some twelve_ids))
  else if bool_decide (url = object_url no_repr (JNum 3)) then
    Return (HttpResponse 404 None)
  else if bool_decide (url = object_url no_repr (JNum 5)) then
    Return (HttpResponse 200 (Some no_image))
  else Return (HttpResponse 200 (Some van_gogh)).

(** The collection is unreachable. *)
Definition offline (log : list pystr) (url : pystr)
    : result http_response :=
  Throw (LibraryError (u "ConnectionError")).

(** The collection answers a search without a count. *)
Definition no_total (log : list pystr) (url : pystr)
    : result http_response :=
  Return (HttpResponse 200
            (Some (JDict [(u "total", JNull);
                          (u "objectIDs", JList [JNum 1; JNum 2])]))).

(** A server process that has fetched nothing yet. *)
Definition world0 : world nat := mkWorld no_requests [] 0%nat.

(** The session of a first run. *)
Definition session0 : session QArith_base.Q := new_session.

Abbreviation toy_handle :=
  (handle collection no_repr nat QArith_base.Q toy_seed toy_choice toy_rand
     toy_sum QArith_base.Qdiv no_cell).

Abbreviation toy_handle_all :=
  (handle_all collection no_repr nat QArith_base.Q toy_seed toy_choice
     toy_rand toy_sum QArith_base.Qdiv no_cell).

Abbreviation toy_frame :=
  (frame_of nat QArith_base.Q toy_seed toy_choice toy_rand toy_sum
     QArith_base.Qdiv no_cell).

Abbreviation toy_rows :=
  (rows_of nat QArith_base.Q toy_seed toy_choice toy_rand toy_sum
     QArith_base.Qdiv no_cell).

(** The session and the world after some clicks in a new session of a
    new server process, when none of them raised. *)
Definition session_after (es : list event) : session QArith_base.Q :=
  match toy_handle_all es None world0 with
  | Some (Some s, _) => s
  | _ => new_session
  end.

Definition world_after (es : list event) : world nat :=
  match toy_handle_all es None world0 with
  | Some (_, ω) => ω
  | None => world0
  end.

Definition results_after (es : list event) : list (json * detail) :=
  match search_results_details (session_after es) with
  | Some r => r
  | None => []
  end.

(** What the collection holds for most ids. *)
Definition painting (n : Z) : detail :=
  mkDetail (JStr (u "Wheat Field with Cypresses"))
    (JStr (u "Vincent van Gogh")) (JStr (u "불명"))
    (JStr (u "https://images.example/436535.jpg")) (JNum n).

Definition monet : list event := [ClickSearch (u "monet")].

(** Two chairs without a known maker, and a vase. *)
Definition chair (n : Z) : detail :=
  mkDetail (JStr (u "Chair")) (JStr (u "작가 미상")) (JStr (u "ca. 1900"))
    (JStr (u "https://images.example/chair.jpg")) (JNum n).

Definition vase : detail :=
  mkDetail (JStr (u "Vase")) (JStr (u "작가 미상")) (JStr (u "불명"))
    (JStr (u "https://images.example/vase.jpg")) (JNum 30).

Definition reached (es : list event) : bool :=
  match toy_handle_all es None world0 with
  | Some (Some _, _) => true
  | _ => false
  end.

End DashboardStubs.

(** * Facts about the transformation chain *)

Module ChainFacts.
Import Chain.

Lemma bind_ok {A B} (m : M A) (f : A -> M B) σ a σ' :
  m σ = Ok a σ' -> bind m f σ = f a σ'.
Proof. unfold bind. by intros ->. Qed.

Lemma bind_rerun {A B} (m : M A) (f : A -> M B) σ σ' :
  m σ = Rerun σ' -> bind m f σ = Rerun σ'.
Proof. unfold bind. by intros ->. Qed.

Lemma bind_raise {A B} (m : M A) (f : A -> M B) σ e σ' :
  m σ = Raise e σ' -> bind m f σ = Raise e σ'.
Proof. unfold bind. by intros ->. Qed.

Ltac unfold_prims :=
  unfold cache_data, try_except, api, st_button, st_image_show, bind, when,
    sget, sset, shas, emit, ret, raise, st_rerun, smodify, py_gt_int,
    py_len, py_startswith, with_sess, with_out, with_cache, with_calls.

Ltac look :=
  repeat first
    [ rewrite lookup_insert_eq
    | rewrite lookup_insert_ne by done
    | match goal with
      | H : ?s !! ?k = _ |- context [?s !! ?k] => rewrite H
      end ].

Ltac exec := repeat progress (cbn; look).

Ltac solve_post :=
  eexists; split; [reflexivity |];
  unfold post, has_view; cbn; look; done.

Lemma truthy_str v : none_or_str v -> truthy v = true -> is_str v.
Proof. intros [-> | H] T; [done | exact H]. Qed.

Lemma startswith_app p s : startswith (p ++ s) p = true.
Proof. induction p as [| c p IH]; cbn; [done |]. by rewrite N.eqb_refl. Qed.

Lemma has_view_inj s V V' : has_view s V -> has_view s V' -> V = V'.
Proof.
  destruct V, V'. unfold has_view. cbn.
  intros (E1 & E2 & E3 & E4 & E5 & E6) (E1' & E2' & E3' & E4' & E5' & E6').
  congruence.
Qed.

Section Stages.
Variable respond : list call -> call -> resp.

(** A stage function returns [stage_value] and leaves [stage_cache] and
    [stage_calls] behind; the session and the page are not touched. *)
Lemma transform_eq (s : stage) σ :
  transform respond s σ =
  Ok (stage_value respond s (cache σ) (calls σ))
     (mkState (sess σ) (stage_cache respond s (cache σ) (calls σ))
        (stage_calls s (cache σ) (calls σ)) (out σ)).
Proof.
  destruct σ as [se ca l o].
  destruct s; cbn -[u];
    unfold generate_start_text, generate_image_from_text,
      analyze_image_to_text, stage_value, stage_cache, stage_calls,
      request1;
    unfold_prims; cbn -[u];
    (match goal with
     | |- context [ca !! ?k] => destruct (ca !! k) eqn:E
     end; cbn -[u]; [done |]);
    unfold request1;
    match goal with
    | |- context [respond l ?c] => destruct (respond l c) eqn:E'
    end; cbn -[u]; rewrite ?E'; done.
Qed.

Lemma stage_value_ok s ca l :
  cache_ok ca -> none_or_str (stage_value respond s ca l).
Proof.
  intros H. unfold stage_value.
  destruct (ca !! stage_key s) eqn:E; [by eapply H |].
  destruct (respond l (stage_request s)) as [[v |] | m]; cbn;
    [right | left | right]; try done; by eexists.
Qed.

Lemma stage_cache_ok s ca l :
  cache_ok ca -> cache_ok (stage_cache respond s ca l).
Proof.
  intros H. unfold stage_cache.
  destruct (ca !! stage_key s) eqn:E; [done |].
  intros k' v'. rewrite lookup_insert. case_decide; [| by apply H].
  intros [= <-].
  pose proof (stage_value_ok s ca l H) as G.
  unfold stage_value in G. by rewrite E in G.
Qed.

Lemma stage_cache_lookup s ca l :
  stage_cache respond s ca l !! stage_key s =
  Some (stage_value respond s ca l).
Proof.
  unfold stage_cache, stage_value.
  destruct (ca !! stage_key s) eqn:E; [done |].
  by rewrite lookup_insert_eq.
Qed.

Lemma stage_cache_other s k' ca l :
  stage_key s <> k' -> stage_cache respond s ca l !! k' = ca !! k'.
Proof.
  intros Hne. unfold stage_cache. destruct (ca !! stage_key s); [done |].
  by rewrite lookup_insert_ne.
Qed.

End Stages.


Arguments transform : simpl never.
Arguments generate_start_text : simpl never.
Arguments generate_image_from_text : simpl never.
Arguments analyze_image_to_text : simpl never.
Arguments result_analysis : simpl never.

Section Blocks.
Variable respond : list call -> call -> resp.
Variable st_image : pyval -> option pystr.
Variable w : widgets.
Variable clicked : option button.

Lemma init_block_present σ v :
  sess σ !! "step" = Some v -> init_block σ = Ok tt σ.
Proof. intros H. unfold init_block. unfold_prims. by rewrite H. Qed.

Lemma init_block_absent σ :
  sess σ !! "step" = None ->
  init_block σ = Ok tt (with_sess init_keys σ).
Proof. intros H. unfold init_block. unfold_prims. by rewrite H. Qed.

Lemma init_keys_view s :
  has_view (init_keys s)
    (View 0 VNone VNone VNone (VStr (u "")) (VStr (u "AI 시인"))).
Proof. unfold has_view, init_keys. cbn. look. done. Qed.

Lemma sidebar_start σ :
  clicked = Some BtnStart ->
  exists σ', sidebar w clicked σ = Ok tt σ' /\
    post σ' (View 1 VNone VNone VNone (VStr (topic_input w))
               (VStr (role_select w))) (cache σ) (calls σ).
Proof.
  intros ->. destruct σ as [s ca l o].
  unfold sidebar. unfold_prims. exec. solve_post.
Qed.

Lemma sidebar_reset σ n :
  clicked = Some BtnReset ->
  sess σ !! "step" = Some (VInt n) -> 0 < n ->
  exists σ', sidebar w clicked σ = Rerun σ' /\
    sess σ' = reset_keys (<["start_role" := VStr (role_select w)]>
                 (<["user_topic" := VStr (topic_input w)]> (sess σ))) /\
    cache σ' = cache σ /\ calls σ' = calls σ.
Proof.
  intros -> Hn Hpos. destruct σ as [s ca l o]. cbn in *.
  unfold sidebar. unfold_prims. exec.
  destruct (0 <? n) eqn:E; [| lia]. exec.
  eexists; split; [reflexivity |]. done.
Qed.

Lemma sidebar_idle σ n st im ft ut ro :
  has_view (sess σ) (View n st im ft ut ro) ->
  clicked <> Some BtnStart ->
  (clicked <> Some BtnReset \/ n <= 0) ->
  exists σ', sidebar w clicked σ = Ok tt σ' /\
    post σ' (View n st im ft (VStr (topic_input w)) (VStr (role_select w)))
      (cache σ) (calls σ).
Proof.
  intros (Hn & Hst & Him & Hft & _) Hc Hr.
  destruct σ as [s ca l o]. cbn in *.
  unfold sidebar. unfold_prims. exec.
  destruct clicked as [[] |]; try done; exec;
    destruct (0 <? n) eqn:E; exec; try solve_post.
  destruct Hr; [done | lia].
Qed.

Lemma generate_start_text_eq topic role σ :
  generate_start_text respond topic role σ =
  Ok (stage_value respond (Stage1 topic role) (cache σ) (calls σ))
     (mkState (sess σ)
        (stage_cache respond (Stage1 topic role) (cache σ) (calls σ))
        (stage_calls (Stage1 topic role) (cache σ) (calls σ)) (out σ)).
Proof. exact (transform_eq respond (Stage1 topic role) σ). Qed.

Lemma generate_image_from_text_eq prompt σ :
  generate_image_from_text respond prompt σ =
  Ok (stage_value respond (Stage2 prompt) (cache σ) (calls σ))
     (mkState (sess σ)
        (stage_cache respond (Stage2 prompt) (cache σ) (calls σ))
        (stage_calls (Stage2 prompt) (cache σ) (calls σ)) (out σ)).
Proof. exact (transform_eq respond (Stage2 prompt) σ). Qed.

Lemma analyze_image_to_text_eq image_url σ :
  analyze_image_to_text respond image_url σ =
  Ok (stage_value respond (Stage3 image_url) (cache σ) (calls σ))
     (mkState (sess σ)
        (stage_cache respond (Stage3 image_url) (cache σ) (calls σ))
        (stage_calls (Stage3 image_url) (cache σ) (calls σ)) (out σ)).
Proof. exact (transform_eq respond (Stage3 image_url) σ). Qed.

Lemma col1_stage σ st im ft ut ro :
  has_view (sess σ) (View 1 st im ft ut ro) ->
  exists σ', col1 respond clicked σ = Rerun σ' /\
    post σ'
      (View 2 (stage_value respond (Stage1 ut ro) (cache σ) (calls σ))
         im ft ut ro)
      (stage_cache respond (Stage1 ut ro) (cache σ) (calls σ))
      (stage_calls (Stage1 ut ro) (cache σ) (calls σ)).
Proof.
  intros (Hn & Hst & Him & Hft & Hut & Hro).
  destruct σ as [s ca l o]. cbn in *.
  unfold col1.
  unfold bind, when, sget, sset, emit, st_rerun, with_sess, with_out.
  exec. rewrite generate_start_text_eq. exec. solve_post.
Qed.

Lemma col1_click σ st im ft ut ro :
  has_view (sess σ) (View 2 st im ft ut ro) ->
  truthy st = true -> clicked = Some BtnStep2 ->
  exists σ', col1 respond clicked σ = Rerun σ' /\
    post σ' (View 3 st im ft ut ro) (cache σ) (calls σ).
Proof.
  intros (Hn & Hst & Him & Hft & Hut & Hro) T ->.
  destruct σ as [s ca l o]. cbn in *.
  unfold col1. unfold_prims. exec. rewrite T. exec. solve_post.
Qed.

Lemma col1_idle σ n st im ft ut ro :
  has_view (sess σ) (View n st im ft ut ro) ->
  n <> 1 ->
  (n = 2 -> truthy st = true -> clicked <> Some BtnStep2) ->
  exists σ', col1 respond clicked σ = Ok tt σ' /\
    post σ' (View n st im ft ut ro) (cache σ) (calls σ).
Proof.
  intros (Hn & Hst & Him & Hft & Hut & Hro) N1 Hc.
  destruct σ as [s ca l o]. cbn in *.
  unfold col1. unfold_prims. exec.
  destruct (n =? 1) eqn:E1; [lia |]. exec.
  destruct (truthy st) eqn:T; exec; [| solve_post].
  destruct (n =? 2) eqn:E2; exec; [| solve_post].
  destruct clicked as [[] |]; exec; try solve_post.
  exfalso. apply Hc; [lia | done | done].
Qed.

Lemma col2_stage σ st im ft ut ro :
  has_view (sess σ) (View 3 st im ft ut ro) ->
  none_or_str (stage_value respond (Stage2 st) (cache σ) (calls σ)) ->
  exists σ', col2 respond st_image clicked σ = Rerun σ' /\
    post σ'
      (View (if image_ok (stage_value respond (Stage2 st) (cache σ) (calls σ))
             then 4 else 99)
         st (stage_value respond (Stage2 st) (cache σ) (calls σ)) ft ut ro)
      (stage_cache respond (Stage2 st) (cache σ) (calls σ))
      (stage_calls (Stage2 st) (cache σ) (calls σ)).
Proof.
  intros (Hn & Hst & Him & Hft & Hut & Hro) HV.
  destruct σ as [s ca l o]. cbn in *.
  unfold col2.
  unfold bind, when, sget, sset, emit, st_rerun, with_sess, with_out, ret,
    py_startswith.
  exec. rewrite generate_image_from_text_eq. exec.
  destruct HV as [-> | [t ->]]; exec; [solve_post |].
  destruct t as [| c t]; exec; [solve_post |].
  destruct (startswith (c :: t) error_prefix_image) eqn:E; exec;
    solve_post.
Qed.

Lemma col2_click σ st im ft ut ro :
  has_view (sess σ) (View 4 st im ft ut ro) ->
  image_ok im = true -> st_image im = None ->
  clicked = Some BtnStep3 ->
  exists σ', col2 respond st_image clicked σ = Rerun σ' /\
    post σ' (View 5 st im ft ut ro) (cache σ) (calls σ).
Proof.
  intros (Hn & Hst & Him & Hft & Hut & Hro) Hok Himg ->.
  destruct σ as [s ca l o]. cbn in *.
  destruct im as [| z | t]; try done. cbn in Hok.
  apply andb_true_iff in Hok as [T Hs]. apply negb_true_iff in Hs.
  unfold col2. unfold_prims. exec.
  rewrite T. exec. rewrite Hs. exec. rewrite Himg. exec. solve_post.
Qed.

Lemma col2_idle σ n st im ft ut ro :
  has_view (sess σ) (View n st im ft ut ro) ->
  none_or_str im ->
  n <> 3 ->
  (n = 4 -> image_ok im = true -> st_image im = None ->
   clicked <> Some BtnStep3) ->
  exists σ', col2 respond st_image clicked σ = Ok tt σ' /\
    post σ' (View n st im ft ut ro) (cache σ) (calls σ).
Proof.
  intros (Hn & Hst & Him & Hft & Hut & Hro) Tim N3 Hc.
  destruct σ as [s ca l o]. cbn in *.
  unfold col2. unfold_prims. exec.
  destruct (n =? 3) eqn:E3; [lia |]. exec.
  destruct Tim as [-> | [t ->]]; exec; [solve_post |].
  destruct t as [| c t]; exec; [solve_post |].
  destruct (startswith (c :: t) error_prefix_image) eqn:E; exec;
    [solve_post |].
  destruct (st_image (VStr (c :: t))) eqn:Himg; exec; [solve_post |].
  destruct (n =? 4) eqn:E4; exec; [| solve_post].
  destruct clicked as [[] |]; exec; try solve_post.
  exfalso. apply Hc; try done; [lia |]. cbn. by rewrite E.
Qed.

Lemma result_analysis_eq σ ft0 s1 s2 :
  sess σ !! "start_text" = Some (VStr s1) ->
  sess σ !! "final_text" = Some (VStr s2) ->
  result_analysis ft0 σ =
  Ok tt (with_out (fun o => o ++
    [InfoBox (py_str ft0);
     Markdown (u "---");
     Header (u "4. 결과 분석 및 왜곡 시각화");
     Markdown (u "**시작 텍스트 길이:** " ++
               py_str_int (Z.of_nat (length s1)) ++ u "자");
     Markdown (u "**최종 텍스트 길이:** " ++
               py_str_int (Z.of_nat (length s2)) ++ u "자");
     WarningBox (u "*(LLM이 시각 정보를 묘사하며 원본 정보가 손실되거나 새로운 정보가 추가되는 '전달 왜곡' 현상 발생)*")]) σ).
Proof.
  intros H1 H2. destruct σ as [s ca l o]. cbn in *.
  unfold result_analysis. unfold_prims. exec.
  by rewrite <- !app_assoc.
Qed.

Lemma col3_stage σ st im ft ut ro :
  has_view (sess σ) (View 5 st im ft ut ro) ->
  exists σ', col3 respond σ = Rerun σ' /\
    post σ'
      (View 6 st im (stage_value respond (Stage3 im) (cache σ) (calls σ))
         ut ro)
      (stage_cache respond (Stage3 im) (cache σ) (calls σ))
      (stage_calls (Stage3 im) (cache σ) (calls σ)).
Proof.
  intros (Hn & Hst & Him & Hft & Hut & Hro).
  destruct σ as [s ca l o]. cbn in *.
  unfold col3.
  unfold bind, when, sget, sset, emit, st_rerun, with_sess, with_out.
  exec. rewrite analyze_image_to_text_eq. exec. solve_post.
Qed.

Lemma col3_idle σ n st im ft ut ro :
  has_view (sess σ) (View n st im ft ut ro) ->
  n <> 5 ->
  (truthy ft = true -> is_str st /\ is_str ft) ->
  exists σ', col3 respond σ = Ok tt σ' /\
    post σ' (View n st im ft ut ro) (cache σ) (calls σ).
Proof.
  intros (Hn & Hst & Him & Hft & Hut & Hro) N5 Hs.
  destruct σ as [s ca l o]. cbn in *.
  unfold col3. unfold bind, when, sget, emit, ret, with_out. exec.
  destruct (n =? 5) eqn:E5; [lia |]. exec.
  destruct (truthy ft) eqn:T; exec; [| solve_post].
  destruct (Hs eq_refl) as [[s1 ->] [s2 ->]].
  erewrite result_analysis_eq by (cbn; eassumption).
  solve_post.
Qed.

End Blocks.

(** ** Whole runs *)

Ltac norm_in H :=
  repeat match goal with
  | Heq : cache ?x = _ |- _ =>
    is_var x; assert_fails (constr_eq Heq H); progress (rewrite Heq in H)
  | Heq : calls ?x = _ |- _ =>
    is_var x; assert_fails (constr_eq Heq H); progress (rewrite Heq in H)
  end.

Ltac block L :=
  let σn := fresh "σ" in
  let E := fresh "E" in
  let HV := fresh "HV" in
  let HC := fresh "HC" in
  let HL := fresh "HL" in
  destruct L as (σn & E & HV & HC & HL);
  cbn [sess cache calls out with_out with_sess with_cache with_calls titled
       headed]
    in HV, HC, HL;
  norm_in HV; norm_in HC; norm_in HL;
  first [ rewrite (bind_ok _ _ _ _ _ E)
        | rewrite (bind_rerun _ _ _ _ E)
        | rewrite E ];
  clear E.

Ltac finish :=
  repeat match goal with x := _ |- _ => subst x end;
  eexists; split; [reflexivity |];
  split; [eassumption | split; eassumption].

Section Runs.
Variable respond : list call -> call -> resp.
Variable st_image : pyval -> option pystr.
Variable w : widgets.

Let T := VStr (topic_input w).
Let R := VStr (role_select w).

(** After the first block the session has a step, and nothing else of
    the state has changed. *)
Lemma init_block_runs σ :
  exists σ', init_block σ = Ok tt σ' /\
    cache σ' = cache σ /\ calls σ' = calls σ /\
    (sess σ !! "step" = None ->
     sess σ' = init_keys (sess σ)) /\
    (is_Some (sess σ !! "step") -> sess σ' = sess σ).
Proof.
  destruct (sess σ !! "step") eqn:E.
  - exists σ. rewrite (init_block_present σ p E). by repeat split.
  - eexists. rewrite (init_block_absent σ E). by repeat split.
Qed.

Lemma bind_page_head {B} (f : unit -> M B) σ :
  bind page_head f σ = f tt (headed σ).
Proof. reflexivity. Qed.

Lemma run_start σ :
  exists σ', run respond st_image w (Some BtnStart) σ = Rerun σ' /\
    post σ'
      (View 2 (stage_value respond (Stage1 T R) (cache σ) (calls σ))
         VNone VNone T R)
      (stage_cache respond (Stage1 T R) (cache σ) (calls σ))
      (stage_calls (Stage1 T R) (cache σ) (calls σ)).
Proof.
  unfold run, script.
  destruct (init_block_runs (with_out (fun _ => []) σ))
    as (σ0 & E0 & HC0 & HL0 & _).
  rewrite (bind_ok _ _ _ _ _ E0), bind_page_head.
  cbn [cache calls with_out] in HC0, HL0.
  block (sidebar_start w (Some BtnStart)
           (headed σ0) eq_refl).
  block (col1_stage respond (Some BtnStart) _ _ _ _ _ _ HV).
  finish.
Qed.


Lemma run_present σ c v :
  sess σ !! "step" = Some v ->
  run respond st_image w c σ =
  bind (sidebar w c) (fun _ =>
    bind (col1 respond c) (fun _ =>
      bind (col2 respond st_image c) (fun _ => col3 respond))) (titled σ).
Proof.
  intros H. unfold run, script.
  rewrite (bind_ok _ _ _ _ _
             (init_block_present (with_out (fun _ => []) σ) v H)).
  by rewrite bind_page_head.
Qed.

Lemma run_absent σ c :
  sess σ !! "step" = None ->
  run respond st_image w c σ =
  bind (sidebar w c) (fun _ =>
    bind (col1 respond c) (fun _ =>
      bind (col2 respond st_image c) (fun _ => col3 respond)))
    (titled (with_sess init_keys σ)).
Proof.
  intros H. unfold run, script.
  rewrite (bind_ok _ _ _ _ _
             (init_block_absent (with_out (fun _ => []) σ) H)).
  by rewrite bind_page_head.
Qed.

Lemma run_reset σ n :
  sess σ !! "step" = Some (VInt n) -> 0 < n ->
  exists σ', run respond st_image w (Some BtnReset) σ = Rerun σ' /\
    sess σ' = reset_keys (<["start_role" := R]>
                            (<["user_topic" := T]> (sess σ))) /\
    cache σ' = cache σ /\ calls σ' = calls σ.
Proof.
  intros Hn Hpos. rewrite (run_present _ _ _ Hn).
  destruct (sidebar_reset w (Some BtnReset) (titled σ) n eq_refl Hn Hpos)
    as (σ1 & E & Hs & HC & HL).
  rewrite (bind_rerun _ _ _ _ E). by exists σ1.
Qed.

Lemma run_idle σ c n st im ft ut ro :
  has_view (sess σ) (View n st im ft ut ro) ->
  c <> Some BtnStart ->
  (c <> Some BtnReset \/ n <= 0) ->
  n <> 1 -> n <> 3 -> n <> 5 ->
  (n = 2 -> truthy st = true -> c <> Some BtnStep2) ->
  (n = 4 -> image_ok im = true -> st_image im = None ->
   c <> Some BtnStep3) ->
  none_or_str im ->
  (truthy ft = true -> is_str st /\ is_str ft) ->
  exists σ', run respond st_image w c σ = Ok tt σ' /\
    post σ' (View n st im ft T R) (cache σ) (calls σ).
Proof.
  intros HV0 Hs Hr N1 N3 N5 H2 H4 Tim Tft.
  rewrite (run_present _ _ _ (proj1 HV0)).
  block (sidebar_idle w c (titled σ) _ _ _ _ _ _ HV0 Hs Hr).
  block (col1_idle respond c _ _ _ _ _ _ _ HV N1 H2).
  block (col2_idle respond st_image c _ _ _ _ _ _ _ HV1 Tim N3 H4).
  block (col3_idle respond _ _ _ _ _ _ _ HV2 N5 Tft).
  finish.
Qed.

Lemma run_fresh σ c :
  sess σ !! "step" = None ->
  c <> Some BtnStart ->
  exists σ', run respond st_image w c σ = Ok tt σ' /\
    post σ' (View 0 VNone VNone VNone T R) (cache σ) (calls σ).
Proof.
  intros Hn Hs. rewrite (run_absent _ _ Hn).
  block (sidebar_idle w c (titled (with_sess init_keys σ)) _ _ _ _ _ _
           (init_keys_view _) Hs (or_intror (Z.le_refl 0))).
  block (col1_idle respond c _ _ _ _ _ _ _ HV
           ltac:(done) ltac:(done)).
  block (col2_idle respond st_image c _ _ _ _ _ _ _ HV0
           (or_introl eq_refl) ltac:(done) ltac:(done)).
  block (col3_idle respond _ _ _ _ _ _ _ HV1 ltac:(done) ltac:(done)).
  finish.
Qed.

Lemma run_stage1 σ c st im ft ut ro :
  has_view (sess σ) (View 1 st im ft ut ro) ->
  c <> Some BtnStart -> c <> Some BtnReset ->
  exists σ', run respond st_image w c σ = Rerun σ' /\
    post σ'
      (View 2 (stage_value respond (Stage1 T R) (cache σ) (calls σ))
         im ft T R)
      (stage_cache respond (Stage1 T R) (cache σ) (calls σ))
      (stage_calls (Stage1 T R) (cache σ) (calls σ)).
Proof.
  intros HV0 Hs Hr.
  rewrite (run_present _ _ _ (proj1 HV0)).
  block (sidebar_idle w c (titled σ) _ _ _ _ _ _ HV0 Hs (or_introl Hr)).
  block (col1_stage respond c _ _ _ _ _ _ HV).
  finish.
Qed.

Lemma run_click2 σ st im ft ut ro :
  has_view (sess σ) (View 2 st im ft ut ro) ->
  truthy st = true ->
  exists σ', run respond st_image w (Some BtnStep2) σ = Rerun σ' /\
    post σ' (View 3 st im ft T R) (cache σ) (calls σ).
Proof.
  intros HV0 Tst.
  rewrite (run_present _ _ _ (proj1 HV0)).
  block (sidebar_idle w (Some BtnStep2) (titled σ) _ _ _ _ _ _ HV0
           ltac:(done)
           (or_introl (ltac:(done) : Some BtnStep2 <> Some BtnReset))).
  block (col1_click respond (Some BtnStep2) _ _ _ _ _ _ HV Tst eq_refl).
  finish.
Qed.

Lemma run_stage2 σ c st im ft ut ro :
  has_view (sess σ) (View 3 st im ft ut ro) ->
  none_or_str (stage_value respond (Stage2 st) (cache σ) (calls σ)) ->
  c <> Some BtnStart -> c <> Some BtnReset ->
  exists σ', run respond st_image w c σ = Rerun σ' /\
    post σ'
      (View (if image_ok (stage_value respond (Stage2 st) (cache σ) (calls σ))
             then 4 else 99)
         st (stage_value respond (Stage2 st) (cache σ) (calls σ)) ft T R)
      (stage_cache respond (Stage2 st) (cache σ) (calls σ))
      (stage_calls (Stage2 st) (cache σ) (calls σ)).
Proof.
  intros HV0 Hca Hs Hr.
  rewrite (run_present _ _ _ (proj1 HV0)).
  block (sidebar_idle w c (titled σ) _ _ _ _ _ _ HV0 Hs (or_introl Hr)).
  block (col1_idle respond c _ _ _ _ _ _ _ HV ltac:(done) ltac:(done)).
  assert (none_or_str
            (stage_value respond (Stage2 st) (cache σ1) (calls σ1)))
    as Hca1 by (by rewrite HC0, HL0).
  block (col2_stage respond st_image c _ _ _ _ _ _ HV1 Hca1).
  finish.
Qed.

Lemma run_click3 σ st im ft ut ro :
  has_view (sess σ) (View 4 st im ft ut ro) ->
  image_ok im = true -> st_image im = None ->
  exists σ', run respond st_image w (Some BtnStep3) σ = Rerun σ' /\
    post σ' (View 5 st im ft T R) (cache σ) (calls σ).
Proof.
  intros HV0 Hok Himg.
  rewrite (run_present _ _ _ (proj1 HV0)).
  block (sidebar_idle w (Some BtnStep3) (titled σ) _ _ _ _ _ _ HV0
           ltac:(done)
           (or_introl (ltac:(done) : Some BtnStep3 <> Some BtnReset))).
  block (col1_idle respond (Some BtnStep3) _ _ _ _ _ _ _ HV
           ltac:(done) ltac:(done)).
  block (col2_click respond st_image (Some BtnStep3) _ _ _ _ _ _ HV1
           Hok Himg eq_refl).
  finish.
Qed.

Lemma run_stage3 σ c st im ft ut ro :
  has_view (sess σ) (View 5 st im ft ut ro) ->
  none_or_str im ->
  c <> Some BtnStart -> c <> Some BtnReset ->
  exists σ', run respond st_image w c σ = Rerun σ' /\
    post σ'
      (View 6 st im (stage_value respond (Stage3 im) (cache σ) (calls σ))
         T R)
      (stage_cache respond (Stage3 im) (cache σ) (calls σ))
      (stage_calls (Stage3 im) (cache σ) (calls σ)).
Proof.
  intros HV0 Tim Hs Hr.
  rewrite (run_present _ _ _ (proj1 HV0)).
  block (sidebar_idle w c (titled σ) _ _ _ _ _ _ HV0 Hs (or_introl Hr)).
  block (col1_idle respond c _ _ _ _ _ _ _ HV ltac:(done) ltac:(done)).
  block (col2_idle respond st_image c _ _ _ _ _ _ _ HV1 Tim
           ltac:(done) ltac:(done)).
  block (col3_stage respond _ _ _ _ _ _ HV2).
  finish.
Qed.

End Runs.

(** ** Reset *)

Lemma reset_keys_keep s k :
  k = "user_topic" \/ k = "start_role" ->
  Chain.reset_keys s !! k = s !! k.
Proof.
  intros Hk. unfold reset_keys. rewrite map_lookup_filter.
  destruct (s !! k); cbn; [| done]. by rewrite option_guard_True.
Qed.

Lemma reset_keys_drop s k :
  k <> "user_topic" -> k <> "start_role" ->
  Chain.reset_keys s !! k = None.
Proof.
  intros H1 H2. unfold reset_keys. apply map_lookup_filter_None_2.
  destruct (s !! k); [right | by left]. intros x _ [? | ?]; done.
Qed.

(** ** The invariant *)

Section Invariant.
Variable respond : list call -> call -> resp.
Variable st_image : pyval -> option pystr.

Lemma stage_calls_cases s ca l :
  stage_calls s ca l = l \/ stage_calls s ca l = l ++ [stage_request s].
Proof. unfold stage_calls. destruct (ca !! stage_key s); auto. Qed.

Lemma good_after_start v :
  none_or_str v -> forall t r, good_view (View 2 v VNone VNone t r).
Proof.
  intros Hv t r. repeat split; cbn; try (by left); try done; lia.
Qed.

Lemma good_intro n st im ft ut ro :
  none_or_str st -> none_or_str im -> none_or_str ft ->
  (3 <= n -> is_str st) -> (ft <> VNone -> n = 6) ->
  good_view (View n st im ft ut ro).
Proof. by repeat split. Qed.

Lemma forward_intro n st im ft ut ro l n' st' im' ft' ut' ro' l' :
  (n' = n \/ n' = n + 1 \/ (n = 3 /\ n' = 99)) ->
  (n <> 1 -> st' = st) -> (n <> 3 -> im' = im) -> (n <> 5 -> ft' = ft) ->
  (l' = l \/
   (n = 1 /\ exists t r, l' = l ++ [request1 t r]) \/
   (n = 3 /\ l' = l ++ [CallImage st]) \/
   (n = 5 /\ l' = l ++ [CallVision vision_instruction im])) ->
  forward (View n st im ft ut ro) l (View n' st' im' ft' ut' ro') l'.
Proof. by repeat split. Qed.

Ltac good_tac :=
  apply good_intro; try done;
  first [ lia
        | by (intros _; match goal with H : _ -> is_str _ |- _ =>
                          apply H; lia end)
        | by (intros _; apply truthy_str)
        | by (intros Hne;
              match goal with H : _ = VNone \/ _ |- _ =>
                destruct H; [done | lia] end) ].

(** A run without start or reset moves the fields forward. *)
Lemma run_cases σ w c V :
  cache_ok (cache σ) ->
  has_view (sess σ) V -> good_view V ->
  c <> Some BtnStart ->
  (c <> Some BtnReset \/ v_step V <= 0) ->
  exists σ' V',
    (run respond st_image w c σ = Ok tt σ' \/
     run respond st_image w c σ = Rerun σ') /\
    has_view (sess σ') V' /\ good_view V' /\ cache_ok (cache σ') /\
    forward V (calls σ) V' (calls σ').
Proof.
  intros Hca HV (Tst & Tim & Tft & H3 & H6) Hs Hr.
  destruct V as [n st im ft ut ro]. cbn in *.
  assert (Hft : ft = VNone \/ n = 6).
  { destruct (decide (ft = VNone)); auto. }
  assert (Hidle : truthy ft = true -> is_str st /\ is_str ft).
  { intros T. split; [| by apply truthy_str].
    apply H3. destruct Hft as [-> | ->]; [done | lia]. }
  destruct (decide (n = 1)) as [-> | N1].
  { destruct Hr as [Hr | ?]; [| lia].
    destruct (run_stage1 respond st_image w σ c _ _ _ _ _ HV Hs Hr)
      as (σ' & E & HV' & HC & HL).
    eexists _, _. split; [right; exact E |]. split; [exact HV' |].
    pose proof (stage_value_ok respond
      (Stage1 (VStr (topic_input w)) (VStr (role_select w)))
      _ (calls σ) Hca) as Hv.
    split; [| split].
    - good_tac.
    - rewrite HC. by apply stage_cache_ok.
    - apply forward_intro; try done; [lia |].
      rewrite HL.
      destruct (stage_calls_cases
        (Stage1 (VStr (topic_input w)) (VStr (role_select w)))
        (cache σ) (calls σ)) as [-> | ->]; [by left |].
      right; left. split; [done |]. by eexists _, _. }
  destruct (decide (n = 3)) as [-> | N3].
  { destruct Hr as [Hr | ?]; [| lia].
    pose proof (stage_value_ok respond (Stage2 st) _ (calls σ) Hca) as Hv.
    destruct (run_stage2 respond st_image w σ c _ _ _ _ _ HV Hv Hs Hr)
      as (σ' & E & HV' & HC & HL).
    eexists _, _. split; [right; exact E |]. split; [exact HV' |].
    split; [| split].
    - good_tac.
    - rewrite HC. by apply stage_cache_ok.
    - apply forward_intro; try done.
      + destruct (image_ok _); [right; left; lia | right; right; done].
      + rewrite HL.
        destruct (stage_calls_cases (Stage2 st) (cache σ) (calls σ))
          as [-> | ->]; [by left |].
        right; right; left. done. }
  destruct (decide (n = 5)) as [-> | N5].
  { destruct Hr as [Hr | ?]; [| lia].
    destruct (run_stage3 respond st_image w σ c _ _ _ _ _ HV Tim Hs Hr)
      as (σ' & E & HV' & HC & HL).
    pose proof (stage_value_ok respond (Stage3 im) _ (calls σ) Hca) as Hv.
    eexists _, _. split; [right; exact E |]. split; [exact HV' |].
    split; [| split].
    - good_tac.
    - rewrite HC. by apply stage_cache_ok.
    - apply forward_intro; try done; [right; left; lia |].
      rewrite HL.
      destruct (stage_calls_cases (Stage3 im) (cache σ) (calls σ))
        as [-> | ->]; [by left |].
      right; right; right. done. }
  destruct (decide (n = 2 /\ truthy st = true /\ c = Some BtnStep2))
    as [(-> & T & ->) | N2].
  { destruct (run_click2 respond st_image w σ _ _ _ _ _ HV T)
      as (σ' & E & HV' & HC & HL).
    eexists _, _. split; [right; exact E |]. split; [exact HV' |].
    split; [| split].
    - good_tac.
    - by rewrite HC.
    - apply forward_intro; try done; [right; left; lia | by left]. }
  destruct (decide (n = 4 /\ image_ok im = true /\ st_image im = None /\
                    c = Some BtnStep3))
    as [(-> & Hok & Himg & ->) | N4].
  { destruct (run_click3 respond st_image w σ _ _ _ _ _ HV Hok Himg)
      as (σ' & E & HV' & HC & HL).
    eexists _, _. split; [right; exact E |]. split; [exact HV' |].
    split; [| split].
    - good_tac.
    - by rewrite HC.
    - apply forward_intro; try done; [right; left; lia | by left]. }
  destruct (run_idle respond st_image w σ c _ _ _ _ _ _ HV Hs Hr N1 N3 N5)
    as (σ' & E & HV' & HC & HL); try done.
  { intros -> T ->. apply N2. done. }
  { intros -> Hok Himg ->. apply N4. done. }
  eexists _, _. split; [left; exact E |]. split; [exact HV' |].
  split; [| split].
  - good_tac.
  - by rewrite HC.
  - apply forward_intro; try done; by left.
Qed.

Lemma run_safe σ w c :
  inv σ ->
  exists σ',
    (run respond st_image w c σ = Ok tt σ' \/
     run respond st_image w c σ = Rerun σ') /\ inv σ'.
Proof.
  intros [Hca Hs].
  destruct (decide (c = Some BtnStart)) as [-> | Hstart].
  { destruct (run_start respond st_image w σ) as (σ' & E & HV & HC & HL).
    exists σ'. split; [by right |]. split.
    - rewrite HC. by apply stage_cache_ok.
    - right. eexists. split; [exact HV |].
      apply good_after_start. by apply stage_value_ok. }
  destruct Hs as [[Hnone _] | (V & HV & HG)].
  { destruct (run_fresh respond st_image w σ c Hnone Hstart)
      as (σ' & E & HV & HC & HL).
    exists σ'. split; [by left |]. split; [by rewrite HC |].
    right. eexists. split; [exact HV |].
    apply good_intro; try (by left); try done; lia. }
  destruct (decide (c = Some BtnReset /\ 0 < v_step V)) as [[-> Hpos] | Hr].
  { destruct (run_reset respond st_image w σ _ (proj1 HV) Hpos)
      as (σ' & E & Hse & HC & HL).
    exists σ'. split; [by right |]. split; [by rewrite HC |].
    left. rewrite Hse. split; by apply reset_keys_drop. }
  destruct (run_cases σ w c V Hca HV HG Hstart) as (σ' & V' & E & HV' & HG' & Hca' & _).
  { destruct (decide (c = Some BtnReset)); [right | by left].
    destruct (decide (0 < v_step V)); [| lia]. exfalso. by apply Hr. }
  exists σ'. split; [exact E |]. split; [done |]. right. by exists V'.
Qed.

Lemma reachable_inv σ : reachable respond st_image σ -> inv σ.
Proof.
  induction 1 as [| σ _ IH | σ w c σ' _ IH Hrun].
  - split; [intros k v; cbn; by rewrite lookup_empty | left; split; done].
  - destruct IH as [Hca _]. split; [done | left; split; done].
  - destruct (run_safe σ w c IH) as (σ'' & E & Hinv).
    destruct E as [E | E], Hrun as [Hrun | Hrun]; congruence.
Qed.

End Invariant.


(** ** Clicks with their reruns *)

Section Interactions.
Variable respond : list call -> call -> resp.
Variable st_image : pyval -> option pystr.
Variable w : widgets.

Let T := VStr (topic_input w).
Let R := VStr (role_select w).

Lemma interact_ok fuel wc c σ σ' :
  run respond st_image wc c σ = Ok tt σ' ->
  interact respond st_image fuel wc c w σ = Ok tt σ'.
Proof. intros E. destruct fuel; cbn; by rewrite E. Qed.

Lemma interact_rerun fuel wc c σ σ' :
  run respond st_image wc c σ = Rerun σ' ->
  interact respond st_image (S fuel) wc c w σ =
  interact respond st_image fuel w None w σ'.
Proof. intros E. cbn. by rewrite E. Qed.

Lemma interact_start fuel wc σ :
  exists σ',
    interact respond st_image (S fuel) wc (Some BtnStart) w σ = Ok tt σ' /\
    post σ'
      (View 2
         (stage_value respond
            (Stage1 (VStr (topic_input wc)) (VStr (role_select wc)))
            (cache σ) (calls σ))
         VNone VNone T R)
      (stage_cache respond
         (Stage1 (VStr (topic_input wc)) (VStr (role_select wc)))
         (cache σ) (calls σ))
      (stage_calls
         (Stage1 (VStr (topic_input wc)) (VStr (role_select wc)))
         (cache σ) (calls σ)).
Proof.
  destruct (run_start respond st_image wc σ) as (σ1 & E1 & HV1 & HC1 & HL1).
  rewrite (interact_rerun _ _ _ _ _ E1).
  destruct (run_idle respond st_image w σ1 None _ _ _ _ _ _ HV1)
    as (σ2 & E2 & HV2 & HC2 & HL2); try done; try (by left).
  rewrite (interact_ok _ _ _ _ _ E2).
  exists σ2. split; [done |]. split; [exact HV2 |]. split; congruence.
Qed.


Lemma interact_step2 fuel wc σ st im ut ro :
  has_view (sess σ) (View 2 st im VNone ut ro) ->
  truthy st = true ->
  none_or_str (stage_value respond (Stage2 st) (cache σ) (calls σ)) ->
  exists σ',
    interact respond st_image (S (S fuel)) wc (Some BtnStep2) w σ =
    Ok tt σ' /\
    post σ'
      (View (if image_ok (stage_value respond (Stage2 st) (cache σ) (calls σ))
             then 4 else 99)
         st (stage_value respond (Stage2 st) (cache σ) (calls σ)) VNone T R)
      (stage_cache respond (Stage2 st) (cache σ) (calls σ))
      (stage_calls (Stage2 st) (cache σ) (calls σ)).
Proof.
  intros HV Tst Hv.
  destruct (run_click2 respond st_image wc σ _ _ _ _ _ HV Tst)
    as (σ1 & E1 & HV1 & HC1 & HL1).
  rewrite (interact_rerun _ _ _ _ _ E1).
  rewrite <- HC1, <- HL1 in Hv |- *.
  destruct (run_stage2 respond st_image w σ1 None _ _ _ _ _ HV1 Hv)
    as (σ2 & E2 & HV2 & HC2 & HL2); try done.
  rewrite (interact_rerun _ _ _ _ _ E2).
  destruct (run_idle respond st_image w σ2 None _ _ _ _ _ _ HV2)
    as (σ3 & E3 & HV3 & HC3 & HL3); try done; try (by left);
    try (destruct (image_ok _); lia).
  rewrite (interact_ok _ _ _ _ _ E3).
  exists σ3. split; [done |]. split; [exact HV3 |]. split; congruence.
Qed.

Lemma interact_step3 fuel wc σ s1 im ut ro :
  has_view (sess σ) (View 4 (VStr s1) im VNone ut ro) ->
  image_ok im = true -> st_image im = None ->
  none_or_str (stage_value respond (Stage3 im) (cache σ) (calls σ)) ->
  exists σ',
    interact respond st_image (S (S fuel)) wc (Some BtnStep3) w σ =
    Ok tt σ' /\
    post σ'
      (View 6 (VStr s1) im
         (stage_value respond (Stage3 im) (cache σ) (calls σ)) T R)
      (stage_cache respond (Stage3 im) (cache σ) (calls σ))
      (stage_calls (Stage3 im) (cache σ) (calls σ)).
Proof.
  intros HV Hok Himg Hv.
  assert (none_or_str im) as Tim.
  { destruct im; try done. right. by eexists. }
  destruct (run_click3 respond st_image wc σ _ _ _ _ _ HV Hok Himg)
    as (σ1 & E1 & HV1 & HC1 & HL1).
  rewrite (interact_rerun _ _ _ _ _ E1).
  rewrite <- HC1, <- HL1 in Hv |- *.
  destruct (run_stage3 respond st_image w σ1 None _ _ _ _ _ HV1 Tim)
    as (σ2 & E2 & HV2 & HC2 & HL2); try done.
  rewrite (interact_rerun _ _ _ _ _ E2).
  destruct (run_idle respond st_image w σ2 None _ _ _ _ _ _ HV2)
    as (σ3 & E3 & HV3 & HC3 & HL3); try done; try (by left).
  { intros Tft. split; [by eexists | by apply truthy_str]. }
  rewrite (interact_ok _ _ _ _ _ E3).
  exists σ3. split; [done |]. split; [exact HV3 |]. split; congruence.
Qed.

End Interactions.

End ChainFacts.

(** * The claims about the transformation chain *)

Module ChainClaims.
Import Chain Stubs ChainFacts.

Section Again.
Variable respond : list call -> call -> resp.

Lemma stage_value_again s ca l l' :
  stage_value respond s (stage_cache respond s ca l) l' =
  stage_value respond s ca l.
Proof. unfold stage_value at 1. by rewrite stage_cache_lookup. Qed.

Lemma stage_cache_again s ca l l' :
  stage_cache respond s (stage_cache respond s ca l) l' =
  stage_cache respond s ca l.
Proof. unfold stage_cache at 1. by rewrite stage_cache_lookup. Qed.

Lemma stage_calls_again s ca l l' :
  stage_calls s (stage_cache respond s ca l) l' = l'.
Proof. unfold stage_calls at 1. by rewrite stage_cache_lookup. Qed.
End Again.

(** Closed goals about concrete runs are settled by evaluation. *)
Ltac by_compute :=
  unfold post, has_view;
  repeat match goal with |- _ /\ _ => split end;
  vm_compute; reflexivity.

Lemma stage_key_inj s s' : stage_key s' = stage_key s <-> s' = s.
Proof.
  split; [| by intros ->].
  destruct s, s'; cbn; intros [=]; by subst.
Qed.

(** C1.  A memoised stage function called twice with the same input
    returns the same artifact both times, and that artifact is the memo
    entry of the stage: after the first call the table holds it under
    the stage's key.  On a miss the artifact is what the function body
    makes of the model's answer to the stage's request (the answered
    text itself when the model answers with a text), it is stored under
    the stage's key in the table as it was, and the request log grows by
    that one request.  On a hit the artifact is the entry the table
    already held and the state is not changed at all.  The second call
    changes nothing: over both calls the model is asked once when the
    first call was a miss and not at all when it was a hit.  The session
    and the page are not touched.  The memo key is the function with its
    argument values: two stages share a key only when they are the same
    stage with equal inputs, and entries under other keys are not
    touched. *)
Theorem C1_memoised_stage_idempotent
    (respond : list call -> call -> resp) (s : stage) (σ : state) :
  exists v σ1,
    transform respond s σ = Ok v σ1 /\
    transform respond s σ1 = Ok v σ1 /\
    cache σ1 !! stage_key s = Some v /\
    sess σ1 = sess σ /\ out σ1 = out σ /\
    (cache σ !! stage_key s = None ->
     v = answer (stage_prefix s) (respond (calls σ) (stage_request s)) /\
     (forall t, respond (calls σ) (stage_request s) = Returned (Some t) ->
                v = VStr t) /\
     cache σ1 = <[stage_key s := v]> (cache σ) /\
     calls σ1 = calls σ ++ [stage_request s]) /\
    (forall v0, cache σ !! stage_key s = Some v0 -> v = v0 /\ σ1 = σ) /\
    (is_Some (cache σ !! stage_key s) -> calls σ1 = calls σ) /\
    (forall s', stage_key s' = stage_key s <-> s' = s) /\
    (forall s', s' <> s -> cache σ1 !! stage_key s' = cache σ !! stage_key s').
Proof.
  eexists _, _. split; [apply transform_eq |].
  split; [| split; [| split; [| split; [| split; [| split;
    [| split; [| split]]]]]]].
  - rewrite transform_eq. cbn [sess cache calls out].
    by rewrite stage_value_again, stage_cache_again, stage_calls_again.
  - cbn [cache]. apply stage_cache_lookup.
  - done.
  - done.
  - intros Hmiss. cbn [cache calls].
    unfold stage_value, stage_cache, stage_calls. rewrite Hmiss.
    split; [done |]. split; [| done].
    intros t Ht. by rewrite Ht.
  - intros v0 Hhit. unfold stage_value, stage_cache, stage_calls.
    rewrite Hhit. split; [done |]. by destruct σ.
  - intros [v Hhit]. cbn. unfold stage_calls. by rewrite Hhit.
  - intros s'. apply stage_key_inj.
  - intros s' Hne. cbn. apply stage_cache_other.
    intros Hk. apply Hne. symmetry in Hk. by apply stage_key_inj in Hk.
Qed.

(** Pressing the start button again with the same topic and role gives
    the same first text and sends no request. *)
Lemma restart_is_memoised respond st_image w σ :
  exists σ1 σ2 t,
    run respond st_image w (Some BtnStart) σ = Rerun σ1 /\
    run respond st_image w (Some BtnStart) σ1 = Rerun σ2 /\
    field "start_text" σ1 = Some t /\ field "start_text" σ2 = Some t /\
    calls σ2 = calls σ1.
Proof.
  destruct (run_start respond st_image w σ) as (σ1 & E1 & HV1 & HC1 & HL1).
  destruct (run_start respond st_image w σ1) as (σ2 & E2 & HV2 & HC2 & HL2).
  eexists σ1, σ2, _. split; [done |]. split; [done |].
  split; [exact (proj1 (proj2 HV1)) |].
  split.
  - unfold field. rewrite (proj1 (proj2 HV2)). cbn.
    by rewrite HC1, stage_value_again.
  - by rewrite HL2, HC1, stage_calls_again.
Qed.


(** C2.  Evaluated where the claim fails: the chat model raises, stage 1
    stores the error text as its result and the step becomes 2; the
    button for step 2 is offered, and pressing it asks the image model
    with the error text as prompt and moves on to step 4.  A failure of
    stage 1 does not keep stage 2 from running. *)
Theorem C2_failed_stage1_feeds_stage2 :
  let σ1 := click respond_chat_down w_city BtnStart fresh in
  let σ2 := click respond_chat_down w_city BtnStep2 σ1 in
  field "step" σ1 = Some (VInt 2) /\
  field "start_text" σ1 =
    Some (VStr (error_prefix_text ++ u ": " ++ u "timeout")) /\
  existsb (fun e => match e with
                    | ButtonEl BtnStep2 => true
                    | _ => false
                    end) (out σ1) = true /\
  field "step" σ2 = Some (VInt 4) /\
  field "image_url" σ2 = Some (VStr (u "ref-1")) /\
  calls σ2 =
    [request1 (VStr (u "lonely future city")) (VStr (u "AI poet"));
     CallImage (VStr (error_prefix_text ++ u ": " ++ u "timeout"))].
Proof. by_compute. Qed.

(** The same for every oracle: when the chat model raises on a memo
    miss, the start button ends at step 2 with the error text as first
    text, and the button for step 2 then runs the second stage function
    on that error text. *)
Lemma failed_stage1_is_not_gated respond st_image w σ m :
  let T := VStr (topic_input w) in
  let R := VStr (role_select w) in
  let err := VStr (error_prefix_text ++ u ": " ++ m) in
  cache_ok (cache σ) ->
  cache σ !! stage_key (Stage1 T R) = None ->
  respond (calls σ) (request1 T R) = Raised m ->
  exists σ1 σ2,
    interact respond st_image 2 w (Some BtnStart) w σ = Ok tt σ1 /\
    field "step" σ1 = Some (VInt 2) /\
    field "start_text" σ1 = Some err /\
    interact respond st_image 2 w (Some BtnStep2) w σ1 = Ok tt σ2 /\
    field "image_url" σ2 =
      Some (stage_value respond (Stage2 err) (cache σ1) (calls σ1)) /\
    calls σ2 = stage_calls (Stage2 err) (cache σ1) (calls σ1).
Proof.
  intros T R err Hca Hmiss Hresp.
  destruct (interact_start respond st_image w 1 w σ)
    as (σ1 & E1 & HV1 & HC1 & HL1).
  fold T R in HV1, HC1, HL1.
  assert (stage_value respond (Stage1 T R) (cache σ) (calls σ) = err) as Hv.
  { unfold stage_value. rewrite Hmiss. cbn [stage_request stage_prefix].
    by rewrite Hresp. }
  rewrite Hv in HV1.
  assert (truthy err = true) as Terr by (by vm_compute).
  assert (cache_ok (cache σ1)) as Hca1.
  { rewrite HC1. by apply stage_cache_ok. }
  destruct (interact_step2 respond st_image w 0 w σ1 _ _ _ _ HV1 Terr)
    as (σ2 & E2 & HV2 & HC2 & HL2).
  { by apply stage_value_ok. }
  exists σ1, σ2.
  split; [exact E1 |]. split; [exact (proj1 HV1) |].
  split; [exact (proj1 (proj2 HV1)) |]. split; [exact E2 |].
  split; [exact (proj1 (proj2 (proj2 HV2))) | exact HL2].
Qed.

(** Once the step is 99, runs without start or reset change nothing but
    the two input fields. *)
Lemma frozen_events respond st_image es :
  forall σ st im ut ro,
    has_view (sess σ) (View 99 st im VNone ut ro) ->
    none_or_str im ->
    Forall (fun e => e.2 <> Some BtnStart /\ e.2 <> Some BtnReset) es ->
    exists σ' ut' ro',
      run_events respond st_image es σ = Ok tt σ' /\
      has_view (sess σ') (View 99 st im VNone ut' ro') /\
      cache σ' = cache σ /\ calls σ' = calls σ.
Proof.
  induction es as [| [w c] es IH]; intros σ st im ut ro HV Tim Hes.
  - exists σ, ut, ro. split; [done |]. split; [exact HV | done].
  - apply Forall_cons in Hes as [[Hs Hr] Hes]. cbn in Hs, Hr.
    destruct (run_idle respond st_image w σ c _ _ _ _ _ _ HV Hs
                (or_introl Hr))
      as (σ1 & E1 & HV1 & HC1 & HL1); try done.
    destruct (IH σ1 _ _ _ _ HV1 Tim Hes)
      as (σ2 & ut2 & ro2 & E2 & HV2 & HC2 & HL2).
    exists σ2, ut2, ro2. cbn. rewrite E1.
    split; [done |]. split; [done |]. split; congruence.
Qed.

(** C3.  When the image model raises at step 3, the run stores the error
    text, sets the step to 99 and keeps the first text; from then on no
    run without start or reset changes the step, the first text or the
    (absent) final text, and none sends a request, so the vision model
    is never asked. *)
Theorem C3_image_failure_freezes
    (respond : list call -> call -> resp) (st_image : pyval -> option pystr)
    (w : widgets) (c : option button) (σ : state)
    (st im ut ro : pyval) (m : pystr) :
  has_view (sess σ) (View 3 st im VNone ut ro) ->
  c <> Some BtnStart -> c <> Some BtnReset ->
  cache σ !! stage_key (Stage2 st) = None ->
  respond (calls σ) (CallImage st) = Raised m ->
  exists σ1,
    run respond st_image w c σ = Rerun σ1 /\
    field "step" σ1 = Some (VInt 99) /\
    field "start_text" σ1 = Some st /\
    field "image_url" σ1 = Some (VStr (error_prefix_image ++ u ": " ++ m)) /\
    calls σ1 = calls σ ++ [CallImage st] /\
    forall es,
      Forall (fun e => e.2 <> Some BtnStart /\ e.2 <> Some BtnReset) es ->
      exists σ2,
        run_events respond st_image es σ1 = Ok tt σ2 /\
        field "step" σ2 = Some (VInt 99) /\
        field "start_text" σ2 = Some st /\
        field "final_text" σ2 = Some VNone /\
        calls σ2 = calls σ1.
Proof.
  intros HV Hs Hr Hmiss Hresp.
  assert (stage_value respond (Stage2 st) (cache σ) (calls σ) =
          VStr (error_prefix_image ++ u ": " ++ m)) as Hval.
  { unfold stage_value. rewrite Hmiss. cbn [stage_request stage_prefix].
    by rewrite Hresp. }
  assert (stage_calls (Stage2 st) (cache σ) (calls σ) =
          calls σ ++ [CallImage st]) as Hcalls.
  { unfold stage_calls. by rewrite Hmiss. }
  destruct (run_stage2 respond st_image w σ c _ _ _ _ _ HV) as
    (σ1 & E1 & HV1 & HC1 & HL1); try done.
  { rewrite Hval. right. by eexists. }
  rewrite Hval in HV1.
  assert (image_ok (VStr (error_prefix_image ++ u ": " ++ m)) = false) as Hbad.
  { unfold image_ok. by rewrite startswith_app, andb_false_r. }
  rewrite Hbad in HV1.
  pose proof HV1 as (H1 & H2 & H3 & H4 & _). cbn in H1, H2, H3, H4.
  exists σ1. split; [done |]. split; [done |]. split; [done |].
  split; [done |]. split; [congruence |].
  intros es Hes.
  destruct (frozen_events respond st_image es σ1 st
              (VStr (error_prefix_image ++ u ": " ++ m)) _ _ HV1)
    as (σ2 & ut2 & ro2 & E2 & HV2 & HC2 & HL2); try done.
  { right. by eexists. }
  destruct HV2 as (G1 & G2 & G3 & G4 & _). cbn in G1, G2, G3, G4.
  exists σ2. by repeat split.
Qed.


Lemma C3_witness :
  exists σ1,
    run respond_image_down image_shown w_city None at_step3 = Rerun σ1 /\
    field "step" σ1 = Some (VInt 99) /\
    field "start_text" σ1 = Some (VStr (u "Neon rain on empty streets.")) /\
    field "image_url" σ1 =
      Some (VStr (error_prefix_image ++ u ": " ++ u "quota exceeded")) /\
    calls σ1 =
      calls at_step3 ++ [CallImage (VStr (u "Neon rain on empty streets."))] /\
    forall es,
      Forall (fun e => e.2 <> Some BtnStart /\ e.2 <> Some BtnReset) es ->
      exists σ2,
        run_events respond_image_down image_shown es σ1 = Ok tt σ2 /\
        field "step" σ2 = Some (VInt 99) /\
        field "start_text" σ2 =
          Some (VStr (u "Neon rain on empty streets.")) /\
        field "final_text" σ2 = Some VNone /\
        calls σ2 = calls σ1.
Proof.
  apply (C3_image_failure_freezes respond_image_down image_shown w_city None
           at_step3 (VStr (u "Neon rain on empty streets.")) VNone
           (VStr (u "lonely future city")) (VStr (u "AI poet"))
           (u "quota exceeded")).
  - by_compute.
  - discriminate.
  - discriminate.
  - vm_compute; reflexivity.
  - vm_compute; reflexivity.
Defined.


(** The page of a run at step 99: the first text is still shown, with
    the error under the second header, and neither the button for step 3
    nor a final text. *)
Example failed_page_shows_first_text :
  let σ := final_state
             (run respond_image_down image_shown w_city None
                (click respond_image_down w_city BtnStep2
                   (click respond_image_down w_city BtnStart fresh))) in
  field "step" σ = Some (VInt 99) /\
  List.filter (fun e => match e with
                        | InfoBox _ | ErrorBox _ | ButtonEl _ | Image _ =>
                          true
                        | _ => false
                        end) (out σ) =
  [ButtonEl BtnStart; ButtonEl BtnReset;
   InfoBox (u "Neon rain on empty streets.");
   ErrorBox (error_prefix_image ++ u ": " ++ u "quota exceeded")].
Proof. by_compute. Qed.

(** C4.  From any session, the start button followed by the buttons for
    step 2 and step 3, with each stage function returning a usable value
    (a non-empty first text, a non-empty image url that is not an error
    text and that [st.image] shows, a final text), ends at step 6 with the
    three results stored; they are produced in the order 1, 2, 3, the
    step going 2, 4, 6.  And no run without start or reset moves the step
    back or past the next one (step 3 may fall to 99), overwrites a
    result outside its own step, or sends a request other than the one of
    its step. *)
Theorem C4_three_advances_reach_complete
    (respond : list call -> call -> resp) (st_image : pyval -> option pystr)
    (w : widgets) (σ0 : state) (t1 url t3 : pystr) :
  let T := VStr (topic_input w) in
  let R := VStr (role_select w) in
  let c1 := stage_cache respond (Stage1 T R) (cache σ0) (calls σ0) in
  let l1 := stage_calls (Stage1 T R) (cache σ0) (calls σ0) in
  let c2 := stage_cache respond (Stage2 (VStr t1)) c1 l1 in
  let l2 := stage_calls (Stage2 (VStr t1)) c1 l1 in
  let c3 := stage_cache respond (Stage3 (VStr url)) c2 l2 in
  let l3 := stage_calls (Stage3 (VStr url)) c2 l2 in
  stage_value respond (Stage1 T R) (cache σ0) (calls σ0) = VStr t1 ->
  t1 <> [] ->
  stage_value respond (Stage2 (VStr t1)) c1 l1 = VStr url ->
  image_ok (VStr url) = true ->
  st_image (VStr url) = None ->
  stage_value respond (Stage3 (VStr url)) c2 l2 = VStr t3 ->
  (exists σ1 σ2 σ3,
     interact respond st_image 2 w (Some BtnStart) w σ0 = Ok tt σ1 /\
     post σ1 (View 2 (VStr t1) VNone VNone T R) c1 l1 /\
     interact respond st_image 2 w (Some BtnStep2) w σ1 = Ok tt σ2 /\
     post σ2 (View 4 (VStr t1) (VStr url) VNone T R) c2 l2 /\
     interact respond st_image 2 w (Some BtnStep3) w σ2 = Ok tt σ3 /\
     post σ3 (View 6 (VStr t1) (VStr url) (VStr t3) T R) c3 l3) /\
  (forall σ wr c V,
     cache_ok (cache σ) -> has_view (sess σ) V -> good_view V ->
     c <> Some BtnStart -> c <> Some BtnReset ->
     exists σ' V',
       (run respond st_image wr c σ = Ok tt σ' \/
        run respond st_image wr c σ = Rerun σ') /\
       has_view (sess σ') V' /\
       forward V (calls σ) V' (calls σ')).
Proof.
  intros T R c1 l1 c2 l2 c3 l3 H1 Ht1 H2 Hok Himg H3.
  split.
  - destruct (interact_start respond st_image w 1 w σ0)
      as (σ1 & E1 & HV1 & HC1 & HL1).
    fold T R in HV1, HC1, HL1. fold c1 in HC1. fold l1 in HL1.
    rewrite H1 in HV1.
    assert (truthy (VStr t1) = true) as Tt1 by (by destruct t1).
    destruct (interact_step2 respond st_image w 0 w σ1 _ _ _ _ HV1 Tt1)
      as (σ2 & E2 & HV2 & HC2 & HL2).
    { rewrite HC1, HL1, H2. right. by eexists. }
    rewrite HC1, HL1 in HV2, HC2, HL2. fold c2 in HC2. fold l2 in HL2.
    rewrite H2, Hok in HV2.
    destruct (interact_step3 respond st_image w 0 w σ2 _ _ _ _ HV2 Hok Himg)
      as (σ3 & E3 & HV3 & HC3 & HL3).
    { rewrite HC2, HL2, H3. right. by eexists. }
    rewrite HC2, HL2 in HV3, HC3, HL3. rewrite H3 in HV3.
    exists σ1, σ2, σ3.
    split; [exact E1 |]. split; [exact (conj HV1 (conj HC1 HL1)) |].
    split; [exact E2 |]. split; [exact (conj HV2 (conj HC2 HL2)) |].
    split; [exact E3 |]. exact (conj HV3 (conj HC3 HL3)).
  - intros σ wr c V Hca HV HG Hs Hr.
    destruct (run_cases respond st_image σ wr c V Hca HV HG Hs (or_introl Hr))
      as (σ' & V' & E & HV' & _ & _ & Hf).
    by exists σ', V'.
Qed.

Lemma C4_witness :
  exists σ1 σ2 σ3,
    interact respond_ok image_shown 2 w_city (Some BtnStart) w_city fresh =
      Ok tt σ1 /\
    field "step" σ1 = Some (VInt 2) /\
    interact respond_ok image_shown 2 w_city (Some BtnStep2) w_city σ1 =
      Ok tt σ2 /\
    field "step" σ2 = Some (VInt 4) /\
    interact respond_ok image_shown 2 w_city (Some BtnStep3) w_city σ2 =
      Ok tt σ3 /\
    post σ3
      (View 6 (VStr (u "Neon rain on empty streets.")) (VStr (u "ref-1"))
         (VStr (u "A moody blue cityscape, sparse and melancholic."))
         (VStr (u "lonely future city")) (VStr (u "AI poet")))
      (cache σ3) (calls σ3) /\
    length (calls σ3) = 3%nat.
Proof.
  destruct (C4_three_advances_reach_complete respond_ok image_shown w_city
              fresh (u "Neon rain on empty streets.") (u "ref-1")
              (u "A moody blue cityscape, sparse and melancholic."))
    as [(σ1 & σ2 & σ3 & E1 & P1 & E2 & P2 & E3 & P3) _].
  - vm_compute; reflexivity.
  - vm_compute; discriminate.
  - vm_compute; reflexivity.
  - vm_compute; reflexivity.
  - reflexivity.
  - vm_compute; reflexivity.
  - exists σ1, σ2, σ3.
    destruct P1 as ((S1 & _) & _), P2 as ((S2 & _) & _).
    destruct P3 as (HV3 & HC3 & HL3).
    split; [exact E1 |]. split; [exact S1 |]. split; [exact E2 |].
    split; [exact S2 |]. split; [exact E3 |].
    split; [exact (conj HV3 (conj eq_refl eq_refl)) |].
    rewrite HL3. vm_compute; reflexivity.
Defined.


(** Clicks lead from states the server can be in to such states. *)
Lemma reachable_interact respond st_image fuel :
  forall w c w' σ,
    reachable respond st_image σ ->
    reachable respond st_image
      (final_state (interact respond st_image fuel w c w' σ)).
Proof.
  induction fuel as [| fuel IH]; intros w c w' σ Hσ;
    destruct (run_safe respond st_image σ w c (reachable_inv _ _ _ Hσ))
      as (σ' & [E | E] & _);
    cbn; rewrite E; cbn;
    try (eapply reach_run; [exact Hσ | eauto]; fail).
  apply IH. eapply reach_run; [exact Hσ | eauto].
Qed.

Lemma reachable_full_chain respond w :
  reachable respond image_shown (full_chain respond w fresh).
Proof.
  unfold full_chain, click.
  do 3 apply reachable_interact. apply reach_start.
Qed.





(** The reset button for every session above step 0: the run keeps the
    two inputs and deletes every other key; the first block of the rerun
    then writes the empty topic and the first role over them. *)
Lemma reset_then_first_block respond st_image w σ n :
  field "step" σ = Some (VInt n) -> 0 < n ->
  exists σ1 σ2,
    run respond st_image w (Some BtnReset) σ = Rerun σ1 /\
    field "user_topic" σ1 = Some (VStr (topic_input w)) /\
    field "start_role" σ1 = Some (VStr (role_select w)) /\
    (forall k, k <> "user_topic" -> k <> "start_role" ->
               field k σ1 = None) /\
    init_block σ1 = Ok tt σ2 /\
    has_view (sess σ2)
      (View 0 VNone VNone VNone (VStr (u "")) (VStr (u "AI 시인"))).
Proof.
  intros Hn Hpos.
  destruct (run_reset respond st_image w σ n Hn Hpos)
    as (σ1 & E1 & Hs1 & HC1 & HL1).
  exists σ1, (with_sess init_keys σ1).
  split; [done |]. unfold field. rewrite Hs1.
  split; [rewrite reset_keys_keep by auto; by simplify_map_eq |].
  split; [rewrite reset_keys_keep by auto; by simplify_map_eq |].
  split; [intros k H1 H2; by apply reset_keys_drop |].
  split; [| apply init_keys_view].
  apply init_block_absent. rewrite Hs1. by apply reset_keys_drop.
Qed.

(** C6.  Evaluated where the claim fails.  The topic is "바다" and the
    role "AI 철학자" at step 2.  The reset button deletes every key but
    [user_topic] and [start_role], which keep their values; the rerun
    finds no [step], so its first block sets the step to 0, the three
    results to [None], and overwrites [user_topic] with the empty text
    and [start_role] with "AI 시인"; the sidebar then stores what the two
    widgets return, here the values they are created with. *)
Theorem C6_reset_overwrites_kept_inputs :
  let σ := click respond_ok w_sea BtnStart fresh in
  let σ1 :=
    final_state (run respond_ok image_shown w_sea (Some BtnReset) σ) in
  let σ2 := final_state (init_block σ1) in
  let σ3 := final_state (run respond_ok image_shown w_default None σ1) in
  (field "step" σ = Some (VInt 2) /\
   field "user_topic" σ = Some (VStr (u "바다")) /\
   field "start_role" σ = Some (VStr (u "AI 철학자"))) /\
  (reruns (run respond_ok image_shown w_sea (Some BtnReset) σ) = true /\
   map_to_list (sess σ1) ≡ₚ
     [("user_topic", VStr (u "바다")); ("start_role", VStr (u "AI 철학자"))]) /\
  (returns (init_block σ1) = true /\
   field "step" σ2 = Some (VInt 0) /\
   field "start_text" σ2 = Some VNone /\
   field "image_url" σ2 = Some VNone /\
   field "final_text" σ2 = Some VNone /\
   field "user_topic" σ2 = Some (VStr (u "")) /\
   field "start_role" σ2 = Some (VStr (u "AI 시인"))) /\
  (returns (run respond_ok image_shown w_default None σ1) = true /\
   field "step" σ3 = Some (VInt 0) /\
   field "user_topic" σ3 = Some (VStr (u "미래 도시의 고독")) /\
   field "start_role" σ3 = Some (VStr (u "AI 시인"))).
Proof.
  vm_compute.
  repeat match goal with |- _ /\ _ => split end; try reflexivity.
  apply perm_swap.
Qed.


(** ** The comparison under the final text *)

(** C8, as stated, fails: after the chain of the spec's example the
    first text has 27 characters and the final text 47; the page shows
    the two lengths, and no element of the page contains their
    difference, 20 or -20. *)
Lemma C8_counterexample :
  let σ := full_chain respond_ok w_city fresh in
  field "start_text" σ = Some (VStr (u "Neon rain on empty streets.")) /\
  field "final_text" σ =
    Some (VStr (u "A moody blue cityscape, sparse and melancholic.")) /\
  out σ !! 16%nat = Some (Markdown (u "**시작 텍스트 길이:** 27자")) /\
  out σ !! 17%nat = Some (Markdown (u "**최종 텍스트 길이:** 47자")) /\
  length (out σ) = 19%nat /\
  forallb (fun e => negb (contains (elem_text e) (py_str_int (47 - 27))))
    (out σ) = true /\
  forallb (fun e => negb (contains (elem_text e) (py_str_int (27 - 47))))
    (out σ) = true.
Proof. by_compute. Qed.

(** C8, amended.  In every reachable state with a final text, the block
    under the final text takes the lengths of the first and of the final
    text, which are both texts there, and puts them on the page one
    after the other; it returns, and changes nothing but the page: no
    request is sent.  No difference of the two lengths is computed.
    Moreover no run from a reachable state ends in an exception. *)
Theorem C8_result_analysis_total
    (respond : list call -> call -> resp) (st_image : pyval -> option pystr)
    (σ : state) (ft : pyval) :
  reachable respond st_image σ ->
  field "final_text" σ = Some ft -> truthy ft = true ->
  (exists s1 s2,
     field "start_text" σ = Some (VStr s1) /\ ft = VStr s2 /\
     result_analysis ft σ =
     Ok tt (with_out (fun o => o ++
       [InfoBox s2;
        Markdown (u "---");
        Header (u "4. 결과 분석 및 왜곡 시각화");
        Markdown (u "**시작 텍스트 길이:** " ++
                  py_str_int (Z.of_nat (length s1)) ++ u "자");
        Markdown (u "**최종 텍스트 길이:** " ++
                  py_str_int (Z.of_nat (length s2)) ++ u "자");
        WarningBox (u "*(LLM이 시각 정보를 묘사하며 원본 정보가 손실되거나 새로운 정보가 추가되는 '전달 왜곡' 현상 발생)*")]) σ)) /\
  (forall w c, exists σ',
     run respond st_image w c σ = Ok tt σ' \/
     run respond st_image w c σ = Rerun σ').
Proof.
  intros Hreach Hft T.
  pose proof (reachable_inv _ _ _ Hreach) as Hinv.
  split.
  - destruct Hinv as [_ [[_ Hnone] | (V & HV & HG)]].
    { unfold field in Hft. congruence. }
    destruct V as [n st im ft' ut ro].
    destruct HV as (Hn & Hst & Him & Hft' & _). cbn in Hn, Hst, Him, Hft'.
    unfold field in Hft. rewrite Hft' in Hft. injection Hft as ->.
    destruct HG as (Tst & Tim & Tft & H3 & H6). cbn in *.
    destruct (truthy_str ft Tft T) as [s2 ->].
    assert (n = 6) as -> by (by apply H6).
    destruct H3 as [s1 ->]; [lia |].
    exists s1, s2. split; [done |]. split; [done |].
    by apply result_analysis_eq.
  - intros w c.
    destruct (run_safe respond st_image σ w c Hinv) as (σ' & E & _).
    by exists σ'.
Qed.

Lemma C8_witness :
  (exists s1 s2,
     field "start_text" (full_chain respond_ok w_city fresh) =
       Some (VStr s1) /\
     VStr (u "A moody blue cityscape, sparse and melancholic.") = VStr s2 /\
     result_analysis
       (VStr (u "A moody blue cityscape, sparse and melancholic."))
       (full_chain respond_ok w_city fresh) =
     Ok tt (with_out (fun o => o ++
       [InfoBox s2;
        Markdown (u "---");
        Header (u "4. 결과 분석 및 왜곡 시각화");
        Markdown (u "**시작 텍스트 길이:** " ++
                  py_str_int (Z.of_nat (length s1)) ++ u "자");
        Markdown (u "**최종 텍스트 길이:** " ++
                  py_str_int (Z.of_nat (length s2)) ++ u "자");
        WarningBox (u "*(LLM이 시각 정보를 묘사하며 원본 정보가 손실되거나 새로운 정보가 추가되는 '전달 왜곡' 현상 발생)*")])
       (full_chain respond_ok w_city fresh))) /\
  (forall w c, exists σ',
     run respond_ok image_shown w c (full_chain respond_ok w_city fresh) =
       Ok tt σ' \/
     run respond_ok image_shown w c (full_chain respond_ok w_city fresh) =
       Rerun σ').
Proof.
  apply (C8_result_analysis_total respond_ok image_shown
           (full_chain respond_ok w_city fresh)
           (VStr (u "A moody blue cityscape, sparse and melancholic."))).
  - apply reachable_full_chain.
  - vm_compute; reflexivity.
  - reflexivity.
Defined.

End ChainClaims.

(** * The claims about the museum functions *)

Module MuseumClaims.
Import Museum MuseumStubs.

Lemma slice10_len v r : slice10 v = Return r -> (ids_len r <= 10)%nat.
Proof.
  destruct v; cbn; intros [= <-]; cbn; rewrite length_take; lia.
Qed.

Section SearchFacts.
Variable requests_get : list pystr -> pystr -> result http_response.

(** The function under the decorator always returns, with at most ten
    ids. *)
Lemma search_artworks_body_returns query log :
  exists total ids log',
    search_artworks_body requests_get query log =
      (Return (total, ids), log') /\
    (ids_len ids <= 10)%nat /\
    (truthy query = false ->
     total = JNum 0 /\ ids = JList [] /\ log' = log).
Proof.
  unfold search_artworks_body.
  destruct (truthy query) eqn:T; cbn -[u search_url].
  2: { eexists _, _, _. split; [done |]. cbn. split; [lia | done]. }
  destruct (requests_get log (search_url query)) as [r | e];
    cbn -[u search_url].
  2: { eexists _, _, _. split; [done |]. cbn. split; [lia | done]. }
  destruct (raise_for_status r); cbn -[u search_url].
  2: { eexists _, _, _. split; [done |]. cbn. split; [lia | done]. }
  destruct (response_json r) as [data | e]; cbn -[u search_url].
  2: { eexists _, _, _. split; [done |]. cbn. split; [lia | done]. }
  destruct (dict_get data (u "total") (JNum 0)) as [total | e];
    cbn -[u search_url].
  2: { eexists _, _, _. split; [done |]. cbn. split; [lia | done]. }
  destruct (dict_get data (u "objectIDs") (JList [])) as [ids | e];
    cbn -[u search_url].
  2: { eexists _, _, _. split; [done |]. cbn. split; [lia | done]. }
  destruct (slice10 ids) as [top | e] eqn:E; cbn -[u search_url].
  2: { eexists _, _, _. split; [done |]. cbn. split; [lia | done]. }
  eexists _, _, _. split; [done |]. split; [| done].
  by eapply slice10_len.
Qed.

(** What the function under the decorator returns when the request
    fails, the status is an error, or the body is not JSON. *)
Lemma search_artworks_body_failure query log :
  truthy query = true ->
  (forall r, requests_get log (search_url query) = Return r ->
             exists e, rbind (raise_for_status r)
                         (fun _ => response_json r) = Throw e) ->
  (search_artworks_body requests_get query log).1 =
  Return (JNum 0, JList []).
Proof.
  intros T Hfail. unfold search_artworks_body. rewrite T.
  cbn -[u search_url].
  destruct (requests_get log (search_url query)) as [r | e];
    cbn -[u search_url]; [| done].
  destruct (Hfail r eq_refl) as [e He].
  destruct (raise_for_status r); cbn -[u search_url] in *; [| done].
  by rewrite He.
Qed.

(** C10.  With a memo table filled by the function itself,
    [search_artworks] always returns a pair and never raises; the ids
    it returns are at most ten; the table stays so; for an empty query
    the pair is [(0, [])] and nothing is fetched; and on a miss where
    the request raises, the status is an error or the body is not
    JSON, the pair is [(0, [])]. *)
Theorem C10_search_artworks_bounded (query : pyval) (σ : mstate) :
  search_cache_ok (search_cache σ) ->
  exists total ids σ',
    search_artworks requests_get query σ = (Return (total, ids), σ') /\
    (ids_len ids <= 10)%nat /\
    search_cache_ok (search_cache σ') /\
    (truthy query = false ->
     total = JNum 0 /\ ids = JList [] /\ requests σ' = requests σ) /\
    (search_cache σ !! query = None -> truthy query = true ->
     (forall r,
        requests_get (requests σ) (search_url query) = Return r ->
        exists e, rbind (raise_for_status r)
                    (fun _ => response_json r) = Throw e) ->
     total = JNum 0 /\ ids = JList []).
Proof.
  intros Hok. unfold search_artworks.
  destruct (search_cache σ !! query) as [[total ids] |] eqn:Hq.
  - destruct (Hok _ _ _ Hq) as [Hlen Hempty].
    exists total, ids, σ. split; [done |]. split; [done |].
    split; [done |]. split; [| done].
    intros T. destruct (Hempty T) as [-> ->]. done.
  - destruct (search_artworks_body_returns query (requests σ))
      as (total & ids & log' & E & Hlen & Hempty).
    rewrite E. eexists _, _, _. split; [done |]. split; [done |].
    cbn. split; [| split].
    + intros q t i. rewrite lookup_insert. case_decide as Hd.
      * intros [= <- <-]. subst q. split; [done |].
        intros T. by destruct (Hempty T) as (-> & -> & _).
      * apply Hok.
    + done.
    + intros _ T Hfail.
      pose proof (search_artworks_body_failure query (requests σ) T Hfail)
        as Hb.
      rewrite E in Hb. cbn in Hb. by injection Hb as -> ->.
Qed.

End SearchFacts.

Lemma C10_witness :
  exists total ids σ',
    search_artworks get_twelve (VStr (u "monet")) no_requests =
      (Return (total, ids), σ') /\
    (ids_len ids <= 10)%nat /\
    search_cache_ok (search_cache σ') /\
    (truthy (VStr (u "monet")) = false ->
     total = JNum 0 /\ ids = JList [] /\
     requests σ' = requests no_requests) /\
    (search_cache no_requests !! VStr (u "monet") = None ->
     truthy (VStr (u "monet")) = true ->
     (forall r,
        get_twelve (requests no_requests) (search_url (VStr (u "monet"))) =
          Return r ->
        exists e, rbind (raise_for_status r)
                    (fun _ => response_json r) = Throw e) ->
     total = JNum 0 /\ ids = JList []).
Proof.
  apply (C10_search_artworks_bounded get_twelve (VStr (u "monet"))
           no_requests).
  intros q total ids H. cbn in H. by rewrite lookup_empty in H.
Defined.

(** The collection answers a search without results with
    [{"total": 0, "objectIDs": null}]: slicing [None] raises inside the
    [try], and the function returns [(0, [])]. *)
Example search_null_ids :
  (search_artworks
     (fun _ _ =>
        Return (HttpResponse 200
                  (Some (JDict [(u "total", JNum 0);
                                (u "objectIDs", JNull)]))))
     (VStr (u "zzzz")) no_requests).1 =
  Return (JNum 0, JList []).
Proof. vm_compute. reflexivity. Qed.

(** Twelve ids come back from the collection, ten are returned. *)
Example search_keeps_ten :
  (search_artworks get_twelve (VStr (u "monet")) no_requests).1 =
  Return (JNum 12, JList (map (fun n => JNum (Z.of_nat n)) (seq 1 10))).
Proof. vm_compute. reflexivity. Qed.


Section PaletteFacts.
Variable rng : Type.
Variable F : Type.
Variable seed_state : Z -> rng.
Variable np_choice : rng -> list pystr -> nat -> list pystr * rng.
Variable np_rand : rng -> nat -> list F * rng.
Variable np_sum : list F -> F.
Variable fdiv : F -> F -> F.

(** What the script relies on from NumPy: a choice without replacement
    of [k] out of at least [k] options has [k] entries, and [rand(k)]
    has [k] entries. *)
Hypothesis choice_length :
  forall g options k,
    (k <= length options)%nat -> length (np_choice g options k).1 = k.
Hypothesis rand_length : forall g k, length (np_rand g k).1 = k.

Abbreviation simulate :=
  (simulate_palette_data rng F seed_state np_choice np_rand np_sum fdiv).
Abbreviation spec :=
  (spec_palette rng F seed_state np_choice np_rand np_sum fdiv).

Lemma seed_in_range object_id :
  np_random_seed rng seed_state (object_id mod 100) =
  fun g => (Return tt, seed_state (object_id mod 100)).
Proof.
  unfold np_random_seed.
  pose proof (Z.mod_pos_bound object_id 100 ltac:(lia)) as [H0 H1].
  assert ((0 <=? object_id mod 100) = true) as -> by lia.
  assert ((object_id mod 100 <? 2 ^ 32) = true) as -> by lia.
  done.
Qed.

(** The result of the function, spelled out. *)
Lemma simulate_eq object_id title artist g :
  exists df g',
    simulate object_id title artist g = (Return df, g') /\
    Artist df = repeat artist 5 /\
    Artwork df = repeat title 5 /\
    Artwork_ID df = repeat object_id 5 /\
    (Color_HEX df, Frequency df) = spec object_id /\
    g' = (np_rand (np_choice (seed_state (object_id mod 100))
                     hex_options 5).2 5).2.
Proof.
  unfold simulate_palette_data, spec_palette. rewrite seed_in_range.
  pose proof (choice_length (seed_state (object_id mod 100)) hex_options 5
                ltac:(cbn; lia)) as Hc.
  destruct (np_choice (seed_state (object_id mod 100)) hex_options 5)
    as [colors g1]. cbn [fst snd] in *.
  pose proof (rand_length g1 5) as Hr.
  destruct (np_rand g1 5) as [raw g2]. cbn [fst snd] in *.
  unfold pd_DataFrame.
  rewrite !repeat_length, length_map, Hc, Hr. cbn [Nat.eqb andb].
  eexists _, _. split; [done |]. by repeat split.
Qed.

Lemma palette_lengths object_id title artist g df g' :
  simulate object_id title artist g = (Return df, g') ->
  length (Color_HEX df) = 5%nat /\ length (Frequency df) = 5%nat.
Proof.
  intros E.
  destruct (simulate_eq object_id title artist g)
    as (df0 & g0 & E0 & _ & _ & _ & Hp & _).
  rewrite E in E0. injection E0 as <- <-.
  unfold spec_palette in Hp.
  pose proof (choice_length (seed_state (object_id mod 100)) hex_options 5
                ltac:(cbn; lia)) as Hc.
  destruct (np_choice (seed_state (object_id mod 100)) hex_options 5)
    as [colors g1]. cbn [fst snd] in *.
  pose proof (rand_length g1 5) as Hr.
  injection Hp as -> ->. by rewrite length_map.
Qed.

(** C7.  The palette of an artwork is what the spec's words describe:
    the generator is seeded with the id modulo 100, a seed between 0
    and 99; five colours are chosen with it; five random values are
    drawn and each is divided by their sum.  The function returns a
    table with these two columns, of five rows. *)
Theorem C7_palette_seeded_and_normalised
    (object_id : Z) (title artist : pyval) (g : rng) :
  exists df g',
    simulate object_id title artist g = (Return df, g') /\
    (Color_HEX df, Frequency df) = spec object_id /\
    0 <= object_id mod 100 < 100 /\
    nrows df = 5%nat /\
    length (Color_HEX df) = 5%nat /\
    length (Frequency df) = 5%nat /\
    exists raw,
      length raw = 5%nat /\
      Frequency df = map (fun x => fdiv x (np_sum raw)) raw.
Proof.
  destruct (simulate_eq object_id title artist g)
    as (df & g' & E & Ha & Hw & Hi & Hp & Hg).
  exists df, g'. split; [done |]. split; [done |].
  split; [apply Z.mod_pos_bound; lia |].
  split; [unfold nrows; by rewrite Ha |].
  unfold spec_palette in Hp.
  pose proof (choice_length (seed_state (object_id mod 100)) hex_options 5
                ltac:(cbn; lia)) as Hc.
  destruct (np_choice (seed_state (object_id mod 100)) hex_options 5)
    as [colors g1]. cbn [fst snd] in *.
  pose proof (rand_length g1 5) as Hr.
  injection Hp as -> ->.
  split; [done |]. split; [by rewrite length_map |].
  by eexists.
Qed.

(** C9.  The palette does not depend on the state the global generator
    was in: two calls with the same arguments return the same table and
    leave the same generator state.  Two ids that are congruent modulo
    100 get the same five colours and the same five frequencies; the
    tables differ in the artist, title and id columns only, which
    repeat the arguments five times. *)
Theorem C9_palette_deterministic_modulo_100
    (id1 id2 : Z) (t1 a1 t2 a2 : pyval) (g1 g2 : rng) :
  id1 mod 100 = id2 mod 100 ->
  (forall g, simulate id1 t1 a1 g = simulate id1 t1 a1 g1) /\
  exists df1 df2,
    (simulate id1 t1 a1 g1).1 = Return df1 /\
    (simulate id2 t2 a2 g2).1 = Return df2 /\
    nrows df1 = 5%nat /\ nrows df2 = 5%nat /\
    Color_HEX df1 = Color_HEX df2 /\
    Frequency df1 = Frequency df2 /\
    length (Color_HEX df1) = 5%nat /\
    length (Frequency df1) = 5%nat /\
    Artist df1 = repeat a1 5 /\ Artwork df1 = repeat t1 5 /\
    Artwork_ID df1 = repeat id1 5 /\
    Artist df2 = repeat a2 5 /\ Artwork df2 = repeat t2 5 /\
    Artwork_ID df2 = repeat id2 5.
Proof.
  intros Hmod. split.
  - intros g. unfold simulate_palette_data. by rewrite !seed_in_range.
  - destruct (simulate_eq id1 t1 a1 g1)
      as (df1 & g1' & E1 & Ha1 & Hw1 & Hi1 & Hp1 & _).
    destruct (simulate_eq id2 t2 a2 g2)
      as (df2 & g2' & E2 & Ha2 & Hw2 & Hi2 & Hp2 & _).
    assert (spec id1 = spec id2) as Hs.
    { unfold spec_palette. by rewrite Hmod. }
    rewrite Hs in Hp1. rewrite <- Hp2 in Hp1. injection Hp1 as Hc Hf.
    assert (length (Color_HEX df1) = 5%nat /\
            length (Frequency df1) = 5%nat) as [L1 L2].
    { destruct (palette_lengths id1 t1 a1 g1 df1 g1' E1). done. }
    exists df1, df2. rewrite E1, E2.
    unfold nrows. rewrite Ha1, Ha2.
    repeat split; done.
Qed.

End PaletteFacts.


Lemma toy_choice_length g options k :
  (k <= length options)%nat -> length (toy_choice g options k).1 = k.
Proof. intros H. cbn. rewrite length_take, length_rotate. lia. Qed.

Lemma toy_rand_length g k : length (toy_rand g k).1 = k.
Proof. cbn. by rewrite length_map, length_seq. Qed.

Lemma C7_witness :
  exists df g',
    toy_simulate 436535 (VStr (u "Wheat Field with Cypresses"))
      (VStr (u "Vincent van Gogh")) 0%nat = (Return df, g') /\
    (Color_HEX df, Frequency df) =
      spec_palette nat QArith_base.Q toy_seed toy_choice toy_rand toy_sum
        QArith_base.Qdiv 436535 /\
    0 <= 436535 mod 100 < 100 /\
    nrows df = 5%nat /\
    length (Color_HEX df) = 5%nat /\
    length (Frequency df) = 5%nat /\
    exists raw,
      length raw = 5%nat /\
      Frequency df =
        map (fun x => QArith_base.Qdiv x (toy_sum raw)) raw.
Proof.
  exact (C7_palette_seeded_and_normalised nat QArith_base.Q toy_seed
           toy_choice toy_rand toy_sum QArith_base.Qdiv
           toy_choice_length toy_rand_length 436535
           (VStr (u "Wheat Field with Cypresses"))
           (VStr (u "Vincent van Gogh")) 0%nat).
Defined.

Lemma C9_witness :
  436535 mod 100 = 35 mod 100 /\
  (forall g,
     toy_simulate 436535 (VStr (u "Wheat Field with Cypresses"))
       (VStr (u "Vincent van Gogh")) g =
     toy_simulate 436535 (VStr (u "Wheat Field with Cypresses"))
       (VStr (u "Vincent van Gogh")) 7%nat) /\
  exists df1 df2,
    (toy_simulate 436535 (VStr (u "Wheat Field with Cypresses"))
       (VStr (u "Vincent van Gogh")) 7%nat).1 = Return df1 /\
    (toy_simulate 35 (VStr (u "Chair")) (VStr (u "Unknown")) 9%nat).1 =
      Return df2 /\
    nrows df1 = 5%nat /\ nrows df2 = 5%nat /\
    Color_HEX df1 = Color_HEX df2 /\
    Frequency df1 = Frequency df2 /\
    length (Color_HEX df1) = 5%nat /\
    length (Frequency df1) = 5%nat /\
    Artist df1 = repeat (VStr (u "Vincent van Gogh")) 5 /\
    Artwork df1 = repeat (VStr (u "Wheat Field with Cypresses")) 5 /\
    Artwork_ID df1 = repeat 436535 5 /\
    Artist df2 = repeat (VStr (u "Unknown")) 5 /\
    Artwork df2 = repeat (VStr (u "Chair")) 5 /\
    Artwork_ID df2 = repeat 35 5.
Proof.
  split; [reflexivity |].
  apply (C9_palette_deterministic_modulo_100 nat QArith_base.Q toy_seed
           toy_choice toy_rand toy_sum QArith_base.Qdiv
           toy_choice_length toy_rand_length 436535 35
           (VStr (u "Wheat Field with Cypresses"))
           (VStr (u "Vincent van Gogh")) (VStr (u "Chair"))
           (VStr (u "Unknown")) 7%nat 9%nat).
  reflexivity.
Defined.

(** With the toy generator, id 436535 is seeded with 35 and gets the
    options from the 36th position on, counted cyclically. *)
Example toy_palette_colours :
  option_map fst
    (palette_of (toy_simulate 436535 (VStr (u "x")) (VStr (u "y")) 0%nat)) =
  Some [u "#E74C3C"; u "#F1C40F"; u "#3498DB"; u "#C4A86A"; u "#A2C4D8"].
Proof. vm_compute. reflexivity. Qed.

End MuseumClaims.

(** * More about the transformation chain *)

Module ChainExtras.
Import Chain Stubs ChainFacts ChainShape StubsMore.

Ltac compute_goal :=
  unfold post, has_view;
  repeat match goal with |- _ /\ _ => split end;
  vm_compute; reflexivity.


(** ** The page of a run that returns *)

Section Pages.
Variable respond : list call -> call -> resp.
Variable st_image : pyval -> option pystr.
Variable w : widgets.
Variable clicked : option button.

Ltac solve_page :=
  eexists; split; [reflexivity |];
  split; [unfold post, has_view; cbn; look; done |];
  cbn; rewrite <- ?app_assoc; try done.

Lemma sidebar_idle_page σ n st im ft ut ro :
  has_view (sess σ) (View n st im ft ut ro) ->
  clicked <> Some BtnStart ->
  (clicked <> Some BtnReset \/ n <= 0) ->
  exists σ', sidebar w clicked σ = Ok tt σ' /\
    post σ' (View n st im ft (VStr (topic_input w)) (VStr (role_select w)))
      (cache σ) (calls σ) /\
    out σ' = out σ ++ sidebar_page n.
Proof.
  intros (Hn & Hst & Him & Hft & _) Hc Hr.
  destruct σ as [s ca l o]. cbn in *.
  unfold sidebar, sidebar_page. unfold_prims. exec.
  destruct clicked as [[] |]; try done; exec;
    destruct (0 <? n) eqn:E; exec; try solve_page.
  destruct Hr; [done | lia].
Qed.

Lemma col1_idle_page σ n st im ft ut ro :
  has_view (sess σ) (View n st im ft ut ro) ->
  n <> 1 ->
  (n = 2 -> truthy st = true -> clicked <> Some BtnStep2) ->
  exists σ', col1 respond clicked σ = Ok tt σ' /\
    post σ' (View n st im ft ut ro) (cache σ) (calls σ) /\
    out σ' = out σ ++ col1_page n st ro.
Proof.
  intros (Hn & Hst & Him & Hft & Hut & Hro) N1 Hc.
  destruct σ as [s ca l o]. cbn in *.
  unfold col1, col1_page. unfold_prims. exec.
  destruct (n =? 1) eqn:E1; [lia |]. exec.
  destruct (truthy st) eqn:T; exec; [| solve_page].
  destruct (n =? 2) eqn:E2; exec; [| solve_page].
  destruct clicked as [[] |]; exec; try solve_page.
  exfalso. apply Hc; [lia | done | done].
Qed.

Lemma col2_idle_page σ n st im ft ut ro :
  has_view (sess σ) (View n st im ft ut ro) ->
  none_or_str im ->
  n <> 3 ->
  (n = 4 -> image_ok im = true -> st_image im = None ->
   clicked <> Some BtnStep3) ->
  exists σ', col2 respond st_image clicked σ = Ok tt σ' /\
    post σ' (View n st im ft ut ro) (cache σ) (calls σ) /\
    out σ' = out σ ++ col2_page st_image n st im.
Proof.
  intros (Hn & Hst & Him & Hft & Hut & Hro) Tim N3 Hc.
  destruct σ as [s ca l o]. cbn in *.
  unfold col2, col2_page. unfold_prims. exec.
  destruct (n =? 3) eqn:E3; [lia |]. exec.
  destruct Tim as [-> | [t ->]]; exec; [solve_page |].
  destruct t as [| c t]; exec; [solve_page |].
  destruct (startswith (c :: t) error_prefix_image) eqn:E; exec;
    [solve_page |].
  destruct (st_image (VStr (c :: t))) eqn:Himg; exec; [solve_page |].
  destruct (n =? 4) eqn:E4; exec; [| solve_page].
  destruct clicked as [[] |]; exec; try solve_page.
  exfalso. apply Hc; try done; [lia |]. cbn. by rewrite E.
Qed.

Lemma col3_idle_page σ n st im ft ut ro :
  has_view (sess σ) (View n st im ft ut ro) ->
  n <> 5 ->
  (truthy ft = true -> is_str st /\ is_str ft) ->
  exists σ', col3 respond σ = Ok tt σ' /\
    post σ' (View n st im ft ut ro) (cache σ) (calls σ) /\
    out σ' = out σ ++ col3_page st ft.
Proof.
  intros (Hn & Hst & Him & Hft & Hut & Hro) N5 Hs.
  destruct σ as [s ca l o]. cbn in *.
  unfold col3, col3_page. unfold bind, when, sget, emit, ret, with_out. exec.
  destruct (n =? 5) eqn:E5; [lia |]. exec.
  destruct (truthy ft) eqn:T; exec; [| solve_page].
  destruct (Hs eq_refl) as [[s1 ->] [s2 ->]].
  erewrite result_analysis_eq by (cbn; eassumption).
  solve_page.
Qed.

End Pages.

Ltac block_page L :=
  let σn := fresh "σ" in
  let E := fresh "E" in
  let HV := fresh "HV" in
  let HC := fresh "HC" in
  let HL := fresh "HL" in
  let HO := fresh "HO" in
  destruct L as (σn & E & (HV & HC & HL) & HO);
  cbn [sess cache calls out with_out with_sess with_cache with_calls titled
       headed]
    in HV, HC, HL, HO;
  norm_in HV; norm_in HC; norm_in HL;
  first [ rewrite (bind_ok _ _ _ _ _ E) | rewrite E ];
  clear E.

Section PageRuns.
Variable respond : list call -> call -> resp.
Variable st_image : pyval -> option pystr.
Variable w : widgets.

(** A run that returns leaves the fields alone, apart from the two
    inputs, and its page is [page_of] of the fields. *)
Lemma run_idle_page σ c n st im ft ut ro :
  has_view (sess σ) (View n st im ft ut ro) ->
  c <> Some BtnStart ->
  (c <> Some BtnReset \/ n <= 0) ->
  n <> 1 -> n <> 3 -> n <> 5 ->
  (n = 2 -> truthy st = true -> c <> Some BtnStep2) ->
  (n = 4 -> image_ok im = true -> st_image im = None ->
   c <> Some BtnStep3) ->
  none_or_str im ->
  (truthy ft = true -> is_str st /\ is_str ft) ->
  exists σ', run respond st_image w c σ = Ok tt σ' /\
    post σ' (View n st im ft (VStr (topic_input w)) (VStr (role_select w)))
      (cache σ) (calls σ) /\
    out σ' =
      page_of st_image
        (View n st im ft (VStr (topic_input w)) (VStr (role_select w))).
Proof.
  intros HV0 Hs Hr N1 N3 N5 H2 H4 Tim Tft.
  rewrite (run_present _ _ _ _ _ _ (proj1 HV0)).
  block_page (sidebar_idle_page w c (titled σ) _ _ _ _ _ _ HV0 Hs Hr).
  block_page (col1_idle_page respond c _ _ _ _ _ _ _ HV N1 H2).
  block_page (col2_idle_page respond st_image c _ _ _ _ _ _ _ HV1 Tim N3 H4).
  block_page (col3_idle_page respond _ _ _ _ _ _ _ HV2 N5 Tft).
  eexists. split; [reflexivity |].
  split; [split; [eassumption | split; eassumption] |].
  rewrite HO2, HO1, HO0, HO. unfold page_of. cbn [v_step v_start_text
    v_image_url v_final_text v_start_role app].
  by rewrite <- !app_assoc.
Qed.

(** The first run of a session, or the one after a reset, when the start
    button is not pressed. *)
Lemma run_fresh_page σ c :
  sess σ !! "step" = None ->
  c <> Some BtnStart ->
  exists σ', run respond st_image w c σ = Ok tt σ' /\
    post σ'
      (View 0 VNone VNone VNone (VStr (topic_input w)) (VStr (role_select w)))
      (cache σ) (calls σ) /\
    out σ' =
      page_of st_image
        (View 0 VNone VNone VNone (VStr (topic_input w))
           (VStr (role_select w))).
Proof.
  intros Hn Hs. rewrite (run_absent _ _ _ _ _ Hn).
  block_page (sidebar_idle_page w c (titled (with_sess init_keys σ))
                _ _ _ _ _ _ (init_keys_view _) Hs
                (or_intror (Z.le_refl 0))).
  block_page (col1_idle_page respond c _ _ _ _ _ _ _ HV
                ltac:(done) ltac:(done)).
  block_page (col2_idle_page respond st_image c _ _ _ _ _ _ _ HV0
                (or_introl eq_refl) ltac:(done) ltac:(done)).
  block_page (col3_idle_page respond _ _ _ _ _ _ _ HV1
                ltac:(done) ltac:(done)).
  eexists. split; [reflexivity |].
  split; [split; [eassumption | split; eassumption] |].
  rewrite HO2, HO1, HO0, HO. unfold page_of. cbn [v_step v_start_text
    v_image_url v_final_text v_start_role app].
  by rewrite <- !app_assoc.
Qed.

Lemma buttons_app a b : buttons (a ++ b) = buttons a ++ buttons b.
Proof.
  induction a as [| e a IH]; [done |].
  destruct e; cbn; by rewrite ?IH.
Qed.

Lemma buttons_sidebar n :
  buttons (sidebar_page n) =
  BtnStart :: (if 0 <? n then [BtnReset] else []).
Proof. unfold sidebar_page. by destruct (0 <? n). Qed.

Lemma buttons_col1 n st ro :
  buttons (col1_page n st ro) =
  if (n =? 2) && truthy st then [BtnStep2] else [].
Proof. unfold col1_page. by destruct (truthy st), (n =? 2). Qed.

Lemma buttons_col2 n st im :
  buttons (col2_page st_image n st im) =
  if (n =? 4) && image_ok im &&
     match st_image im with
     | None => true
     | Some _ => false
     end
  then [BtnStep3] else [].
Proof.
  unfold col2_page.
  destruct im as [| z | [| ch t]].
  - by rewrite andb_false_r.
  - rewrite andb_false_r. by destruct (truthy (VInt z)).
  - by rewrite andb_false_r.
  - change (truthy (VStr (ch :: t))) with true. cbv iota.
    destruct (image_ok (VStr (ch :: t)));
      [| by rewrite andb_false_r].
    rewrite andb_true_r.
    by destruct (st_image (VStr (ch :: t))), (n =? 4).
Qed.

Lemma buttons_col3 st ft : buttons (col3_page st ft) = [].
Proof. unfold col3_page. by destruct (truthy ft). Qed.

Lemma buttons_page_of V : buttons (page_of st_image V) = offered st_image V.
Proof.
  destruct V as [n st im ft ut ro]. unfold page_of, offered.
  cbn [v_step v_start_text v_image_url v_final_text v_start_role].
  rewrite !buttons_app, buttons_sidebar, buttons_col1, buttons_col2,
    buttons_col3.
  change (buttons head_page) with (@nil button).
  by rewrite app_nil_r.
Qed.

End PageRuns.

Section Stalled.
Variable respond : list call -> call -> resp.
Variable st_image : pyval -> option pystr.

(** Runs that change nothing: no stage is pending and the button of the
    step, if there is one, is not offered. *)
Lemma stalled_events es :
  forall σ n st im ft ut ro,
    has_view (sess σ) (View n st im ft ut ro) ->
    none_or_str im ->
    (truthy ft = true -> is_str st /\ is_str ft) ->
    n <> 1 -> n <> 3 -> n <> 5 ->
    (n = 2 -> truthy st = false) ->
    (n = 4 -> image_ok im = true -> st_image im <> None) ->
    Forall plain es ->
    exists σ' ut' ro',
      run_events respond st_image es σ = Ok tt σ' /\
      has_view (sess σ') (View n st im ft ut' ro') /\
      cache σ' = cache σ /\ calls σ' = calls σ /\
      (es <> [] ->
       out σ' = page_of st_image (View n st im ft ut' ro')).
Proof.
  induction es as [| [w c] es IH];
    intros σ n st im ft ut ro HV Tim Tft N1 N3 N5 H2 H4 Hes.
  - exists σ, ut, ro. do 4 (split; [done |]). intros H. by destruct H.
  - apply Forall_cons in Hes as [[Hs Hr] Hes]. cbn in Hs, Hr.
    destruct (run_idle_page respond st_image w σ c n st im ft ut ro HV Hs
                (or_introl Hr))
      as (σ1 & E1 & (HV1 & HC1 & HL1) & HO1); try done.
    { intros -> T. rewrite H2 in T; done. }
    { intros -> Hok Himg. by apply H4 in Himg. }
    cbn [run_events]. rewrite E1.
    destruct es as [| e es].
    + exists σ1, (VStr (topic_input w)), (VStr (role_select w)).
      by do 4 (split; [done |]).
    + destruct (IH σ1 _ _ _ _ _ _ HV1 Tim Tft N1 N3 N5 H2 H4 Hes)
        as (σ2 & ut2 & ro2 & E2 & HV2 & HC2 & HL2 & HO2).
      exists σ2, ut2, ro2. split; [done |]. split; [done |].
      split; [congruence |]. split; [congruence |].
      intros _. by apply HO2.
Qed.

End Stalled.

Section Shape.
Variable respond : list call -> call -> resp.
Variable st_image : pyval -> option pystr.

Lemma ordered_intro n st im ft ut ro :
  (n = 0 \/ n = 2 \/ n = 3 \/ n = 4 \/ n = 5 \/ n = 6 \/ n = 99) ->
  none_or_str st -> none_or_str im -> none_or_str ft ->
  (n = 0 -> st = VNone) ->
  (3 <= n -> truthy st = true) ->
  (n < 4 -> im = VNone) ->
  (4 <= n <= 6 -> image_ok im = true) ->
  (n = 99 -> image_ok im = false) ->
  (n <> 6 -> ft = VNone) ->
  ordered (View n st im ft ut ro).
Proof. by repeat split. Qed.

Ltac ord :=
  apply ordered_intro;
  try (intros;
       first [ done | lia | by left | by auto
             | match goal with H : _ -> ?G |- ?G => apply H; lia end ]).

Lemma stage_calls_quiet s ca l :
  stage_calls s ca l = l \/ exists q, stage_calls s ca l = l ++ [q].
Proof.
  unfold stage_calls. destruct (ca !! stage_key s); [by left |].
  right. by eexists.
Qed.

(** A run from a well-shaped session: it returns, with nothing sent and
    the page of the fields, or it ends in a rerun with one request at
    most; the session it leaves is well-shaped. *)
Lemma run_shaped σ w c :
  shaped σ ->
  exists σ',
    ((run respond st_image w c σ = Ok tt σ' /\
      calls σ' = calls σ /\ cache σ' = cache σ /\
      exists V, has_view (sess σ') V /\ out σ' = page_of st_image V) \/
     (run respond st_image w c σ = Rerun σ' /\
      (calls σ' = calls σ \/ exists q, calls σ' = calls σ ++ [q]))) /\
    shaped σ'.
Proof.
  intros [Hca Hs].
  destruct (decide (c = Some BtnStart)) as [-> | Hstart].
  { destruct (run_start respond st_image w σ) as (σ' & E & HV & HC & HL).
    pose proof (stage_value_ok respond
      (Stage1 (VStr (topic_input w)) (VStr (role_select w)))
      _ (calls σ) Hca) as Hv.
    exists σ'. split.
    - right. split; [done |]. rewrite HL. apply stage_calls_quiet.
    - split; [rewrite HC; by apply stage_cache_ok |].
      right. eexists. split; [exact HV |].
      ord. }
  destruct Hs as [Hnone | (V & HV & HO)].
  { destruct (run_fresh_page respond st_image w σ c Hnone Hstart)
      as (σ' & E & (HV & HC & HL) & HO).
    exists σ'. split; [left; do 3 (split; [done |]); by eexists |].
    split; [by rewrite HC |].
    right. eexists. split; [exact HV |].
    ord. }
  destruct V as [n st im ft ut ro].
  destruct HO as (Hn & Tst & Tim & Tft & H0 & H3 & Hlt4 & H46 & H99 & H6).
  cbn in Hn, Tst, Tim, Tft, H0, H3, Hlt4, H46, H99, H6.
  destruct (decide (c = Some BtnReset /\ 0 < n)) as [[-> Hpos] | Hr].
  { destruct (run_reset respond st_image w σ _ (proj1 HV) Hpos)
      as (σ' & E & Hse & HC & HL).
    exists σ'. split; [right; split; [done | by left] |].
    split; [by rewrite HC |].
    left. rewrite Hse. by apply reset_keys_drop. }
  assert (c <> Some BtnReset \/ n <= 0) as Hr'.
  { destruct (decide (c = Some BtnReset)); [right | by left].
    destruct (decide (0 < n)); [| lia]. exfalso. by apply Hr. }
  assert (Hidle : truthy ft = true -> is_str st /\ is_str ft).
  { intros T. assert (n = 6) as ->.
    { destruct (decide (n = 6)); [done |]. rewrite H6 in T; done. }
    split; apply truthy_str; auto. apply H3. lia. }
  destruct (decide (n = 3)) as [-> | N3].
  { destruct Hr' as [Hr' | ?]; [| lia].
    pose proof (stage_value_ok respond (Stage2 st) _ (calls σ) Hca) as Hv.
    destruct (run_stage2 respond st_image w σ c _ _ _ _ _ HV Hv Hstart Hr')
      as (σ' & E & HV' & HC & HL).
    exists σ'. split.
    - right. split; [done |]. rewrite HL. apply stage_calls_quiet.
    - split; [rewrite HC; by apply stage_cache_ok |].
      right. eexists. split; [exact HV' |].
      match goal with
      | |- context [image_ok ?v] => destruct (image_ok v) eqn:Hok
      end; ord. }
  destruct (decide (n = 5)) as [-> | N5].
  { destruct Hr' as [Hr' | ?]; [| lia].
    destruct (run_stage3 respond st_image w σ c _ _ _ _ _ HV Tim Hstart Hr')
      as (σ' & E & HV' & HC & HL).
    pose proof (stage_value_ok respond (Stage3 im) _ (calls σ) Hca) as Hv.
    exists σ'. split.
    - right. split; [done |]. rewrite HL. apply stage_calls_quiet.
    - split; [rewrite HC; by apply stage_cache_ok |].
      right. eexists. split; [exact HV' |].
      ord. }
  destruct (decide (n = 2 /\ truthy st = true /\ c = Some BtnStep2))
    as [(-> & T & ->) | N2].
  { destruct (run_click2 respond st_image w σ _ _ _ _ _ HV T)
      as (σ' & E & HV' & HC & HL).
    exists σ'. split; [right; split; [done | by left] |].
    split; [by rewrite HC |].
    right. eexists. split; [exact HV' |].
    ord. }
  destruct (decide (n = 4 /\ image_ok im = true /\ st_image im = None /\
                    c = Some BtnStep3))
    as [(-> & Hok & Himg & ->) | N4].
  { destruct (run_click3 respond st_image w σ _ _ _ _ _ HV Hok Himg)
      as (σ' & E & HV' & HC & HL).
    exists σ'. split; [right; split; [done | by left] |].
    split; [by rewrite HC |].
    right. eexists. split; [exact HV' |].
    ord. }
  assert (n <> 1) as N1 by lia.
  destruct (run_idle_page respond st_image w σ c _ _ _ _ _ _ HV Hstart Hr'
              N1 N3 N5)
    as (σ' & E & (HV' & HC & HL) & HO); try done.
  { intros -> T ->. apply N2. done. }
  { intros -> Hok Himg ->. apply N4. done. }
  exists σ'. split; [left; do 3 (split; [done |]); by eexists |].
  split; [by rewrite HC |].
  right. eexists. split; [exact HV' |].
  ord.
Qed.

Lemma reachable_shaped σ : reachable respond st_image σ -> shaped σ.
Proof.
  induction 1 as [| σ _ IH | σ w c σ' _ IH Hrun].
  - split; [intros k v; cbn; by rewrite lookup_empty | by left].
  - destruct IH as [Hca _]. split; [done | by left].
  - destruct (run_shaped σ w c IH) as (σ'' & Q & Hsh).
    destruct Q as [(E & _) | (E & _)], Hrun as [Hrun | Hrun];
      rewrite E in Hrun; congruence.
Qed.

End Shape.

(** ** Properties of the chain *)

(** X1.  Between runs the results are filled in the order of the
    stages.  A session that a server process can be in has no step yet
    (a new session, or one just reset), or its step is one of 0, 2, 3,
    4, 5, 6, 99 and: at step 0 there is no first text; from step 3 on
    the first text is a non-empty text; before step 4 there is no image
    url; at steps 4 to 6 the image url is a non-empty text without the
    error prefix; at step 99 it is not; and a final text is there at
    step 6 only. *)
Theorem X1_results_filled_in_stage_order
    (respond : list call -> call -> resp) (st_image : pyval -> option pystr)
    (σ : state) :
  reachable respond st_image σ ->
  field "step" σ = None \/
  exists V, has_view (sess σ) V /\ ordered V.
Proof. intros H. by destruct (reachable_shaped respond st_image σ H). Qed.

Lemma X1_witness :
  field "step" (full_chain respond_ok w_city fresh) = None \/
  exists V,
    has_view (sess (full_chain respond_ok w_city fresh)) V /\ ordered V.
Proof.
  apply (X1_results_filled_in_stage_order respond_ok image_shown
           (full_chain respond_ok w_city fresh)).
  apply ChainClaims.reachable_full_chain.
Defined.

(** X2.  One run sends one request at most.  From a session a server
    process can be in, a run either returns, and then it has sent no
    request and the memo table is as before, or it ends in a rerun
    having sent one request or none.  It never ends in an exception. *)
Theorem X2_run_sends_at_most_one_request
    (respond : list call -> call -> resp) (st_image : pyval -> option pystr)
    (σ : state) (w : widgets) (c : option button) :
  reachable respond st_image σ ->
  exists σ',
    (run respond st_image w c σ = Ok tt σ' /\
     calls σ' = calls σ /\ cache σ' = cache σ) \/
    (run respond st_image w c σ = Rerun σ' /\
     (calls σ' = calls σ \/ exists q, calls σ' = calls σ ++ [q])).
Proof.
  intros H.
  destruct (run_shaped respond st_image σ w c
              (reachable_shaped respond st_image σ H))
    as (σ' & [(E & HL & HC & _) | (E & HL)] & _); exists σ'.
  - by left.
  - by right.
Qed.

Lemma X2_witness :
  exists σ',
    (run respond_ok image_shown w_sea (Some BtnStart)
       (full_chain respond_ok w_city fresh) = Ok tt σ' /\
     calls σ' = calls (full_chain respond_ok w_city fresh) /\
     cache σ' = cache (full_chain respond_ok w_city fresh)) \/
    (run respond_ok image_shown w_sea (Some BtnStart)
       (full_chain respond_ok w_city fresh) = Rerun σ' /\
     (calls σ' = calls (full_chain respond_ok w_city fresh) \/
      exists q, calls σ' = calls (full_chain respond_ok w_city fresh) ++ [q])).
Proof.
  apply (X2_run_sends_at_most_one_request respond_ok image_shown
           (full_chain respond_ok w_city fresh) w_sea (Some BtnStart)).
  apply ChainClaims.reachable_full_chain.
Defined.

(** X3.  The start button works from every session, whatever its keys
    hold: with its rerun it ends at step 2 with the first text of the
    topic and role in the widgets, and the image url and the final text
    set to [None].  On a memo miss the chat model is asked once and the
    text is its answer, or the error text when it raised; on a hit the
    memoised text is stored and nothing is sent.  Pressed again with the
    same topic and role it stores the same text, an error text
    included, and sends nothing. *)
Theorem X3_start_restarts_any_session
    (respond : list call -> call -> resp) (st_image : pyval -> option pystr)
    (w : widgets) (σ : state) :
  let T := VStr (topic_input w) in
  let R := VStr (role_select w) in
  let v := stage_value respond (Stage1 T R) (cache σ) (calls σ) in
  exists σ1 σ2,
    interact respond st_image 2 w (Some BtnStart) w σ = Ok tt σ1 /\
    has_view (sess σ1) (View 2 v VNone VNone T R) /\
    (cache σ !! stage_key (Stage1 T R) = None ->
     calls σ1 = calls σ ++ [request1 T R] /\
     v = answer error_prefix_text (respond (calls σ) (request1 T R))) /\
    (forall v0, cache σ !! stage_key (Stage1 T R) = Some v0 ->
                v = v0 /\ calls σ1 = calls σ) /\
    interact respond st_image 2 w (Some BtnStart) w σ1 = Ok tt σ2 /\
    has_view (sess σ2) (View 2 v VNone VNone T R) /\
    calls σ2 = calls σ1.
Proof.
  intros T R v.
  destruct (interact_start respond st_image w 1 w σ)
    as (σ1 & E1 & HV1 & HC1 & HL1).
  destruct (interact_start respond st_image w 1 w σ1)
    as (σ2 & E2 & HV2 & HC2 & HL2).
  fold T R in HV1, HC1, HL1, HV2, HC2, HL2. fold v in HV1.
  exists σ1, σ2. split; [exact E1 |]. split; [exact HV1 |].
  split; [| split; [| split; [exact E2 | split]]].
  - intros Hmiss. rewrite HL1. unfold v, stage_calls, stage_value.
    by rewrite Hmiss.
  - intros v0 Hhit. rewrite HL1. unfold v, stage_calls, stage_value.
    by rewrite Hhit.
  - rewrite HC1, HL1 in HV2.
    by rewrite ChainClaims.stage_value_again in HV2.
  - by rewrite HL2, HC1, ChainClaims.stage_calls_again.
Qed.

(** X4.  A failure of the third stage is not told apart from a result.
    At step 5, when the vision model raises on a memo miss, the run
    stores the error text as the final text and sets the step to 6; the
    next run returns at step 6 and shows the error text in the place of
    the final text, followed by the two lengths, that of the error text
    as the final one. *)
Theorem X4_failed_stage3_ends_complete
    (respond : list call -> call -> resp) (st_image : pyval -> option pystr)
    (w w' : widgets) (c : option button) (σ : state)
    (s1 : pystr) (im ut ro : pyval) (m : pystr) :
  let err := error_prefix_vision ++ u ": " ++ m in
  has_view (sess σ) (View 5 (VStr s1) im VNone ut ro) ->
  none_or_str im ->
  c <> Some BtnStart -> c <> Some BtnReset ->
  cache σ !! stage_key (Stage3 im) = None ->
  respond (calls σ) (CallVision vision_instruction im) = Raised m ->
  exists σ1 σ2 before,
    run respond st_image w c σ = Rerun σ1 /\
    field "step" σ1 = Some (VInt 6) /\
    field "final_text" σ1 = Some (VStr err) /\
    calls σ1 = calls σ ++ [CallVision vision_instruction im] /\
    run respond st_image w' None σ1 = Ok tt σ2 /\
    field "step" σ2 = Some (VInt 6) /\
    field "final_text" σ2 = Some (VStr err) /\
    calls σ2 = calls σ1 /\
    out σ2 = before ++
      [InfoBox err;
       Markdown (u "---");
       Header (u "4. 결과 분석 및 왜곡 시각화");
       Markdown (u "**시작 텍스트 길이:** " ++
                 py_str_int (Z.of_nat (length s1)) ++ u "자");
       Markdown (u "**최종 텍스트 길이:** " ++
                 py_str_int (Z.of_nat (length err)) ++ u "자");
       WarningBox (u "*(LLM이 시각 정보를 묘사하며 원본 정보가 손실되거나 새로운 정보가 추가되는 '전달 왜곡' 현상 발생)*")].
Proof.
  intros err HV Tim Hs Hr Hmiss Hresp.
  assert (stage_value respond (Stage3 im) (cache σ) (calls σ) = VStr err)
    as Hval.
  { unfold stage_value. rewrite Hmiss. cbn [stage_request stage_prefix].
    by rewrite Hresp. }
  assert (stage_calls (Stage3 im) (cache σ) (calls σ) =
          calls σ ++ [CallVision vision_instruction im]) as Hcalls.
  { unfold stage_calls. by rewrite Hmiss. }
  destruct (run_stage3 respond st_image w σ c _ _ _ _ _ HV Tim Hs Hr)
    as (σ1 & E1 & HV1 & HC1 & HL1).
  rewrite Hval in HV1. rewrite Hcalls in HL1.
  assert (truthy (VStr err) = true) as Terr by (by vm_compute).
  destruct (run_idle_page respond st_image w' σ1 None _ _ _ _ _ _ HV1)
    as (σ2 & E2 & (HV2 & HC2 & HL2) & HO2); try done; try (by left).
  { intros _. split; by eexists. }
  pose proof HV1 as (G1 & _ & _ & G4 & _).
  pose proof HV2 as (K1 & _ & _ & K4 & _).
  cbn in G1, G4, K1, K4.
  exists σ1, σ2,
    (head_page ++ sidebar_page 6 ++
     col1_page 6 (VStr s1) (VStr (role_select w')) ++
     col2_page st_image 6 (VStr s1) im ++
     [Header (u "3. 최종 텍스트 (역변환)")]).
  do 8 (split; [done |]).
  rewrite HO2. unfold page_of, col3_page.
  cbn [v_step v_start_text v_image_url v_final_text v_start_role].
  rewrite Terr. cbn [text_len py_str].
  rewrite <- !(app_assoc (A:=elem)). reflexivity.
Qed.

Lemma X4_witness :
  exists σ1 σ2 before,
    run respond_vision_down image_shown w_city None at_step5 = Rerun σ1 /\
    field "step" σ1 = Some (VInt 6) /\
    field "final_text" σ1 =
      Some (VStr (error_prefix_vision ++ u ": " ++ u "overloaded")) /\
    calls σ1 =
      calls at_step5 ++
      [CallVision vision_instruction (VStr (u "ref-1"))] /\
    run respond_vision_down image_shown w_city None σ1 = Ok tt σ2 /\
    field "step" σ2 = Some (VInt 6) /\
    field "final_text" σ2 =
      Some (VStr (error_prefix_vision ++ u ": " ++ u "overloaded")) /\
    calls σ2 = calls σ1 /\
    out σ2 = before ++
      [InfoBox (error_prefix_vision ++ u ": " ++ u "overloaded");
       Markdown (u "---");
       Header (u "4. 결과 분석 및 왜곡 시각화");
       Markdown (u "**시작 텍스트 길이:** " ++
                 py_str_int
                   (Z.of_nat (length (u "Neon rain on empty streets."))) ++
                 u "자");
       Markdown (u "**최종 텍스트 길이:** " ++
                 py_str_int
                   (Z.of_nat
                      (length
                         (error_prefix_vision ++ u ": " ++ u "overloaded"))) ++
                 u "자");
       WarningBox (u "*(LLM이 시각 정보를 묘사하며 원본 정보가 손실되거나 새로운 정보가 추가되는 '전달 왜곡' 현상 발생)*")].
Proof.
  apply (X4_failed_stage3_ends_complete respond_vision_down image_shown
           w_city w_city None at_step5 (u "Neon rain on empty streets.")
           (VStr (u "ref-1")) (VStr (u "lonely future city"))
           (VStr (u "AI poet")) (u "overloaded")).
  - compute_goal.
  - right. by eexists.
  - discriminate.
  - discriminate.
  - vm_compute; reflexivity.
  - vm_compute; reflexivity.
Defined.

(** X5.  An empty first text stops the chain.  When the chat model
    answers with no text or an empty one on a memo miss, the start
    button ends at step 2 with that value stored; the page offers the
    start and the reset button only, not the button for step 2; and no
    later run without start or reset changes the step or sends a
    request. *)
Theorem X5_empty_first_text_stalls
    (respond : list call -> call -> resp) (st_image : pyval -> option pystr)
    (w : widgets) (σ : state) (v : option pystr) :
  let T := VStr (topic_input w) in
  let R := VStr (role_select w) in
  cache σ !! stage_key (Stage1 T R) = None ->
  respond (calls σ) (request1 T R) = Returned v ->
  v = None \/ v = Some [] ->
  exists σ1,
    interact respond st_image 2 w (Some BtnStart) w σ = Ok tt σ1 /\
    field "step" σ1 = Some (VInt 2) /\
    field "start_text" σ1 = Some (of_option v) /\
    buttons (out σ1) = [BtnStart; BtnReset] /\
    forall es,
      Forall plain es ->
      exists σ2,
        run_events respond st_image es σ1 = Ok tt σ2 /\
        field "step" σ2 = Some (VInt 2) /\
        field "start_text" σ2 = Some (of_option v) /\
        calls σ2 = calls σ1.
Proof.
  intros T R Hmiss Hresp Hv.
  assert (stage_value respond (Stage1 T R) (cache σ) (calls σ) = of_option v)
    as Hval.
  { unfold stage_value. rewrite Hmiss. cbn [stage_request stage_prefix].
    by rewrite Hresp. }
  assert (truthy (of_option v) = false) as Tv.
  { by destruct Hv as [-> | ->]. }
  destruct (run_start respond st_image w σ) as (σ0 & E0 & HV0 & HC0 & HL0).
  fold T R in HV0. rewrite Hval in HV0.
  destruct (run_idle_page respond st_image w σ0 None _ _ _ _ _ _ HV0)
    as (σ1 & E1 & (HV1 & HC1 & HL1) & HO1); try done; try (by left).
  exists σ1. split.
  { cbn [interact]. rewrite E0. cbn [interact]. by rewrite E1. }
  pose proof HV1 as (G1 & G2 & _). cbn in G1, G2.
  split; [done |]. split; [done |]. split.
  { rewrite HO1, buttons_page_of. unfold offered.
    cbn [v_step v_start_text v_image_url]. by rewrite Tv. }
  intros es Hes.
  destruct (stalled_events respond st_image es σ1 _ _ _ _ _ _ HV1)
    as (σ2 & ut2 & ro2 & E2 & HV2 & HC2 & HL2 & _); try done;
    try (by left).
  pose proof HV2 as (K1 & K2 & _). cbn in K1, K2.
  by exists σ2.
Qed.

Lemma X5_witness :
  exists σ1,
    interact respond_chat_empty image_shown 2 w_city (Some BtnStart) w_city
      fresh = Ok tt σ1 /\
    field "step" σ1 = Some (VInt 2) /\
    field "start_text" σ1 = Some (of_option (Some [])) /\
    buttons (out σ1) = [BtnStart; BtnReset] /\
    forall es,
      Forall plain es ->
      exists σ2,
        run_events respond_chat_empty image_shown es σ1 = Ok tt σ2 /\
        field "step" σ2 = Some (VInt 2) /\
        field "start_text" σ2 = Some (of_option (Some [])) /\
        calls σ2 = calls σ1.
Proof.
  apply (X5_empty_first_text_stalls respond_chat_empty image_shown w_city
           fresh (Some [])).
  - vm_compute; reflexivity.
  - reflexivity.
  - by right.
Defined.

(** X6.  An image stage that returns no url, or an empty one, is
    handled as a failure, without a message.  At step 3 on a memo miss
    the run stores the value and sets the step to 99; every later run
    without start or reset keeps the step at 99, sends nothing, offers
    the start and the reset button only, and its page has neither an
    image nor an error box. *)
Theorem X6_missing_image_url_fails_silently
    (respond : list call -> call -> resp) (st_image : pyval -> option pystr)
    (w : widgets) (c : option button) (σ : state)
    (st ut ro : pyval) (v : option pystr) :
  has_view (sess σ) (View 3 st VNone VNone ut ro) ->
  c <> Some BtnStart -> c <> Some BtnReset ->
  cache σ !! stage_key (Stage2 st) = None ->
  respond (calls σ) (CallImage st) = Returned v ->
  v = None \/ v = Some [] ->
  exists σ1,
    run respond st_image w c σ = Rerun σ1 /\
    field "step" σ1 = Some (VInt 99) /\
    field "image_url" σ1 = Some (of_option v) /\
    calls σ1 = calls σ ++ [CallImage st] /\
    forall e es,
      Forall plain (e :: es) ->
      exists σ2,
        run_events respond st_image (e :: es) σ1 = Ok tt σ2 /\
        field "step" σ2 = Some (VInt 99) /\
        calls σ2 = calls σ1 /\
        buttons (out σ2) = [BtnStart; BtnReset] /\
        forallb (fun x => match x with
                          | Image _ | ErrorBox _ => false
                          | _ => true
                          end) (out σ2) = true.
Proof.
  intros HV Hs Hr Hmiss Hresp Hv.
  assert (stage_value respond (Stage2 st) (cache σ) (calls σ) = of_option v)
    as Hval.
  { unfold stage_value. rewrite Hmiss. cbn [stage_request stage_prefix].
    by rewrite Hresp. }
  assert (truthy (of_option v) = false /\ image_ok (of_option v) = false /\
          none_or_str (of_option v)) as (Tv & Hbad & Nv).
  { destruct Hv as [-> | ->]; cbn; repeat split; try done;
      [by left | right; by eexists]. }
  destruct (run_stage2 respond st_image w σ c _ _ _ _ _ HV)
    as (σ1 & E1 & HV1 & HC1 & HL1); try done.
  { by rewrite Hval. }
  rewrite Hval in HV1. rewrite Hbad in HV1.
  unfold stage_calls in HL1. rewrite Hmiss in HL1.
  cbn [stage_request] in HL1.
  pose proof HV1 as (G1 & _ & G3 & _). cbn in G1, G3.
  exists σ1. do 4 (split; [done |]).
  intros e es Hes.
  destruct (stalled_events respond st_image (e :: es) σ1 _ _ _ _ _ _ HV1)
    as (σ2 & ut2 & ro2 & E2 & HV2 & HC2 & HL2 & HO2); try done.
  pose proof HV2 as (K1 & _). cbn in K1.
  exists σ2. do 3 (split; [done |]).
  rewrite (HO2 ltac:(done)). split.
  - rewrite buttons_page_of. unfold offered.
    cbn [v_step v_start_text v_image_url]. rewrite Hbad.
    by rewrite andb_false_r.
  - unfold page_of, col1_page, col2_page, col3_page.
    cbn [v_step v_start_text v_image_url v_final_text v_start_role].
    rewrite Tv. by destruct (truthy st).
Qed.

Lemma X6_witness :
  exists σ1,
    run respond_image_none image_shown w_city None at_step3_none =
      Rerun σ1 /\
    field "step" σ1 = Some (VInt 99) /\
    field "image_url" σ1 = Some (of_option None) /\
    calls σ1 =
      calls at_step3_none ++
      [CallImage (VStr (u "Neon rain on empty streets."))] /\
    forall e es,
      Forall plain (e :: es) ->
      exists σ2,
        run_events respond_image_none image_shown (e :: es) σ1 = Ok tt σ2 /\
        field "step" σ2 = Some (VInt 99) /\
        calls σ2 = calls σ1 /\
        buttons (out σ2) = [BtnStart; BtnReset] /\
        forallb (fun x => match x with
                          | Image _ | ErrorBox _ => false
                          | _ => true
                          end) (out σ2) = true.
Proof.
  apply (X6_missing_image_url_fails_silently respond_image_none image_shown
           w_city None at_step3_none (VStr (u "Neon rain on empty streets."))
           (VStr (u "lonely future city")) (VStr (u "AI poet")) None).
  - compute_goal.
  - discriminate.
  - discriminate.
  - vm_compute; reflexivity.
  - reflexivity.
  - by left.
Defined.

(** X7.  An image that [st.image] cannot show stops the chain at step
    4.  With a usable image url stored and [st.image] raising on it,
    every run without start or reset returns with the step still 4 and
    no final text, sends nothing, shows the error of [st.image] in an
    error box, and does not offer the button for step 3. *)
Theorem X7_unshowable_image_stalls
    (respond : list call -> call -> resp) (st_image : pyval -> option pystr)
    (σ : state) (st im ut ro : pyval) (msg : pystr)
    (e : widgets * option button) (es : list (widgets * option button)) :
  has_view (sess σ) (View 4 st im VNone ut ro) ->
  image_ok im = true ->
  st_image im = Some msg ->
  Forall plain (e :: es) ->
  exists σ',
    run_events respond st_image (e :: es) σ = Ok tt σ' /\
    field "step" σ' = Some (VInt 4) /\
    field "final_text" σ' = Some VNone /\
    calls σ' = calls σ /\
    In (ErrorBox (u "이미지 표시 오류: " ++ msg)) (out σ') /\
    buttons (out σ') = [BtnStart; BtnReset].
Proof.
  intros HV Hok Himg Hes.
  assert (none_or_str im) as Tim.
  { destruct im; try done. right. by eexists. }
  assert (truthy im = true) as Tt.
  { destruct im as [| z | s]; try done. cbn in Hok.
    by apply andb_true_iff in Hok as [? _]. }
  destruct (stalled_events respond st_image (e :: es) σ _ _ _ _ _ _ HV)
    as (σ' & ut' & ro' & E & HV' & HC' & HL' & HO'); try done.
  { intros _ _. by rewrite Himg. }
  pose proof HV' as (K1 & _ & _ & K4 & _). cbn in K1, K4.
  exists σ'. do 4 (split; [done |]).
  rewrite (HO' ltac:(done)). split.
  - unfold page_of, col2_page.
    cbn [v_step v_start_text v_image_url v_final_text v_start_role].
    rewrite Tt, Hok, Himg.
    rewrite !in_app_iff. right; right; right; left.
    right; right; left. done.
  - rewrite buttons_page_of. unfold offered.
    cbn [v_step v_start_text v_image_url]. by rewrite Himg, andb_false_r.
Qed.

Lemma X7_witness :
  exists σ',
    run_events respond_ok image_broken [(w_city, Some BtnStep3)] at_step4 =
      Ok tt σ' /\
    field "step" σ' = Some (VInt 4) /\
    field "final_text" σ' = Some VNone /\
    calls σ' = calls at_step4 /\
    In (ErrorBox (u "이미지 표시 오류: " ++ u "cannot identify image file"))
       (out σ') /\
    buttons (out σ') = [BtnStart; BtnReset].
Proof.
  apply (X7_unshowable_image_stalls respond_ok image_broken at_step4
           (VStr (u "Neon rain on empty streets.")) (VStr (u "ref-1"))
           (VStr (u "lonely future city")) (VStr (u "AI poet"))
           (u "cannot identify image file") (w_city, Some BtnStep3) []).
  - compute_goal.
  - vm_compute; reflexivity.
  - reflexivity.
  - constructor; [split; discriminate | constructor].
Defined.

(** X8.  Step 6 is final.  With the three results stored, no run
    without start or reset changes the step or one of the results, or
    sends a request; each such run returns and offers the start and the
    reset button only. *)
Theorem X8_complete_is_final
    (respond : list call -> call -> resp) (st_image : pyval -> option pystr)
    (σ : state) (s1 : pystr) (im ft ut ro : pyval)
    (e : widgets * option button) (es : list (widgets * option button)) :
  has_view (sess σ) (View 6 (VStr s1) im ft ut ro) ->
  none_or_str im -> none_or_str ft ->
  Forall plain (e :: es) ->
  exists σ',
    run_events respond st_image (e :: es) σ = Ok tt σ' /\
    field "step" σ' = Some (VInt 6) /\
    field "start_text" σ' = Some (VStr s1) /\
    field "image_url" σ' = Some im /\
    field "final_text" σ' = Some ft /\
    cache σ' = cache σ /\ calls σ' = calls σ /\
    buttons (out σ') = [BtnStart; BtnReset].
Proof.
  intros HV Tim Tft Hes.
  destruct (stalled_events respond st_image (e :: es) σ _ _ _ _ _ _ HV)
    as (σ' & ut' & ro' & E & HV' & HC' & HL' & HO'); try done.
  { intros T. split; [by eexists | by apply truthy_str]. }
  pose proof HV' as (K1 & K2 & K3 & K4 & _). cbn in K1, K2, K3, K4.
  exists σ'. do 7 (split; [done |]).
  rewrite (HO' ltac:(done)), buttons_page_of. unfold offered.
  cbn [v_step v_start_text v_image_url]. done.
Qed.

Lemma X8_witness :
  exists σ',
    run_events respond_ok image_shown
      [(w_sea, Some BtnStep2); (w_sea, Some BtnStep3); (w_sea, None)]
      (full_chain respond_ok w_city fresh) = Ok tt σ' /\
    field "step" σ' = Some (VInt 6) /\
    field "start_text" σ' = Some (VStr (u "Neon rain on empty streets.")) /\
    field "image_url" σ' = Some (VStr (u "ref-1")) /\
    field "final_text" σ' =
      Some (VStr (u "A moody blue cityscape, sparse and melancholic.")) /\
    cache σ' = cache (full_chain respond_ok w_city fresh) /\
    calls σ' = calls (full_chain respond_ok w_city fresh) /\
    buttons (out σ') = [BtnStart; BtnReset].
Proof.
  apply (X8_complete_is_final respond_ok image_shown
           (full_chain respond_ok w_city fresh)
           (u "Neon rain on empty streets.") (VStr (u "ref-1"))
           (VStr (u "A moody blue cityscape, sparse and melancholic."))
           (VStr (u "lonely future city")) (VStr (u "AI poet"))
           (w_sea, Some BtnStep2) [(w_sea, Some BtnStep3); (w_sea, None)]).
  - compute_goal.
  - right. by eexists.
  - right. by eexists.
  - repeat (constructor; [split; discriminate |]). constructor.
Defined.

(** X9.  The buttons on a finished page are those of the step.  A run
    from a session a server process can be in ends in a rerun, or it
    returns, and then its page is the rendering [page_of] of the fields
    it leaves, whose buttons are: the start button; the reset button
    when the step is above 0; the button for step 2 when the step is 2
    and the first text is not empty; the button for step 3 when the step
    is 4, the image url is usable and [st.image] has shown it. *)
Theorem X9_page_offers_the_buttons_of_the_step
    (respond : list call -> call -> resp) (st_image : pyval -> option pystr)
    (σ : state) (w : widgets) (c : option button) :
  reachable respond st_image σ ->
  (exists σ', run respond st_image w c σ = Rerun σ') \/
  (exists σ' V,
     run respond st_image w c σ = Ok tt σ' /\
     has_view (sess σ') V /\
     out σ' = page_of st_image V /\
     buttons (out σ') = offered st_image V).
Proof.
  intros H.
  destruct (run_shaped respond st_image σ w c
              (reachable_shaped respond st_image σ H))
    as (σ' & [(E & _ & _ & V & HV & HO) | (E & _)] & _).
  - right. exists σ', V. do 3 (split; [done |]).
    by rewrite HO, buttons_page_of.
  - left. by exists σ'.
Qed.

Lemma X9_witness :
  (exists σ',
     run respond_ok image_shown w_city None
       (full_chain respond_ok w_city fresh) = Rerun σ') \/
  (exists σ' V,
     run respond_ok image_shown w_city None
       (full_chain respond_ok w_city fresh) = Ok tt σ' /\
     has_view (sess σ') V /\
     out σ' = page_of image_shown V /\
     buttons (out σ') = offered image_shown V).
Proof.
  apply (X9_page_offers_the_buttons_of_the_step respond_ok image_shown
           (full_chain respond_ok w_city fresh) w_city None).
  apply ChainClaims.reachable_full_chain.
Defined.

(** X21.  A failure of the first stage is shown as if it were a
    result.  When the chat model raises on a memo miss, the start button
    ends at step 2 with the error text as first text; the page shows it
    in the info box of the first text, has no error box, and offers the
    button for step 2.  Pressing that button moves to step 3, and the
    rerun asks the image model, when the text is not memoised for it,
    with the error text as prompt. *)
Theorem X21_first_stage_error_is_shown_as_a_result
    (respond : list call -> call -> resp) (st_image : pyval -> option pystr)
    (w : widgets) (σ : state) (m : pystr) :
  let T := VStr (topic_input w) in
  let R := VStr (role_select w) in
  let err := error_prefix_text ++ u ": " ++ m in
  cache σ !! stage_key (Stage1 T R) = None ->
  respond (calls σ) (request1 T R) = Raised m ->
  cache σ !! stage_key (Stage2 (VStr err)) = None ->
  exists σ1 σ2 σ3,
    interact respond st_image 2 w (Some BtnStart) w σ = Ok tt σ1 /\
    field "step" σ1 = Some (VInt 2) /\
    field "start_text" σ1 = Some (VStr err) /\
    In (InfoBox err) (out σ1) /\
    forallb (fun x => match x with
                      | ErrorBox _ => false
                      | _ => true
                      end) (out σ1) = true /\
    buttons (out σ1) = [BtnStart; BtnReset; BtnStep2] /\
    run respond st_image w (Some BtnStep2) σ1 = Rerun σ2 /\
    field "step" σ2 = Some (VInt 3) /\
    run respond st_image w None σ2 = Rerun σ3 /\
    calls σ3 = calls σ1 ++ [CallImage (VStr err)].
Proof.
  intros T R err Hmiss Hresp Hmiss2.
  assert (stage_value respond (Stage1 T R) (cache σ) (calls σ) = VStr err)
    as Hval.
  { unfold stage_value. rewrite Hmiss. cbn [stage_request stage_prefix].
    by rewrite Hresp. }
  assert (truthy (VStr err) = true) as Terr by (by vm_compute).
  destruct (run_start respond st_image w σ) as (σ0 & E0 & HV0 & HC0 & HL0).
  fold T R in HV0, HC0, HL0. rewrite Hval in HV0.
  destruct (run_idle_page respond st_image w σ0 None _ _ _ _ _ _ HV0)
    as (σ1 & E1 & (HV1 & HC1 & HL1) & HO1); try done; try (by left).
  destruct (run_click2 respond st_image w σ1 _ _ _ _ _ HV1 Terr)
    as (σ2 & E2 & HV2 & HC2 & HL2).
  assert (cache σ2 !! stage_key (Stage2 (VStr err)) = None) as Hmiss2'.
  { rewrite HC2, HC1, HC0. by rewrite stage_cache_other. }
  destruct (run_stage2 respond st_image w σ2 None _ _ _ _ _ HV2)
    as (σ3 & E3 & HV3 & HC3 & HL3); try done.
  { unfold stage_value. rewrite Hmiss2'.
    match goal with
    | |- context [respond ?l ?q] => destruct (respond l q) as [[v |] | m']
    end; cbn [answer of_option].
    - right. by exists v.
    - by left.
    - right. eexists. reflexivity. }
  exists σ1, σ2, σ3.
  split. { cbn [interact]. rewrite E0. cbn [interact]. by rewrite E1. }
  pose proof HV1 as (G1 & G2 & _). cbn in G1, G2.
  split; [done |]. split; [done |].
  rewrite HO1. split; [| split; [| split]].
  - unfold page_of, col1_page.
    cbn [v_step v_start_text v_image_url v_final_text v_start_role].
    rewrite Terr. rewrite !in_app_iff. right; right; left.
    right; right; left. done.
  - unfold page_of, sidebar_page, col1_page, col2_page, col3_page.
    cbn [v_step v_start_text v_image_url v_final_text v_start_role].
    by rewrite Terr.
  - rewrite buttons_page_of. unfold offered.
    cbn [v_step v_start_text v_image_url]. by rewrite Terr.
  - split; [done |]. split; [exact (proj1 HV2) |]. split; [done |].
    rewrite HL3. unfold stage_calls. rewrite Hmiss2'.
    cbn [stage_request]. by rewrite HL2.
Qed.

Lemma X21_witness :
  exists σ1 σ2 σ3,
    interact respond_chat_down image_shown 2 w_city (Some BtnStart) w_city
      fresh = Ok tt σ1 /\
    field "step" σ1 = Some (VInt 2) /\
    field "start_text" σ1 =
      Some (VStr (error_prefix_text ++ u ": " ++ u "timeout")) /\
    In (InfoBox (error_prefix_text ++ u ": " ++ u "timeout")) (out σ1) /\
    forallb (fun x => match x with
                      | ErrorBox _ => false
                      | _ => true
                      end) (out σ1) = true /\
    buttons (out σ1) = [BtnStart; BtnReset; BtnStep2] /\
    run respond_chat_down image_shown w_city (Some BtnStep2) σ1 = Rerun σ2 /\
    field "step" σ2 = Some (VInt 3) /\
    run respond_chat_down image_shown w_city None σ2 = Rerun σ3 /\
    calls σ3 =
      calls σ1 ++
      [CallImage (VStr (error_prefix_text ++ u ": " ++ u "timeout"))].
Proof.
  apply (X21_first_stage_error_is_shown_as_a_result respond_chat_down
           image_shown w_city fresh (u "timeout")).
  - vm_compute; reflexivity.
  - reflexivity.
  - vm_compute; reflexivity.
Defined.

End ChainExtras.

(** * Facts about the dashboard *)

Module DashboardFacts.
Import Museum Dashboard.

Lemma json_eqb_eq : forall a b, json_eqb a b = true -> a = b.
Proof.
  fix IH 1.
  intros [| x | x | x | l | kv] [| y | y | y | l' | kv']; cbn;
    try discriminate; try done.
  - intros H. apply Bool.eqb_prop in H. by subst.
  - intros H. apply Z.eqb_eq in H. by subst.
  - intros H. apply bool_decide_eq_true in H. by subst.
  - intros H. f_equal. revert l' H.
    induction l as [| a l IHl]; intros [| b l']; try discriminate; [done |].
    intros H. apply andb_true_iff in H as [H1 H2].
    f_equal; [by apply IH | by apply IHl].
  - intros H. f_equal. revert kv' H.
    induction kv as [| [k a] kv IHl]; intros [| [k' b] kv'];
      try discriminate; [done |].
    intros H. apply andb_true_iff in H as [H H3].
    apply andb_true_iff in H as [H1 H2].
    apply bool_decide_eq_true in H1. subst k'.
    f_equal; [f_equal; by apply IH | by apply IHl].
Qed.

Lemma json_eqb_refl : forall a, json_eqb a a = true.
Proof.
  fix IH 1.
  intros [| x | x | x | l | kv]; cbn; try done.
  - by destruct x.
  - apply Z.eqb_refl.
  - by apply bool_decide_eq_true.
  - induction l as [| a l IHl]; [done |].
    by rewrite (IH a), IHl.
  - induction kv as [| [k a] kv IHl]; [done |].
    rewrite (IH a), IHl. rewrite andb_true_r, andb_true_r.
    by apply bool_decide_eq_true.
Qed.


Lemma cache_find_eq k c r : cache_find k c = Some r ->
  exists k', In (k', r) c /\ k' = k.
Proof.
  induction c as [| [k' r'] c IH]; cbn; [done |].
  destruct (json_eqb k' k) eqn:E.
  - intros [= ->]. exists k'. split; [by left | by apply json_eqb_eq].
  - intros H. destruct (IH H) as (k2 & Hin & ->). exists k. split; auto.
Qed.

(** ** Dicts *)

Section DictFacts.
Context {V : Type}.
Implicit Types d : list (json * V).

Lemma dict_put_length k j v d :
  (length (dict_put k j v d) <= length d + 1)%nat.
Proof.
  induction d as [| [j' v'] d IH]; cbn; [lia |].
  case_decide; cbn; lia.
Qed.

Lemma dict_put_new k j v d :
  dict_find k d = None -> dict_put k j v d = d ++ [(j, v)].
Proof.
  induction d as [| [j' v'] d IH]; cbn; [done |].
  case_decide as Hd; [done |]. intros Hx. by rewrite IH.
Qed.

Lemma dict_put_Forall (P : json * V -> Prop) k j v d :
  Forall P d -> P (j, v) ->
  (forall j' v', In (j', v') d -> key_of j' = Some k -> P (j', v)) ->
  Forall P (dict_put k j v d).
Proof.
  induction d as [| [j' v'] d IH]; cbn; intros Hd Hn Hr.
  - by constructor.
  - apply Forall_cons in Hd as [H1 H2]. case_decide as Hk.
    + constructor; [| done]. apply (Hr j' v'); [by left | done].
    + constructor; [done |]. apply IH; [done | done |].
      intros j2 v2 Hin. apply (Hr j2 v2). by right.
Qed.

Lemma dict_put_keys k j v d :
  key_of j = Some k ->
  keys (dict_put k j v d) =
  match dict_find k d with
  | Some _ => keys d
  | None => keys d ++ [Some k]
  end.
Proof.
  intros Hk. unfold keys.
  induction d as [| [j' v'] d IH]; cbn; [by rewrite Hk |].
  case_decide as Hd; [done |]. cbn. rewrite IH.
  by destruct (dict_find k d).
Qed.

Lemma dict_find_keys k d :
  dict_find k d = None <-> ~ In (Some k) (keys d).
Proof.
  induction d as [| [j' v'] d IH]; cbn; [tauto |].
  case_decide as Hd.
  - split; [done |]. intros H. exfalso. apply H. by left.
  - rewrite IH. split.
    + intros H [H1 | H1]; [done | by apply H].
    + intros H H1. apply H. by right.
Qed.

Lemma dict_put_NoDup k j v d :
  key_of j = Some k -> NoDup (keys d) -> NoDup (keys (dict_put k j v d)).
Proof.
  intros Hk Hd. rewrite dict_put_keys by done.
  destruct (dict_find k d) eqn:E; [done |].
  apply NoDup_app. split; [done |]. split.
  - intros x Hx Hin. apply list_elem_of_In in Hx.
    apply list_elem_of_singleton in Hin. subst x.
    by apply dict_find_keys in E.
  - apply NoDup_singleton.
Qed.

Lemma dict_remove_Forall (P : json * V -> Prop) k d :
  Forall P d -> Forall P (dict_remove k d).
Proof.
  induction 1 as [| [j v] d H1 H2 IH]; cbn; [constructor |].
  case_decide as Hd; [done | by constructor].
Qed.

Lemma dict_remove_keys_In k x d :
  In x (keys (dict_remove k d)) -> In x (keys d) /\ x <> Some k.
Proof.
  induction d as [| [j v] d IH]; cbn; [done |].
  case_decide as Hd; cbn.
  - intros H. destruct (IH H). auto.
  - intros [<- | H]; [auto |]. destruct (IH H). auto.
Qed.

Lemma dict_remove_NoDup k d :
  NoDup (keys d) -> NoDup (keys (dict_remove k d)).
Proof.
  induction d as [| [j v] d IH]; cbn; [done |].
  intros H. apply NoDup_cons in H as [H1 H2].
  case_decide as Hd; [by apply IH |]. cbn. apply NoDup_cons. split; [| by apply IH].
  intros Hin. apply list_elem_of_In in Hin.
  apply dict_remove_keys_In in Hin as [Hin _].
  apply H1. by apply list_elem_of_In.
Qed.

(** With distinct keys, deleting the key of the i-th entry removes that
    entry and no other. *)
Lemma dict_remove_nth d i j v :
  NoDup (keys d) -> d !! i = Some (j, v) -> is_Some (key_of j) ->
  exists k, key_of j = Some k /\ dict_find k d = Some v /\
    dict_remove k d = take i d ++ drop (S i) d.
Proof.
  intros Hnd Hi [k Hk]. exists k. split; [done |].
  revert i Hi Hnd.
  induction d as [| [j' v'] d IH]; intros i Hi Hnd; [done |].
  cbn [keys map] in Hnd. apply NoDup_cons in Hnd as [H1 H2].
  destruct i as [| i]; cbn in Hi.
  - injection Hi as -> ->. cbn. rewrite !decide_True by done.
    split; [done |].
    assert (dict_find k d = None) as Hnone.
    { apply dict_find_keys. intros Hin. apply H1. cbn. rewrite Hk.
      by apply list_elem_of_In. }
    clear -Hnone. induction d as [| [j2 v2] d IH]; cbn in *; [done |].
    case_decide as Hd; [done |]. by rewrite IH.
  - destruct (IH i Hi H2) as [Hf Hr]. cbn.
    assert (key_of j' <> Some k) as Hne.
    { intros Heq. apply H1. cbn. rewrite Heq.
      apply list_elem_of_In. unfold keys. apply in_map_iff.
      exists (j, v). split; [done |]. apply list_elem_of_In.
      by eapply list_elem_of_lookup_2. }
    rewrite !decide_False by done. split; [done |]. by rewrite Hr.
Qed.

Lemma dict_find_put_eq k j v d :
  key_of j = Some k -> dict_find k (dict_put k j v d) = Some v.
Proof.
  intros Hk. induction d as [| [j' v'] d IH]; cbn.
  - by rewrite decide_True.
  - case_decide as Hd; cbn; [by rewrite decide_True |].
    by rewrite decide_False.
Qed.

Lemma dict_find_put_ne k k' j v d :
  key_of j = Some k -> k' <> k ->
  dict_find k' (dict_put k j v d) = dict_find k' d.
Proof.
  intros Hk Hne. induction d as [| [j' v'] d IH]; cbn.
  - rewrite decide_False; [done |]. rewrite Hk. congruence.
  - case_decide as Hd; cbn.
    + rewrite !decide_False; [done | |]; rewrite Hd; congruence.
    + case_decide as Hd'; [done |]. exact IH.
Qed.

End DictFacts.

Lemma key_of_id_int a b :
  key_of a = key_of b -> is_Some (key_of a) -> id_int a = id_int b.
Proof.
  destruct a as [| x | x | x | x | x], b as [| y | y | y | y | y]; cbn;
    intros H Hs; destruct Hs as [k Hk]; try congruence.
Qed.

(** ** Artwork details *)

Section DetailFacts.
Variable requests_get : list pystr -> pystr -> result http_response.
Variable repr_of : json -> pystr.
Variable rng : Type.

Abbreviation details := (get_artwork_details requests_get repr_of rng).
Abbreviation details_body := (get_artwork_details_body requests_get repr_of).
Abbreviation load := (load_details requests_get repr_of rng).

Lemma details_body_log id log :
  (details_body id log).2 = log ++ [object_url repr_of id].
Proof.
  unfold get_artwork_details_body. cbv zeta.
  by destruct (rbind _ _).
Qed.

Lemma details_body_id id log d :
  (details_body id log).1 = Some d -> object_id d = id.
Proof.
  unfold get_artwork_details_body. cbv zeta.
  destruct (requests_get log _) as [resp |]; cbn -[u]; [| done].
  destruct (raise_for_status resp); cbn -[u]; [| done].
  destruct (response_json resp) as [data |]; cbn -[u]; [| done].
  destruct data; cbn -[u]; try done.
  by intros [= <-].
Qed.

Lemma cache_find_head k r c : cache_find k ((k, r) :: c) = Some r.
Proof. cbn. by rewrite json_eqb_refl. Qed.

Lemma details_miss id ω :
  cache_find id (detail_cache ω) = None ->
  details id ω =
  ((details_body id (requests (net ω))).1,
   mkWorld
     (mkMState (search_cache (net ω))
        (requests (net ω) ++ [object_url repr_of id]))
     ((id, (details_body id (requests (net ω))).1) :: detail_cache ω)
     (gen ω)).
Proof.
  intros H. unfold get_artwork_details. rewrite H.
  pose proof (details_body_log id (requests (net ω))) as Hl.
  destruct (details_body id (requests (net ω))) as [r log]. cbn in *.
  by subst.
Qed.

Lemma details_hit id ω r :
  cache_find id (detail_cache ω) = Some r -> details id ω = (r, ω).
Proof. intros H. unfold get_artwork_details. by rewrite H. Qed.

Lemma details_effect id ω r ω1 :
  details id ω = (r, ω1) ->
  details_ok ω ->
  details_ok ω1 /\
  search_cache (net ω1) = search_cache (net ω) /\
  gen ω1 = gen ω /\
  (forall d, r = Some d -> object_id d = id) /\
  (length (requests (net ω1)) <= length (requests (net ω)) + 1)%nat /\
  details id ω1 = (r, ω1).
Proof.
  intros E Hok.
  destruct (cache_find id (detail_cache ω)) as [r0 |] eqn:Hc.
  - rewrite (details_hit _ _ _ Hc) in E. injection E as <- <-.
    split; [done |]. split; [done |]. split; [done |].
    split; [| split; [lia | by apply details_hit]].
    intros d ->. by apply Hok.
  - rewrite (details_miss _ _ Hc) in E. injection E as <- <-.
    cbn [net detail_cache gen search_cache requests].
    split; [| split; [done | split; [done | split; [| split]]]].
    + intros k d. cbn [detail_cache cache_find].
      destruct (json_eqb id k) eqn:Ek.
      * apply json_eqb_eq in Ek. subst k. intros [= H].
        by apply details_body_id in H.
      * apply Hok.
    + apply details_body_id.
    + rewrite length_app. cbn. lia.
    + apply details_hit. apply cache_find_head.
Qed.

Lemma load_effect (all : list json) ids :
  forall found ω err found' ω',
    load ids found ω = (err, found', ω') ->
    (forall x, In x ids -> In x all) ->
    details_ok ω ->
    Forall entry_ok found -> NoDup (keys found) ->
    Forall (fun e => In (object_id e.2) all) found ->
    details_ok ω' /\
    Forall entry_ok found' /\ NoDup (keys found') /\
    Forall (fun e => In (object_id e.2) all) found' /\
    (length found' <= length found + length ids)%nat /\
    search_cache (net ω') = search_cache (net ω) /\
    gen ω' = gen ω /\
    (length (requests (net ω')) <=
     length (requests (net ω)) + length ids)%nat /\
    (Forall (fun j => is_Some (key_of j)) ids -> err = None).
Proof.
  induction ids as [| id ids IH];
    intros found ω err found' ω' E Hall Hok Hf Hnd Hin.
  - cbn in E. injection E as <- <- <-.
    do 4 (split; [done |]). split; [lia |]. do 2 (split; [done |]).
    split; [lia | done].
  - cbn [load_details] in E.
    destruct (details id ω) as [r ω1] eqn:Ed.
    destruct (details_effect _ _ _ _ Ed Hok)
      as (Hok1 & Hsc1 & Hg1 & Hid & Hlog1 & _).
    assert (forall x, In x ids -> In x all) as Hall'.
    { intros x Hx. apply Hall. by right. }
    assert (forall found1,
              load ids found1 ω1 = (err, found', ω') ->
              Forall entry_ok found1 -> NoDup (keys found1) ->
              Forall (fun e => In (object_id e.2) all) found1 ->
              (length found1 <= length found + 1)%nat ->
              details_ok ω' /\
              Forall entry_ok found' /\ NoDup (keys found') /\
              Forall (fun e => In (object_id e.2) all) found' /\
              (length found' <= length found + length (id :: ids))%nat /\
              search_cache (net ω') = search_cache (net ω) /\
              gen ω' = gen ω /\
              (length (requests (net ω')) <=
               length (requests (net ω)) + length (id :: ids))%nat /\
              (Forall (fun j => is_Some (key_of j)) ids -> err = None))
      as Hnext.
    { intros found1 E1 Hf1 Hnd1 Hin1 Hlen1.
      destruct (IH found1 ω1 err found' ω' E1 Hall' Hok1 Hf1 Hnd1 Hin1)
        as (A1 & A2 & A3 & A4 & A5 & A6 & A7 & A8 & A9).
      do 4 (split; [done |]). cbn [length].
      split; [lia |]. split; [congruence |]. split; [congruence |].
      split; [lia | done]. }
    destruct r as [d |].
    2: { destruct (Hnext found E Hf Hnd Hin ltac:(lia))
           as (A1 & A2 & A3 & A4 & A5 & A6 & A7 & A8 & A9).
         do 8 (split; [done |]).
         intros Hh. apply Forall_cons in Hh as [_ Hh]. auto. }
    destruct (json_truthy (image_url d)) eqn:Timg.
    2: { destruct (Hnext found E Hf Hnd Hin ltac:(lia))
           as (A1 & A2 & A3 & A4 & A5 & A6 & A7 & A8 & A9).
         do 8 (split; [done |]).
         intros Hh. apply Forall_cons in Hh as [_ Hh]. auto. }
    pose proof (Hid d eq_refl) as Hd.
    unfold dict_set in E.
    destruct (key_of id) as [k |] eqn:Hk.
    + assert (entry_ok (id, d)) as Hnew.
      { split; [cbn; by rewrite Hk | split; [cbn; by rewrite Hd | done]]. }
      destruct (Hnext (dict_put k id d found) E)
        as (A1 & A2 & A3 & A4 & A5 & A6 & A7 & A8 & A9).
      * apply dict_put_Forall; [done | done |].
        intros j' v' Hj' Hkj'.
        split; [cbn; by rewrite Hkj' |].
        split; [cbn; by rewrite Hd, Hk, Hkj' | done].
      * by apply dict_put_NoDup.
      * apply dict_put_Forall; [done | | ].
        -- cbn. rewrite Hd. apply Hall. by left.
        -- intros j' v' _ _. cbn. rewrite Hd. apply Hall. by left.
      * pose proof (dict_put_length k id d found). lia.
      * do 8 (split; [done |]).
        intros Hh. apply Forall_cons in Hh as [_ Hh]. auto.
    + injection E as <- <- <-.
      do 4 (split; [done |]). cbn [length].
      split; [lia |]. split; [done |]. split; [done |].
      split; [lia |].
      intros Hh. apply Forall_cons in Hh as [[k' Hk'] _]. congruence.
Qed.

Lemma details_cached id ω r ω1 :
  details id ω = (r, ω1) ->
  cache_find id (detail_cache ω1) = Some r /\
  (forall k x, cache_find k (detail_cache ω) = Some x ->
               cache_find k (detail_cache ω1) = Some x).
Proof.
  intros E.
  destruct (cache_find id (detail_cache ω)) as [r0 |] eqn:Hc.
  - rewrite (details_hit _ _ _ Hc) in E. by injection E as <- <-.
  - rewrite (details_miss _ _ Hc) in E. injection E as <- <-.
    cbn [detail_cache]. split; [apply cache_find_head |].
    intros k x Hk. cbn [cache_find].
    destruct (json_eqb id k) eqn:Ek; [| done].
    apply json_eqb_eq in Ek. subst k. congruence.
Qed.

Lemma load_mono ids :
  forall found ω err found' ω',
    load ids found ω = (err, found', ω') ->
    forall k x, cache_find k (detail_cache ω) = Some x ->
                cache_find k (detail_cache ω') = Some x.
Proof.
  induction ids as [| id ids IH]; intros found ω err found' ω' E k x Hk.
  - cbn in E. by injection E as _ _ <-.
  - cbn [load_details] in E.
    destruct (details id ω) as [r ω1] eqn:Ed.
    destruct (details_cached _ _ _ _ Ed) as [_ Hmono].
    apply Hmono in Hk.
    destruct r as [d |]; [| by eapply IH].
    destruct (json_truthy (image_url d)); [| by eapply IH].
    destruct (dict_set id d found); [by eapply IH |].
    by injection E as _ _ <-.
Qed.

(** Loading the same ids again, with a memo table that holds what the
    first loading left, gives the same results and fetches nothing. *)
Lemma load_again ids :
  forall found ω err found' ω',
    load ids found ω = (err, found', ω') ->
    forall ωb,
      (forall k x, cache_find k (detail_cache ω') = Some x ->
                   cache_find k (detail_cache ωb) = Some x) ->
      load ids found ωb = (err, found', ωb).
Proof.
  induction ids as [| id ids IH]; intros found ω err found' ω' E ωb Hb.
  - cbn in E. by injection E as <- <- _.
  - cbn [load_details] in E |- *.
    destruct (details id ω) as [r ω1] eqn:Ed.
    destruct (details_cached _ _ _ _ Ed) as [Hr _].
    assert (cache_find id (detail_cache ωb) = Some r) as Hrb.
    { apply Hb.
      destruct r as [d |]; [| by eapply load_mono].
      destruct (json_truthy (image_url d)); [| by eapply load_mono].
      destruct (dict_set id d found); [by eapply load_mono |].
      by injection E as _ _ <-. }
    rewrite (details_hit _ _ _ Hrb).
    destruct r as [d |]; [| by eapply IH].
    destruct (json_truthy (image_url d)); [| by eapply IH].
    destruct (dict_set id d found); [by eapply IH |].
    by injection E as <- <- _.
Qed.

Lemma search_stored q n r n1 :
  search_artworks requests_get q n = (Return r, n1) ->
  search_cache n1 !! q = Some r.
Proof.
  unfold search_artworks.
  destruct (search_cache n !! q) as [r0 |] eqn:Hq.
  - by intros [= <- <-].
  - destruct (search_artworks_body requests_get q (requests n)) as [[r0 | e] log];
      intros [= <- <-]. cbn. by rewrite lookup_insert_eq.
Qed.

(** ** The search *)

Lemma slice10_iter v r :
  slice10 v = Return r ->
  exists items, py_iter r = Return items /\ (length items <= 10)%nat.
Proof.
  destruct v; cbn; intros [= <-]; cbn; eexists; (split; [done |]);
    rewrite ?length_map, length_take; lia.
Qed.

Lemma search_body_sliced q log :
  exists total ids items,
    (search_artworks_body requests_get q log).1 = Return (total, ids) /\
    py_iter ids = Return items /\ (length items <= 10)%nat /\
    (length (search_artworks_body requests_get q log).2 <=
     length log + 1)%nat.
Proof.
  unfold search_artworks_body.
  destruct (negb (truthy q)); cbn -[u search_url].
  { exists (JNum 0), (JList []), []. cbn. repeat split; try done; lia. }
  assert (exists total ids items,
             Return (JNum 0, JList []) = Return (total, ids) /\
             py_iter ids = Return items /\ (length items <= 10)%nat)
    as Hdefault.
  { exists (JNum 0), (JList []), []. cbn. repeat split; try done; lia. }
  assert (forall l : list pystr,
            (length (l ++ [search_url q]) <= length l + 1)%nat) as Hlen.
  { intros l. rewrite length_app. cbn. lia. }
  destruct (requests_get log (search_url q)) as [r | e];
    cbn -[u search_url].
  2: { destruct Hdefault as (t & i & it & H1 & H2 & H3).
       exists t, i, it. by repeat split. }
  destruct (raise_for_status r); cbn -[u search_url].
  2: { destruct Hdefault as (t & i & it & H1 & H2 & H3).
       exists t, i, it. by repeat split. }
  destruct (response_json r) as [data | e]; cbn -[u search_url].
  2: { destruct Hdefault as (t & i & it & H1 & H2 & H3).
       exists t, i, it. by repeat split. }
  destruct (dict_get data (u "total") (JNum 0)) as [total | e];
    cbn -[u search_url].
  2: { destruct Hdefault as (t & i & it & H1 & H2 & H3).
       exists t, i, it. by repeat split. }
  destruct (dict_get data (u "objectIDs") (JList [])) as [ids | e];
    cbn -[u search_url].
  2: { destruct Hdefault as (t & i & it & H1 & H2 & H3).
       exists t, i, it. by repeat split. }
  destruct (slice10 ids) as [top | e] eqn:E; cbn -[u search_url].
  2: { destruct Hdefault as (t & i & it & H1 & H2 & H3).
       exists t, i, it. by repeat split. }
  destruct (slice10_iter _ _ E) as (items & H1 & H2).
  exists total, top, items. by repeat split.
Qed.

Lemma search_effect q n :
  search_cache_sliced (search_cache n) ->
  exists total ids items n1,
    search_artworks requests_get q n = (Return (total, ids), n1) /\
    py_iter ids = Return items /\ (length items <= 10)%nat /\
    search_cache_sliced (search_cache n1) /\
    (length (requests n1) <= length (requests n) + 1)%nat /\
    search_artworks requests_get q n1 = (Return (total, ids), n1).
Proof.
  intros Hok. unfold search_artworks.
  destruct (search_cache n !! q) as [[total ids] |] eqn:Hq.
  - destruct (Hok _ _ _ Hq) as (items & H1 & H2).
    exists total, ids, items, n. rewrite Hq. repeat split; try done. lia.
  - destruct (search_body_sliced q (requests n))
      as (total & ids & items & E & H1 & H2 & H3).
    destruct (search_artworks_body requests_get q (requests n))
      as [r log]. cbn in E, H3. subst r.
    eexists total, ids, items, _. split; [done |]. split; [done |].
    split; [done |]. cbn [search_cache requests]. split; [| split; [done |]].
    + intros q' t i. rewrite lookup_insert. case_decide as Hd.
      * intros [= <- <-]. by exists items.
      * apply Hok.
    + by rewrite lookup_insert_eq.
Qed.

End DetailFacts.

(** ** Tables and the buttons *)

Section HandlerFacts.
Variable requests_get : list pystr -> pystr -> result http_response.
Variable repr_of : json -> pystr.
Variable rng : Type.
Variable F : Type.
Variable seed_state : Z -> rng.
Variable np_choice : rng -> list pystr -> nat -> list pystr * rng.
Variable np_rand : rng -> nat -> list F * rng.
Variable np_sum : list F -> F.
Variable fdiv : F -> F -> F.
Variable cell_other : json -> pyval.

Hypothesis choice_length :
  forall g options k,
    (k <= length options)%nat -> length (np_choice g options k).1 = k.
Hypothesis rand_length : forall g k, length (np_rand g k).1 = k.

Abbreviation simulate :=
  (simulate_palette_data rng F seed_state np_choice np_rand np_sum fdiv).
Abbreviation sim_for :=
  (simulate_for rng F seed_state np_choice np_rand np_sum fdiv cell_other).
Abbreviation sim_all :=
  (simulate_all rng F seed_state np_choice np_rand np_sum fdiv cell_other).
Abbreviation rows :=
  (rows_of rng F seed_state np_choice np_rand np_sum fdiv cell_other).
Abbreviation frame :=
  (frame_of rng F seed_state np_choice np_rand np_sum fdiv cell_other).
Abbreviation click :=
  (handle requests_get repr_of rng F seed_state np_choice np_rand np_sum
     fdiv cell_other).
Abbreviation clicks :=
  (handle_all requests_get repr_of rng F seed_state np_choice np_rand np_sum
     fdiv cell_other).
Abbreviation is_tidy :=
  (tidy rng F seed_state np_choice np_rand np_sum fdiv cell_other).
Abbreviation has_int_id :=
  (fun e : json * detail => exists z, id_int (object_id e.2) = Return z).

Lemma rows_eq d z g :
  id_int (object_id d) = Return z ->
  exists g',
    simulate z (cell cell_other (title d)) (cell cell_other (artist d)) g =
    (Return (rows d), g').
Proof.
  intros Hid.
  destruct (MuseumClaims.simulate_eq rng F seed_state np_choice np_rand
              np_sum fdiv choice_length rand_length z
              (cell cell_other (title d)) (cell cell_other (artist d)) g)
    as (df & g' & E & Ha & Hw & Hi & Hp & _).
  exists g'. rewrite E. do 2 f_equal. unfold rows_of. rewrite Hid.
  destruct df as [a w c f i]. cbn in *. subst. by rewrite <- Hp.
Qed.

Lemma sim_all_ok arts g :
  Forall (fun d => exists z, id_int (object_id d) = Return z) arts ->
  exists g', sim_all arts g = (Return (map rows arts), g').
Proof.
  revert g. induction arts as [| d arts IH]; intros g Hint.
  - by exists g.
  - apply Forall_cons in Hint as [[z Hz] Hint]. cbn [simulate_all].
    unfold simulate_for at 1. rewrite Hz.
    destruct (rows_eq d z g Hz) as [g1 ->].
    destruct (IH g1 Hint) as [g2 ->]. by exists g2.
Qed.

Lemma df_append_empty_l (x : DataFrame F) : df_append empty_frame x = x.
Proof. by destruct x. Qed.

Lemma frame_app arts e :
  frame (arts ++ [e]) = df_append (frame arts) (rows e.2).
Proof. unfold frame_of. by rewrite map_app, fold_left_app. Qed.

Lemma pd_concat_rows arts :
  arts <> [] -> pd_concat (map rows (map snd arts)) = Return (frame arts).
Proof.
  destruct arts as [| e arts]; [done |]. intros _. cbn [map pd_concat].
  unfold frame_of. cbn [map fold_left].
  by rewrite df_append_empty_l, map_map.
Qed.

Lemma nrows_fold (l : list (DataFrame F)) :
  forall a,
    Forall (fun x => nrows x = 5%nat) l ->
    nrows (fold_left df_append l a) = (nrows a + 5 * length l)%nat.
Proof.
  induction l as [| x l IH]; intros a Hl; cbn [fold_left length]; [lia |].
  apply Forall_cons in Hl as [Hx Hl]. rewrite IH by done.
  unfold nrows in *. cbn. rewrite length_app. lia.
Qed.

Lemma nrows_frame arts : nrows (frame arts) = (5 * length arts)%nat.
Proof.
  unfold frame_of. rewrite nrows_fold.
  - rewrite length_map. cbn. lia.
  - apply Forall_map. apply Forall_forall. by intros x _.
Qed.

Abbreviation with_id := (rows_with_id F).

(** *** Rows *)

Abbreviation rect := (Dashboard.rect F).

Lemma rows5_app a w c f i a' w' c' f' i' :
  length w = length a -> length c = length a -> length f = length a ->
  length i = length a ->
  rows5 F (a ++ a') (w ++ w') (c ++ c') (f ++ f') (i ++ i') =
  rows5 F a w c f i ++ rows5 F a' w' c' f' i'.
Proof.
  revert w c f i.
  induction a as [| a0 a IH]; intros [| w0 w] [| c0 c] [| f0 f] [| i0 i];
    cbn; intros H1 H2 H3 H4; try discriminate; [done |].
  f_equal. apply IH; lia.
Qed.

Lemma df_rows_append a b :
  rect a -> df_rows F (df_append a b) = df_rows F a ++ df_rows F b.
Proof.
  intros (H1 & H2 & H3 & H4). unfold df_rows. cbn. by apply rows5_app.
Qed.

Lemma rect_append a b : rect a -> rect b -> rect (df_append a b).
Proof.
  intros (H1 & H2 & H3 & H4) (G1 & G2 & G3 & G4).
  unfold rect. cbn. rewrite !length_app. lia.
Qed.

Lemma rows_rect d : rect (rows d).
Proof.
  unfold rows_of, rect. cbn [Artist Artwork Color_HEX Frequency Artwork_ID].
  rewrite !repeat_length.
  set (z := match id_int (object_id d) with
            | Return z => z
            | Throw _ => 0
            end).
  destruct (MuseumClaims.simulate_eq rng F seed_state np_choice np_rand
              np_sum fdiv choice_length rand_length z VNone VNone
              (seed_state 0))
    as (df & g' & E & _ & _ & _ & Hp & _).
  destruct (MuseumClaims.palette_lengths rng F seed_state np_choice np_rand
              np_sum fdiv choice_length rand_length z VNone VNone
              (seed_state 0) df g' E) as [L1 L2].
  rewrite <- Hp. cbn. by rewrite L1, L2.
Qed.

Lemma frame_rows arts :
  rect (frame arts) /\
  df_rows F (frame arts) = concat (map (fun e => df_rows F (rows e.2)) arts).
Proof.
  induction arts as [| e arts IH] using rev_ind.
  - by cbn.
  - destruct IH as [Hr Hrows]. rewrite frame_app. split.
    + apply rect_append; [done | apply rows_rect].
    + rewrite df_rows_append by done.
      rewrite Hrows, map_app, concat_app. cbn. by rewrite app_nil_r.
Qed.

Lemma rows5_ids a w c f i z :
  Forall (fun x => x = z) i ->
  Forall (fun r => r_id F r = z) (rows5 F a w c f i).
Proof.
  revert w c f i.
  induction a as [| a0 a IH]; intros [| w0 w] [| c0 c] [| f0 f] [| i0 i] Hi;
    cbn; try constructor.
  - by apply Forall_cons in Hi as [-> _].
  - apply Forall_cons in Hi as [_ Hi]. by apply IH.
Qed.

Lemma rows_ids d z :
  id_int (object_id d) = Return z ->
  Forall (fun r => r_id F r = z) (df_rows F (rows d)).
Proof.
  intros Hz. unfold df_rows, rows_of. rewrite Hz. apply rows5_ids.
  cbn. by repeat constructor.
Qed.

Lemma filter_all (P : row F -> bool) l :
  Forall (fun r => P r = true) l -> List.filter P l = l.
Proof.
  induction 1 as [| r l Hr _ IH]; cbn; [done |]. by rewrite Hr, IH.
Qed.

Lemma filter_none (P : row F -> bool) l :
  Forall (fun r => P r = false) l -> List.filter P l = [].
Proof.
  induction 1 as [| r l Hr _ IH]; cbn; [done |]. by rewrite Hr.
Qed.

Lemma df_of_rows_rows df : rect df -> df_of_rows F (df_rows F df) = df.
Proof.
  destruct df as [a w c f i]. unfold rect, df_rows, df_of_rows. cbn.
  intros (H1 & H2 & H3 & H4).
  revert w c f i H1 H2 H3 H4.
  induction a as [| a0 a IH]; intros [| w0 w] [| c0 c] [| f0 f] [| i0 i];
    cbn; intros H1 H2 H3 H4; try discriminate; [done |].
  specialize (IH w c f i ltac:(lia) ltac:(lia) ltac:(lia) ltac:(lia)).
  by injection IH as -> -> -> -> ->.
Qed.

Lemma filter_other (arts : list (json * detail)) z :
  Forall (fun e => exists z', id_int (object_id e.2) = Return z' /\ z' <> z)
    arts ->
  List.filter (fun r => r_id F r =? z)
    (concat (map (fun e => df_rows F (rows e.2)) arts)) = [].
Proof.
  induction 1 as [| e arts (z' & Hz' & Hne) _ IH]; [done |].
  cbn [map concat]. rewrite List.filter_app, IH, app_nil_r.
  apply filter_none.
  eapply Forall_impl; [apply (rows_ids e.2 z' Hz') |].
  intros r Hr. cbn in Hr. rewrite Hr. by apply Z.eqb_neq.
Qed.

(** The rows of the table of artworks with distinct integer ids that
    carry the id of one of them are the rows of that one. *)
Lemma with_id_frame (arts : list (json * detail)) i k d z :
  Forall entry_ok arts -> NoDup (keys arts) ->
  Forall has_int_id arts ->
  arts !! i = Some (k, d) ->
  id_int (object_id d) = Return z ->
  id_int k = Return z /\
  with_id (frame arts) k = rows d.
Proof.
  intros Hok Hnd Hint Hi Hz.
  assert (forall e z', e ∈ arts -> id_int (object_id e.2) = Return z' ->
                       key_of e.1 = Some (KInt z')) as Hkey.
  { intros [k' d'] z' Hin Hz'. cbn in *.
    assert (entry_ok (k', d')) as (_ & Hkd' & _).
    { eapply Forall_forall; [exact Hok |]. done. }
    cbn in Hkd'. rewrite <- Hkd'.
    destruct (object_id d'); cbn in *; try discriminate; congruence. }
  assert (key_of k = Some (KInt z)) as Hkz.
  { apply (Hkey (k, d) z); [by eapply list_elem_of_lookup_2 | done]. }
  assert (id_int k = Return z) as Hk.
  { destruct k; cbn in *; try discriminate; congruence. }
  split; [done |].
  unfold rows_with_id. rewrite Hk.
  destruct (frame_rows arts) as [_ ->].
  rewrite <- (df_of_rows_rows (rows d) (rows_rect d)). f_equal.
  assert (forall l : list (json * detail),
            Forall has_int_id l ->
            (forall e z', e ∈ l -> id_int (object_id e.2) = Return z' ->
                          key_of e.1 = Some (KInt z')) ->
            ~ Some (KInt z) ∈ keys l ->
            Forall (fun e => exists z',
                      id_int (object_id e.2) = Return z' /\ z' <> z) l)
    as Hothers.
  { intros l Hl Hkl Hnin. apply Forall_forall. intros e He.
    destruct (proj1 (Forall_forall _ _) Hl e He) as [z' Hz'].
    exists z'. split; [done |]. intros ->. apply Hnin.
    rewrite <- (Hkl e z He Hz'). unfold keys.
    apply list_elem_of_fmap. by exists e. }
  clear Hok Hk.
  revert i Hi Hnd Hint Hkey.
  induction arts as [| [k' d'] arts IH]; intros i Hi Hnd Hint Hkey; [done |].
  cbn [map concat]. rewrite List.filter_app.
  cbn [keys map] in Hnd. apply NoDup_cons in Hnd as [Hnin Hnd].
  apply Forall_cons in Hint as [[z' Hz'] Hint].
  assert (forall e z0, e ∈ arts -> id_int (object_id e.2) = Return z0 ->
                       key_of e.1 = Some (KInt z0)) as Hkey'.
  { intros e z0 He. apply Hkey. by right. }
  pose proof (Hkey (k', d') z' ltac:(by left) Hz') as Hk'. cbn in Hk'.
  destruct i as [| i]; cbn in Hi.
  - injection Hi as -> ->.
    rewrite filter_all.
    2: { eapply Forall_impl; [apply (rows_ids d z Hz) |].
         intros r Hr. cbn in Hr. rewrite Hr. apply Z.eqb_refl. }
    rewrite filter_other; [by rewrite app_nil_r |].
    apply Hothers; [done | done |]. by rewrite <- Hkz.
  - rewrite filter_none.
    2: { eapply Forall_impl; [apply (rows_ids d' z' Hz') |].
         intros r Hr. cbn in Hr. rewrite Hr. apply Z.eqb_neq.
         intros ->. apply Hnin. cbn [fst]. rewrite Hk'.
         apply list_elem_of_fmap. exists (k, d). split; [done |].
         by eapply list_elem_of_lookup_2. }
    by apply (IH i).
Qed.

Abbreviation is_ok :=
  (ok_session rng F seed_state np_choice np_rand np_sum fdiv cell_other).

Lemma new_session_tidy : is_tidy new_session.
Proof.
  unfold tidy. cbn.
  split; [done |]. split; [constructor |]. split; [constructor |].
  split; [constructor |]. split; [done |]. split; [by left | done].
Qed.

Lemma init_tidy s : is_ok s -> is_tidy (init s).
Proof. destruct s; [done |]. intros _. apply new_session_tidy. Qed.

(** What the delete button does in a tidy session. *)
Lemma delete_tidy s ω i obj_id d :
  is_tidy s ->
  analyzed_artworks s !! i = Some (obj_id, d) ->
  let rest := take i (analyzed_artworks s) ++ drop (S i) (analyzed_artworks s) in
  (rest = [] /\
   on_delete rng F seed_state np_choice np_rand np_sum fdiv cell_other
     obj_id s ω =
   Crashed (LibraryError (u "No objects to concatenate"))
     (Some (mkSession (step s) (search_results_details s) [] (df_palette s)))
     ω) \/
  (rest <> [] /\
   exists g',
     on_delete rng F seed_state np_choice np_rand np_sum fdiv cell_other
       obj_id s ω =
     Restarted
       (Some (mkSession (step s) (search_results_details s) rest (frame rest)))
       (with_gen g' ω) /\
     is_tidy (mkSession (step s) (search_results_details s) rest (frame rest))).
Proof.
  intros (Hres & Hok & Hnd & Hint & Hdf & Hstep & H2) Hi rest.
  assert (entry_ok (obj_id, d)) as (Hkey & _).
  { eapply Forall_forall; [exact Hok |]. by eapply list_elem_of_lookup_2. }
  destruct (dict_remove_nth _ _ _ _ Hnd Hi Hkey) as (k & Hk & Hfind & Hrem).
  fold rest in Hrem.
  unfold on_delete, dict_del. rewrite Hk, Hfind, Hrem.
  assert (Forall entry_ok rest) as Hok'.
  { rewrite <- Hrem. by apply dict_remove_Forall. }
  assert (Forall has_int_id rest) as Hint'.
  { rewrite <- Hrem. by apply dict_remove_Forall. }
  assert (NoDup (keys rest)) as Hnd'.
  { rewrite <- Hrem. by apply dict_remove_NoDup. }
  destruct (decide (rest = [])) as [Hnil | Hne].
  - left. split; [done |]. rewrite Hnil. cbn. by destruct ω.
  - right. split; [done |].
    destruct (sim_all_ok (map snd rest) (gen ω)) as [g' ->].
    { apply Forall_map. exact Hint'. }
    exists g'. rewrite pd_concat_rows by done. split; [done |].
    unfold tidy. cbn. repeat split; try done.
Qed.


(** What the add button does in a tidy session. *)
Lemma add_tidy s ω r i obj_id d :
  is_tidy s ->
  search_results_details s = Some r ->
  r !! i = Some (obj_id, d) ->
  exists k,
    key_of obj_id = Some k /\
    (dict_find k (analyzed_artworks s) = None ->
     let arts := analyzed_artworks s ++ [(obj_id, d)] in
     (forall e,
        id_int obj_id = Throw e ->
        on_add rng F seed_state np_choice np_rand np_sum fdiv cell_other
          obj_id d s ω =
        Crashed e
          (Some (mkSession (step s) (search_results_details s) arts
                   (df_palette s))) ω) /\
     (forall z,
        id_int obj_id = Return z ->
        exists g',
          on_add rng F seed_state np_choice np_rand np_sum fdiv cell_other
            obj_id d s ω =
          Restarted
            (Some (mkSession 2 (search_results_details s) arts
                     (df_append (df_palette s) (rows d))))
            (with_gen g' ω) /\
          is_tidy (mkSession 2 (search_results_details s) arts
                     (df_append (df_palette s) (rows d))))).
Proof.
  intros (Hres & Hok & Hnd & Hint & Hdf & Hstep & H2) Hr Hi.
  rewrite Hr in Hres. destruct Hres as [Hrok Hrnd].
  assert (entry_ok (obj_id, d)) as Hentry.
  { eapply Forall_forall; [exact Hrok |]. by eapply list_elem_of_lookup_2. }
  pose proof Hentry as ([k Hk] & Hkd & Himg). cbn in Hk, Hkd, Himg.
  exists k. split; [done |]. intros Hnew arts.
  unfold on_add, dict_set. rewrite Hk, (dict_put_new _ _ _ _ Hnew).
  fold arts. unfold simulate_for. split.
  - intros e He. rewrite He. by destruct ω.
  - intros z Hz. rewrite Hz.
    assert (id_int (object_id d) = Return z) as Hzd.
    { rewrite <- Hz. apply key_of_id_int; [done |]. rewrite Hkd, Hk. by eexists. }
    destruct (rows_eq d z (gen ω) Hzd) as [g' ->]. exists g'.
    cbn [pd_concat fold_left]. split; [done |].
    unfold tidy. cbn [search_results_details analyzed_artworks df_palette step].
    rewrite Hr. split; [done |]. unfold arts.
    split; [apply Forall_app; split; [done | by constructor] |].
    split.
    { unfold keys. rewrite map_app. apply NoDup_app. split; [done |]. split.
      - intros x Hx Hin. cbn in Hin. rewrite Hk in Hin.
        apply list_elem_of_singleton in Hin. subst x.
        apply dict_find_keys in Hnew. apply Hnew. by apply list_elem_of_In.
      - cbn. apply NoDup_singleton. }
    split; [apply Forall_app; split; [done |]; constructor; [| done];
            by exists z |].
    split; [by rewrite frame_app, Hdf |].
    split; [by right; right |].
    intros _. by destruct (analyzed_artworks s).
Qed.

Lemma with_net_details_ok n (ω : world rng) :
  details_ok ω -> details_ok (with_net n ω).
Proof. done. Qed.

Lemma search_tidy q s ω :
  is_tidy s -> details_ok ω ->
  match on_search requests_get repr_of rng F q s ω with
  | Crashed _ _ _ => True
  | Restarted s' ω' | Continued s' ω' => is_ok s' /\ details_ok ω'
  end.
Proof.
  intros Ht Hok. pose proof Ht as (Hres & Hoka & Hnd & Hint & Hdf & Hstep & H2).
  unfold on_search.
  destruct (truthy (VStr q)); [| done].
  destruct (search_artworks requests_get (VStr q) (net ω))
    as [[[total ids] | e] n1]; [| done].
  destruct (py_gt0 total) as [[|] | e]; [| | done].
  2: { split; [| done]. unfold ok_session, tidy. cbn.
       do 5 (split; [done |]). split; [by left | done]. }
  destruct (py_iter ids) as [items | e]; [| done].
  destruct (load_details requests_get repr_of rng items []
              (with_net n1 ω)) as [[err found] ω2] eqn:El.
  destruct (load_effect requests_get repr_of rng items items [] _ _ _ _ El)
    as (A1 & A2 & A3 & _); try done; try constructor.
  destruct err; [done |]. split; [| done].
  unfold ok_session, tidy. cbn.
  do 5 (split; [done |]). split; [by right; left | done].
Qed.

Lemma handle_tidy e s ω :
  is_ok s -> details_ok ω ->
  match click e s ω with
  | Crashed _ _ _ => True
  | Restarted s' ω' | Continued s' ω' => is_ok s' /\ details_ok ω'
  end.
Proof.
  intros Hs Hok. pose proof (init_tidy s Hs) as Ht. unfold handle.
  destruct e as [q | i | | i].
  - by apply search_tidy.
  - destruct (analyzed_artworks (init s) !! i) as [[obj_id d] |] eqn:Hi;
      [| done].
    destruct (delete_tidy (init s) ω i obj_id d Ht Hi)
      as [[_ ->] | (_ & g' & -> & Ht')]; [done |].
    split; [done | done].
  - done.
  - destruct (search_results_details (init s)) as [r |] eqn:Hr; [| done].
    destruct (1 <=? step (init s)); [| done].
    destruct (r !! i) as [[obj_id d] |] eqn:Hi; [| done].
    destruct (add_tidy (init s) ω r i obj_id d Ht Hr Hi) as (k & Hk & Hadd).
    unfold dict_has. rewrite Hk.
    destruct (dict_find k (analyzed_artworks (init s))) eqn:Hf; [done |].
    destruct (Hadd eq_refl) as [Hthrow Hret].
    destruct (id_int obj_id) as [z | e] eqn:Hz.
    + destruct (Hret z eq_refl) as (g' & -> & Ht'). done.
    + by rewrite (Hthrow e eq_refl).
Qed.

Lemma clicks_tidy es :
  forall s ω s' ω',
    clicks es s ω = Some (s', ω') ->
    is_ok s -> details_ok ω ->
    is_ok s' /\ details_ok ω'.
Proof.
  induction es as [| e es IH]; intros s ω s' ω' E Hs Hok.
  - cbn in E. by injection E as <- <-.
  - cbn [handle_all] in E. pose proof (handle_tidy e s ω Hs Hok) as Hh.
    destruct (click e s ω) as [s1 ω1 | ? ? ? | s1 ω1]; [| done |];
      destruct Hh; by eapply IH.
Qed.

End HandlerFacts.

End DashboardFacts.

(** * Properties of the dashboard *)

Module DashboardExtras.
Import Museum MuseumStubs Dashboard DashboardStubs DashboardFacts.

Lemma reached_eq es :
  reached es = true ->
  toy_handle_all es None world0 =
  Some (Some (session_after es), world_after es).
Proof.
  unfold reached, session_after, world_after.
  by destruct (toy_handle_all es None world0) as [[[s |] ω] |].
Qed.

Lemma world0_ok : details_ok world0.
Proof. intros k d. cbn. discriminate. Qed.

Section DetailTheorems.
Variable requests_get : list pystr -> pystr -> result http_response.
Variable repr_of : json -> pystr.
Variable rng : Type.

(** X10.  A lookup of artwork details never raises and asks the
    collection at most once per id.  On a memo miss one request is sent;
    when the request raises, the status is an error, the body is not
    JSON or not an object, the result is [None]; otherwise it is the
    record of the four fields, each with its default when the key is
    missing, and the id that was asked for.  The result is memoised,
    [None] included: the next lookup of the id returns it again and
    sends nothing. *)
Theorem X10_details_failure_is_memoised (id : json) (ω : world rng) :
  cache_find id (detail_cache ω) = None ->
  exists r ω1,
    get_artwork_details requests_get repr_of rng id ω = (r, ω1) /\
    requests (net ω1) = requests (net ω) ++ [object_url repr_of id] /\
    get_artwork_details requests_get repr_of rng id ω1 = (r, ω1) /\
    r = match requests_get (requests (net ω)) (object_url repr_of id) with
        | Return (HttpResponse status (Some (JDict kv))) =>
          if (400 <=? status) && (status <? 600) then None
          else Some (mkDetail
                       (field_or kv (u "title") (JStr (u "제목 없음")))
                       (field_or kv (u "artistDisplayName")
                          (JStr (u "작가 미상")))
                       (field_or kv (u "objectDate") (JStr (u "불명")))
                       (field_or kv (u "primaryImage") JNull)
                       id)
        | _ => None
        end.
Proof.
  intros Hmiss. rewrite (details_miss _ _ _ _ _ Hmiss).
  eexists _, _. split; [reflexivity |]. split; [done |]. split.
  - apply details_hit. apply cache_find_head.
  - unfold get_artwork_details_body. cbv zeta.
    destruct (requests_get _ _) as [[status [data |]] | e];
      cbn -[u]; [| by destruct (_ && _) | done].
    by destruct ((400 <=? status) && (status <? 600)), data.
Qed.

End DetailTheorems.

Lemma X10_witness :
  exists r ω1,
    get_artwork_details collection no_repr nat (JNum 3) world0 = (r, ω1) /\
    requests (net ω1) =
      requests (net world0) ++ [object_url no_repr (JNum 3)] /\
    get_artwork_details collection no_repr nat (JNum 3) ω1 = (r, ω1) /\
    r = match collection (requests (net world0))
                (object_url no_repr (JNum 3)) with
        | Return (HttpResponse status (Some (JDict kv))) =>
          if (400 <=? status) && (status <? 600) then None
          else Some (mkDetail
                       (field_or kv (u "title") (JStr (u "제목 없음")))
                       (field_or kv (u "artistDisplayName")
                          (JStr (u "작가 미상")))
                       (field_or kv (u "objectDate") (JStr (u "불명")))
                       (field_or kv (u "primaryImage") JNull)
                       (JNum 3))
        | _ => None
        end.
Proof.
  apply (X10_details_failure_is_memoised collection no_repr nat (JNum 3)
           world0).
  reflexivity.
Defined.

(** Object 3 is not found: the lookup returns [None]; object 7 has no
    date: its year is the default. *)
Example details_of_the_collection :
  (get_artwork_details collection no_repr nat (JNum 3) world0).1 = None /\
  (get_artwork_details collection no_repr nat (JNum 7) world0).1 =
  Some (mkDetail (JStr (u "Wheat Field with Cypresses"))
          (JStr (u "Vincent van Gogh")) (JStr (u "불명"))
          (JStr (u "https://images.example/436535.jpg")) (JNum 7)).
Proof. split; vm_compute; reflexivity. Qed.

Section SearchTheorems.
Variable requests_get : list pystr -> pystr -> result http_response.
Variable repr_of : json -> pystr.
Variable rng : Type.
Variable F : Type.

Abbreviation search_click := (on_search requests_get repr_of rng F).

Lemma truthy_text (q : pystr) : q <> [] -> truthy (VStr q) = true.
Proof. by destruct q. Qed.

(** X11.  A search that finds something loads at most ten results, all
    with an image.  With a non-empty query, a count above 0 and ids that
    can be dict keys, the search button ends in a rerun at step 1; the
    new search results have at most ten entries, each with a non-empty
    image url and the details of one of the ids returned; the analysed
    artworks and the table are untouched; at most eleven requests were
    sent, and NumPy's generator was not used. *)
Theorem X11_search_loads_at_most_ten
    (q : pystr) (s : session F) (ω : world rng)
    (total ids : json) (items : list json) :
  q <> [] ->
  details_ok ω ->
  search_cache_sliced (search_cache (net ω)) ->
  (search_artworks requests_get (VStr q) (net ω)).1 = Return (total, ids) ->
  py_gt0 total = Return true ->
  py_iter ids = Return items ->
  Forall (fun j => is_Some (key_of j)) items ->
  exists found ω',
    search_click q s ω =
    Restarted
      (Some (mkSession 1 (Some found) (analyzed_artworks s) (df_palette s)))
      ω' /\
    (length found <= 10)%nat /\
    Forall (fun e => json_truthy (image_url e.2) = true /\
                     In (object_id e.2) items /\
                     key_of e.1 = key_of (object_id e.2)) found /\
    NoDup (keys found) /\
    (length (requests (net ω')) <= length (requests (net ω)) + 11)%nat /\
    gen ω' = gen ω.
Proof.
  intros Hq Hok Hsl Hs Hgt Hit Hh.
  destruct (search_effect requests_get (VStr q) (net ω) Hsl)
    as (total' & ids' & items' & n1 & E & Hit' & Hlen & _ & Hlog & _).
  rewrite E in Hs. cbn in Hs. injection Hs as -> ->.
  rewrite Hit in Hit'. injection Hit' as <-.
  unfold on_search. rewrite (truthy_text q Hq), E, Hgt, Hit.
  destruct (load_details requests_get repr_of rng items []
              (with_net n1 ω)) as [[err found] ω2] eqn:El.
  destruct (load_effect requests_get repr_of rng items items [] _ _ _ _ El)
    as (_ & A2 & A3 & A4 & A5 & _ & A7 & A8 & A9);
    try done; try constructor.
  rewrite (A9 Hh). exists found, ω2. split; [done |].
  cbn [length] in A5. split; [lia |]. split.
  - apply Forall_forall. intros e He.
    pose proof (proj1 (Forall_forall _ _) A2 e He) as (_ & Hk & Him).
    pose proof (proj1 (Forall_forall _ _) A4 e He) as Hin. cbn in Hin.
    done.
  - split; [done |]. cbn [net with_net requests] in A8. split; [lia | done].
Qed.

Lemma search_body_log q log :
  truthy q = true ->
  (search_artworks_body requests_get q log).2 = log ++ [search_url q].
Proof.
  intros T. unfold search_artworks_body. rewrite T. cbn -[u search_url].
  by destruct (rbind _ _).
Qed.

(** X12.  A search that fails is a search without results, and it is
    memoised.  With a non-empty query on a memo miss, when the request
    raises, the status is an error or the body is not JSON, the search
    button sets the step to 0 and reruns; the search results, the
    analysed artworks and the table stay as they are.  One request was
    sent; every later search for the same query ends the same way and
    sends none. *)
Theorem X12_failed_search_is_memoised
    (q : pystr) (s : session F) (ω : world rng) :
  q <> [] ->
  search_cache (net ω) !! VStr q = None ->
  (forall r,
     requests_get (requests (net ω)) (search_url (VStr q)) = Return r ->
     exists e, rbind (raise_for_status r)
                 (fun _ => response_json r) = Throw e) ->
  exists ω1,
    search_click q s ω =
    Restarted
      (Some (mkSession 0 (search_results_details s) (analyzed_artworks s)
               (df_palette s))) ω1 /\
    requests (net ω1) = requests (net ω) ++ [search_url (VStr q)] /\
    detail_cache ω1 = detail_cache ω /\
    forall s2,
      search_click q s2 ω1 =
      Restarted
        (Some (mkSession 0 (search_results_details s2)
                 (analyzed_artworks s2) (df_palette s2))) ω1.
Proof.
  intros Hq Hmiss Hfail. pose proof (truthy_text q Hq) as T.
  pose proof (MuseumClaims.search_artworks_body_failure requests_get
                (VStr q) (requests (net ω)) T Hfail) as Hb.
  pose proof (search_body_log (VStr q) (requests (net ω)) T) as Hl.
  unfold on_search at 1, search_artworks. rewrite T, Hmiss.
  destruct (search_artworks_body requests_get (VStr q) (requests (net ω)))
    as [r log]. cbn in Hb, Hl. subst r log. cbn [py_gt0 Z.ltb Z.compare].
  eexists. split; [reflexivity |].
  cbn [net with_net requests detail_cache search_cache].
  split; [done |]. split; [done |].
  intros s2. unfold on_search, search_artworks. rewrite T.
  cbn [net with_net search_cache]. rewrite lookup_insert_eq.
  cbn [py_gt0 Z.ltb Z.compare]. by destruct ω.
Qed.

(** X13.  A search answer whose count is not a number raises, each
    time.  With a non-empty query on a memo miss, when the answer is a
    JSON object whose [total] cannot be compared with 0 (for example
    [null]) and whose ids can be sliced, the search button ends in the
    exception of that comparison, outside any [try]; the session is as
    before.  The answer has been memoised, so every later search for the
    query raises again without a request. *)
Theorem X13_search_without_count_raises
    (q : pystr) (s : session F) (ω : world rng)
    (status : Z) (kv : list (pystr * json)) (total top : json) (e : exn) :
  q <> [] ->
  search_cache (net ω) !! VStr q = None ->
  requests_get (requests (net ω)) (search_url (VStr q)) =
    Return (HttpResponse status (Some (JDict kv))) ->
  (400 <=? status) && (status <? 600) = false ->
  assoc (u "total") kv = Some total ->
  py_gt0 total = Throw e ->
  slice10 (field_or kv (u "objectIDs") (JList [])) = Return top ->
  exists ω1,
    search_click q s ω = Crashed e (Some s) ω1 /\
    requests (net ω1) = requests (net ω) ++ [search_url (VStr q)] /\
    forall s2, search_click q s2 ω1 = Crashed e (Some s2) ω1.
Proof.
  intros Hq Hmiss Hget Hstatus Htotal Hgt Hslice.
  pose proof (truthy_text q Hq) as T.
  assert (search_artworks_body requests_get (VStr q) (requests (net ω)) =
          (Return (total, top),
           requests (net ω) ++ [search_url (VStr q)])) as Hb.
  { unfold search_artworks_body. rewrite T. cbn -[u search_url].
    rewrite Hget. cbn -[u search_url]. rewrite Hstatus. cbn -[u search_url].
    rewrite Htotal. unfold field_or in Hslice. cbn -[u search_url].
    by rewrite Hslice. }
  unfold on_search at 1, search_artworks. rewrite T, Hmiss, Hb, Hgt.
  eexists. split; [reflexivity |].
  cbn [net with_net requests search_cache]. split; [done |].
  intros s2. unfold on_search, search_artworks. rewrite T.
  cbn [net with_net search_cache]. rewrite lookup_insert_eq, Hgt.
  by destruct ω.
Qed.

End SearchTheorems.

Section OptionTheorems.
Variable repr_of : json -> pystr.

Abbreviation label := (option_label repr_of).
Abbreviation options := (artwork_options repr_of).

Lemma options_snoc arts e :
  options (arts ++ [e]) =
  dict_put (KStr (label e.2)) (JStr (label e.2)) e.1 (options arts).
Proof. unfold artwork_options. by rewrite fold_left_app. Qed.

(** X19.  Artworks with the same artist and title share one option of
    the select box.  The options are at most as many as the analysed
    artworks; choosing the label of an artwork selects the id of the
    last analysed artwork with that label, so an earlier one with the
    same label cannot be selected; and with no option chosen, as for an
    empty list, the lookup raises. *)
Theorem X19_equal_labels_share_an_option
    (before after : list (json * detail)) (k : json) (d : detail) :
  Forall (fun e => label e.2 <> label d) after ->
  let arts := before ++ (k, d) :: after in
  selected_id (options arts) (Some (label d)) = Return k /\
  (length (options arts) <= length arts)%nat /\
  (forall e, In e before -> label e.2 = label d ->
             (length (options arts) < length arts)%nat) /\
  selected_id (options arts) None = Throw (LibraryError (u "KeyError")) /\
  forall t, selected_id (options []) t = Throw (LibraryError (u "KeyError")).
Proof.
  intros Hafter arts.
  assert (Hlen : forall l, (length (options l) <= length l)%nat).
  { induction l as [| e l IH] using rev_ind; [done |].
    rewrite options_snoc, length_app. cbn.
    pose proof (dict_put_length (KStr (label e.2)) (JStr (label e.2)) e.1
                  (options l)). lia. }
  assert (Hnone : forall l, dict_find KNone (options l) = None).
  { induction l as [| e l IH] using rev_ind; [done |].
    rewrite options_snoc. by rewrite dict_find_put_ne. }
  assert (Hsel : dict_find (KStr (label d)) (options arts) = Some k).
  { unfold arts. clear Hlen Hnone arts.
    induction after as [| e after IH] using rev_ind.
    - change (before ++ [(k, d)]) with (before ++ [(k, d)]).
      rewrite options_snoc. by apply dict_find_put_eq.
    - apply Forall_app in Hafter as [Ha He].
      apply Forall_cons in He as [He _].
      rewrite app_comm_cons, app_assoc, options_snoc.
      rewrite dict_find_put_ne; [by apply IH | done |].
      intros Heq. apply He. congruence. }
  split; [unfold selected_id; by rewrite Hsel |].
  split; [apply Hlen |]. split; [| split].
  - intros e Hin Heq. apply in_split in Hin as (b1 & b2 & ->).
    unfold arts.
    assert (forall l,
              (exists v, dict_find (KStr (label d)) (options l) = Some v) ->
              forall l',
                Forall (fun x => True) l' ->
                (length (options (l ++ (k, d) :: l')) <
                 length (l ++ (k, d) :: l'))%nat) as Hshort.
    { intros l [v Hv] l' _.
      induction l' as [| x l' IH] using rev_ind.
      - rewrite options_snoc. cbn [fst snd]. rewrite length_app. cbn.
        assert (length (dict_put (KStr (label d)) (JStr (label d)) k
                          (options l)) = length (options l)) as ->.
        { clear -Hv. induction (options l) as [| [j' v'] o IH]; [done |].
          cbn in *. case_decide as Hd; [done |]. cbn. by rewrite IH. }
        pose proof (Hlen l). lia.
      - rewrite app_comm_cons, app_assoc, options_snoc, !length_app. cbn.
        pose proof (dict_put_length (KStr (label x.2)) (JStr (label x.2))
                      x.1 (options (l ++ (k, d) :: l'))).
        rewrite length_app in IH. cbn in IH. lia. }
    apply Hshort; [| by apply Forall_forall].
    clear -Heq. rewrite <- Heq.
    induction b2 as [| x b2 IH] using rev_ind.
    + rewrite options_snoc. eexists. by apply dict_find_put_eq.
    + rewrite app_comm_cons, app_assoc, options_snoc.
      destruct IH as [v Hv].
      destruct (decide (label x.2 = label e.2)) as [Hx | Hx].
      * rewrite Hx. eexists. by apply dict_find_put_eq.
      * exists v. rewrite dict_find_put_ne; [done | done |].
        intros Hy. apply Hx. congruence.
  - unfold selected_id. by rewrite Hnone.
  - intros t. unfold selected_id. by destruct t.
Qed.

End OptionTheorems.

Lemma X19_witness :
  let arts := [(JNum 10, chair 10)] ++ (JNum 20, chair 20) ::
              [(JNum 30, vase)] in
  selected_id (artwork_options no_repr arts)
    (Some (option_label no_repr (chair 20))) = Return (JNum 20) /\
  (length (artwork_options no_repr arts) <= length arts)%nat /\
  (forall e, In e [(JNum 10, chair 10)] ->
             option_label no_repr e.2 = option_label no_repr (chair 20) ->
             (length (artwork_options no_repr arts) < length arts)%nat) /\
  selected_id (artwork_options no_repr arts) None =
    Throw (LibraryError (u "KeyError")) /\
  forall t,
    selected_id (artwork_options no_repr []) t =
    Throw (LibraryError (u "KeyError")).
Proof.
  apply (X19_equal_labels_share_an_option no_repr [(JNum 10, chair 10)]
           [(JNum 30, vase)] (JNum 20) (chair 20)).
  constructor; [| constructor].
  intros H. vm_compute in H. discriminate H.
Defined.

Section ResetTheorems.
Variable requests_get : list pystr -> pystr -> result http_response.
Variable repr_of : json -> pystr.
Variable rng : Type.
Variable F : Type.
Variable seed_state : Z -> rng.
Variable np_choice : rng -> list pystr -> nat -> list pystr * rng.
Variable np_rand : rng -> nat -> list F * rng.
Variable np_sum : list F -> F.
Variable fdiv : F -> F -> F.
Variable cell_other : json -> pyval.

Abbreviation press :=
  (handle requests_get repr_of rng F seed_state np_choice np_rand np_sum
     fdiv cell_other).

(** X18.  The reset button clears the session and nothing else.  After
    a search that found something, the reset button deletes every key
    and reruns; the memo tables of the search and of the details are
    not touched.  The same search in the new session gives the same
    results without a request to the collection; the analysed artworks
    and the table are those of a new session. *)
Theorem X18_reset_keeps_the_memo_tables
    (q : pystr) (s : session F) (ω : world rng)
    (total ids : json) (items : list json) :
  q <> [] ->
  details_ok ω ->
  (search_artworks requests_get (VStr q) (net ω)).1 = Return (total, ids) ->
  py_gt0 total = Return true ->
  py_iter ids = Return items ->
  Forall (fun j => is_Some (key_of j)) items ->
  exists found ω1,
    press (ClickSearch q) (Some s) ω =
    Restarted
      (Some (mkSession 1 (Some found) (analyzed_artworks s) (df_palette s)))
      ω1 /\
    press ClickReset
      (Some (mkSession 1 (Some found) (analyzed_artworks s) (df_palette s)))
      ω1 =
    Restarted None ω1 /\
    press (ClickSearch q) None ω1 =
    Restarted (Some (mkSession 1 (Some found) [] empty_frame)) ω1.
Proof.
  intros Hq Hok Hs Hgt Hit Hh.
  pose proof (truthy_text q Hq) as T.
  destruct (search_artworks requests_get (VStr q) (net ω))
    as [r n1] eqn:E. cbn in Hs. subst r.
  pose proof (search_stored _ _ _ _ _ E) as Hstored.
  unfold handle. cbn [init]. unfold on_search at 1.
  rewrite T, E, Hgt, Hit.
  destruct (load_details requests_get repr_of rng items []
              (with_net n1 ω)) as [[err found] ω2] eqn:El.
  destruct (load_effect requests_get repr_of rng items items [] _ _ _ _ El)
    as (_ & _ & _ & _ & _ & Hsc & _ & _ & A9); try done; try constructor.
  rewrite (A9 Hh) in El |- *.
  exists found, ω2. split; [done |]. split; [done |].
  unfold on_search. rewrite T.
  assert (search_cache (net ω2) !! VStr q = Some (total, ids)) as Hhit.
  { by rewrite Hsc. }
  unfold search_artworks. rewrite Hhit, Hgt, Hit.
  assert (with_net (net ω2) ω2 = ω2) as -> by (by destruct ω2).
  rewrite (load_again requests_get repr_of rng items [] _ _ _ _ El ω2);
    done.
Qed.

End ResetTheorems.

Lemma monet_not_empty : u "monet" <> [].
Proof. intros H. vm_compute in H. discriminate H. Qed.

Lemma no_requests_sliced : search_cache_sliced (search_cache (net world0)).
Proof. intros q t i H. cbn in H. by rewrite lookup_empty in H. Qed.

Lemma X11_witness :
  exists found ω',
    on_search collection no_repr nat QArith_base.Q (u "monet") session0
      world0 =
    Restarted
      (Some (mkSession 1 (Some found) (analyzed_artworks session0)
               (df_palette session0))) ω' /\
    (length found <= 10)%nat /\
    Forall (fun e => json_truthy (image_url e.2) = true /\
                     In (object_id e.2)
                       (map (fun n => JNum (Z.of_nat n)) (seq 1 10)) /\
                     key_of e.1 = key_of (object_id e.2)) found /\
    NoDup (keys found) /\
    (length (requests (net ω')) <=
     length (requests (net world0)) + 11)%nat /\
    gen ω' = gen world0.
Proof.
  apply (X11_search_loads_at_most_ten collection no_repr nat QArith_base.Q
           (u "monet") session0 world0 (JNum 12)
           (JList (map (fun n => JNum (Z.of_nat n)) (seq 1 10)))
           (map (fun n => JNum (Z.of_nat n)) (seq 1 10))).
  - exact monet_not_empty.
  - exact world0_ok.
  - exact no_requests_sliced.
  - vm_compute; reflexivity.
  - reflexivity.
  - reflexivity.
  - cbn. repeat (constructor; [by eexists |]). constructor.
Defined.

(** Of the ten ids the search keeps, object 3 is not found and object 5
    has no image: eight results are loaded, with eleven requests. *)
Example search_in_the_collection :
  let r := toy_handle (ClickSearch (u "monet")) None world0 in
  option_map (fun s => (step s,
                        option_map (map fst) (search_results_details s)))
    (session_of r) =
  Some (1, Some (map JNum [1; 2; 4; 6; 7; 8; 9; 10])) /\
  length (requests (net (world_of r))) = 11%nat /\
  crashed r = false.
Proof. vm_compute. repeat split; reflexivity. Qed.

Lemma X12_witness :
  exists ω1,
    on_search offline no_repr nat QArith_base.Q (u "monet")
      (session_after [ClickSearch (u "monet"); ClickAdd 0]) world0 =
    Restarted
      (Some (mkSession 0
               (search_results_details
                  (session_after [ClickSearch (u "monet"); ClickAdd 0]))
               (analyzed_artworks
                  (session_after [ClickSearch (u "monet"); ClickAdd 0]))
               (df_palette
                  (session_after [ClickSearch (u "monet"); ClickAdd 0]))))
      ω1 /\
    requests (net ω1) =
      requests (net world0) ++ [search_url (VStr (u "monet"))] /\
    detail_cache ω1 = detail_cache world0 /\
    forall s2,
      on_search offline no_repr nat QArith_base.Q (u "monet") s2 ω1 =
      Restarted
        (Some (mkSession 0 (search_results_details s2)
                 (analyzed_artworks s2) (df_palette s2))) ω1.
Proof.
  apply (X12_failed_search_is_memoised offline no_repr nat QArith_base.Q
           (u "monet")
           (session_after [ClickSearch (u "monet"); ClickAdd 0]) world0).
  - exact monet_not_empty.
  - reflexivity.
  - intros r H. discriminate H.
Defined.

Lemma X13_witness :
  exists ω1,
    on_search no_total no_repr nat QArith_base.Q (u "monet") session0
      world0 =
    Crashed (TypeError "'>' not supported") (Some session0) ω1 /\
    requests (net ω1) =
      requests (net world0) ++ [search_url (VStr (u "monet"))] /\
    forall s2,
      on_search no_total no_repr nat QArith_base.Q (u "monet") s2 ω1 =
      Crashed (TypeError "'>' not supported") (Some s2) ω1.
Proof.
  apply (X13_search_without_count_raises no_total no_repr nat QArith_base.Q
           (u "monet") session0 world0 200
           [(u "total", JNull); (u "objectIDs", JList [JNum 1; JNum 2])]
           JNull (JList [JNum 1; JNum 2])
           (TypeError "'>' not supported")).
  - exact monet_not_empty.
  - reflexivity.
  - reflexivity.
  - reflexivity.
  - vm_compute; reflexivity.
  - reflexivity.
  - vm_compute; reflexivity.
Defined.

Lemma X18_witness :
  exists found ω1,
    toy_handle (ClickSearch (u "monet")) (Some session0) world0 =
    Restarted
      (Some (mkSession 1 (Some found) (analyzed_artworks session0)
               (df_palette session0))) ω1 /\
    toy_handle ClickReset
      (Some (mkSession 1 (Some found) (analyzed_artworks session0)
               (df_palette session0))) ω1 =
    Restarted None ω1 /\
    toy_handle (ClickSearch (u "monet")) None ω1 =
    Restarted (Some (mkSession 1 (Some found) [] empty_frame)) ω1.
Proof.
  apply (X18_reset_keeps_the_memo_tables collection no_repr nat
           QArith_base.Q toy_seed toy_choice toy_rand toy_sum
           QArith_base.Qdiv no_cell (u "monet") session0 world0 (JNum 12)
           (JList (map (fun n => JNum (Z.of_nat n)) (seq 1 10)))
           (map (fun n => JNum (Z.of_nat n)) (seq 1 10))).
  - exact monet_not_empty.
  - exact world0_ok.
  - vm_compute; reflexivity.
  - reflexivity.
  - reflexivity.
  - cbn. repeat (constructor; [by eexists |]). constructor.
Defined.

Section TableTheorems.
Variable requests_get : list pystr -> pystr -> result http_response.
Variable repr_of : json -> pystr.
Variable rng : Type.
Variable F : Type.
Variable seed_state : Z -> rng.
Variable np_choice : rng -> list pystr -> nat -> list pystr * rng.
Variable np_rand : rng -> nat -> list F * rng.
Variable np_sum : list F -> F.
Variable fdiv : F -> F -> F.
Variable cell_other : json -> pyval.

(** What the script relies on from NumPy, as for the palette. *)
Hypothesis choice_length :
  forall g options k,
    (k <= length options)%nat -> length (np_choice g options k).1 = k.
Hypothesis rand_length : forall g k, length (np_rand g k).1 = k.

Abbreviation rows :=
  (rows_of rng F seed_state np_choice np_rand np_sum fdiv cell_other).
Abbreviation frame :=
  (frame_of rng F seed_state np_choice np_rand np_sum fdiv cell_other).
Abbreviation click :=
  (handle requests_get repr_of rng F seed_state np_choice np_rand np_sum
     fdiv cell_other).
Abbreviation clicks :=
  (handle_all requests_get repr_of rng F seed_state np_choice np_rand np_sum
     fdiv cell_other).

Lemma reached_tidy es ω0 s ω :
  details_ok ω0 ->
  clicks es None ω0 = Some (Some s, ω) ->
  tidy rng F seed_state np_choice np_rand np_sum fdiv cell_other s /\
  details_ok ω.
Proof.
  intros Hok E.
  by destruct (clicks_tidy requests_get repr_of rng F seed_state np_choice
                 np_rand np_sum fdiv cell_other choice_length rand_length
                 es None ω0 (Some s) ω E I Hok).
Qed.

(** X14.  The add button appends the artwork and its five rows.  In a
    session reached by clicks of which none raised, at step 1 or 2, the
    add button of a search result with an integer id that is not
    analysed yet ends in a rerun at step 2: the artwork is the last of
    the analysed ones, and the table is the old one followed by five
    rows that carry the id, with the colours and frequencies of
    [spec_palette] for the id.  No request is sent. *)
Theorem X14_add_appends_five_rows
    (es : list event) (ω0 : world rng) (s : session F) (ω : world rng)
    (r : list (json * detail)) (i : nat) (z : Z) (d : detail) :
  details_ok ω0 ->
  clicks es None ω0 = Some (Some s, ω) ->
  1 <= step s ->
  search_results_details s = Some r ->
  r !! i = Some (JNum z, d) ->
  dict_find (KInt z) (analyzed_artworks s) = None ->
  exists g',
    click (ClickAdd i) (Some s) ω =
    Restarted
      (Some (mkSession 2 (Some r) (analyzed_artworks s ++ [(JNum z, d)])
               (df_append (df_palette s) (rows d))))
      (with_gen g' ω) /\
    Artwork_ID (rows d) = repeat z 5 /\
    (Color_HEX (rows d), Frequency (rows d)) =
      spec_palette rng F seed_state np_choice np_rand np_sum fdiv z /\
    nrows (df_append (df_palette s) (rows d)) =
      (nrows (df_palette s) + 5)%nat.
Proof.
  intros Hok E Hstep Hr Hi Hnew.
  destruct (reached_tidy es ω0 s ω Hok E) as [Ht _].
  destruct (add_tidy rng F seed_state np_choice np_rand np_sum fdiv
              cell_other choice_length rand_length s ω r i (JNum z) d
              Ht Hr Hi) as (k & Hk & Hadd).
  cbn in Hk. injection Hk as <-.
  destruct (Hadd Hnew) as [_ Hret].
  destruct (Hret z eq_refl) as (g' & Eadd & Ht').
  assert (id_int (object_id d) = Return z) as Hz.
  { destruct Ht as (Hres & _). rewrite Hr in Hres. destruct Hres as [Hrok _].
    assert (entry_ok (JNum z, d)) as (Hs & Hkd & _).
    { eapply Forall_forall; [exact Hrok |]. by eapply list_elem_of_lookup_2. }
    cbn in Hkd.
    rewrite (key_of_id_int (object_id d) (JNum z)); [done | done |].
    rewrite Hkd. by eexists. }
  exists g'. split.
  - unfold handle. cbn [init]. rewrite Hr.
    assert ((1 <=? step s) = true) as -> by lia.
    rewrite Hi. unfold dict_has. cbn [key_of]. rewrite Hnew.
    by rewrite Eadd, Hr.
  - unfold rows_of. rewrite Hz. cbn [Artwork_ID Color_HEX Frequency].
    split; [done |]. split; [by destruct (spec_palette _ _ _ _ _ _ _ z) |].
    unfold nrows. cbn. rewrite length_app. cbn. lia.
Qed.

(** X15.  The table is the table of the analysed artworks.  In every
    session reached from a new one by clicks of which none raised, the
    table holds, for the analysed artworks in their order, the five rows
    of each and nothing else; the analysed artworks have distinct keys
    and integer ids; the step is 0, 1 or 2; and at step 2 at least one
    artwork is analysed. *)
Theorem X15_table_matches_analysed_artworks
    (es : list event) (ω0 : world rng) (s : session F) (ω : world rng) :
  details_ok ω0 ->
  clicks es None ω0 = Some (Some s, ω) ->
  df_palette s = frame (analyzed_artworks s) /\
  nrows (df_palette s) = (5 * length (analyzed_artworks s))%nat /\
  NoDup (keys (analyzed_artworks s)) /\
  Forall (fun e => exists z, id_int (object_id e.2) = Return z)
    (analyzed_artworks s) /\
  (step s = 0 \/ step s = 1 \/ step s = 2) /\
  (step s = 2 -> analyzed_artworks s <> []).
Proof.
  intros Hok E.
  destruct (reached_tidy es ω0 s ω Hok E)
    as [(_ & _ & Hnd & Hint & Hdf & Hstep & H2) _].
  split; [done |]. split; [| done].
  rewrite Hdf.
  apply (nrows_frame rng F seed_state np_choice np_rand np_sum fdiv
           cell_other).
Qed.

(** X16.  The last analysed artwork cannot be deleted.  In a session
    reached by clicks of which none raised, with one analysed artwork,
    its delete button ends in the exception of [pd.concat] for an empty
    list; the artwork has been removed from the analysed ones by then,
    and the table still holds its five rows. *)
Theorem X16_deleting_the_last_artwork_raises
    (es : list event) (ω0 : world rng) (s : session F) (ω : world rng)
    (e : json * detail) :
  details_ok ω0 ->
  clicks es None ω0 = Some (Some s, ω) ->
  analyzed_artworks s = [e] ->
  click (ClickDelete 0) (Some s) ω =
  Crashed (LibraryError (u "No objects to concatenate"))
    (Some (mkSession (step s) (search_results_details s) [] (df_palette s)))
    ω /\
  nrows (df_palette s) = 5%nat.
Proof.
  intros Hok E He.
  destruct (reached_tidy es ω0 s ω Hok E) as [Ht _].
  destruct e as [obj_id d].
  assert (analyzed_artworks s !! 0%nat = Some (obj_id, d)) as Hi
    by (by rewrite He).
  split.
  - unfold handle. cbn [init]. rewrite Hi.
    destruct (delete_tidy rng F seed_state np_choice np_rand np_sum fdiv
                cell_other choice_length rand_length s ω 0 obj_id d Ht Hi)
      as [[_ ->] | [Hne _]]; [done |].
    exfalso. apply Hne. by rewrite He.
  - destruct Ht as (_ & _ & _ & _ & Hdf & _). rewrite Hdf, He.
    apply (nrows_frame rng F seed_state np_choice np_rand np_sum fdiv
             cell_other).
Qed.

(** X17.  Deleting one of several analysed artworks rebuilds the table
    from the others.  In a session reached by clicks of which none
    raised, with at least two analysed artworks, the delete button of
    the i-th ends in a rerun; the analysed artworks are the others in
    their order, the table is the table of these, five rows each, and
    the step and the search results are as before. *)
Theorem X17_delete_rebuilds_the_table
    (es : list event) (ω0 : world rng) (s : session F) (ω : world rng)
    (i : nat) (e : json * detail) :
  details_ok ω0 ->
  clicks es None ω0 = Some (Some s, ω) ->
  analyzed_artworks s !! i = Some e ->
  (2 <= length (analyzed_artworks s))%nat ->
  let rest :=
    take i (analyzed_artworks s) ++ drop (S i) (analyzed_artworks s) in
  exists g',
    click (ClickDelete i) (Some s) ω =
    Restarted
      (Some (mkSession (step s) (search_results_details s) rest
               (frame rest)))
      (with_gen g' ω) /\
    length rest = (length (analyzed_artworks s) - 1)%nat /\
    nrows (frame rest) = (5 * length rest)%nat.
Proof.
  intros Hok E Hi Hlen rest.
  destruct (reached_tidy es ω0 s ω Hok E) as [Ht _].
  destruct e as [obj_id d].
  assert (length rest = (length (analyzed_artworks s) - 1)%nat) as Hrest.
  { unfold rest. rewrite length_app, length_take, length_drop.
    apply lookup_lt_Some in Hi. lia. }
  destruct (delete_tidy rng F seed_state np_choice np_rand np_sum fdiv
              cell_other choice_length rand_length s ω i obj_id d Ht Hi)
    as [[Hnil _] | (_ & g' & Edel & _)].
  { fold rest in Hnil. rewrite Hnil in Hrest. cbn in Hrest. lia. }
  exists g'. split.
  - unfold handle. cbn [init]. by rewrite Hi.
  - split; [done |].
    apply (nrows_frame rng F seed_state np_choice np_rand np_sum fdiv
             cell_other).
Qed.

(** X20.  The rows selected for an analysed artwork are its own five
    rows.  In a session reached by clicks of which none raised, the rows
    of the table whose id equals the key of an analysed artwork are
    exactly the five rows of this artwork, with its id and with the
    colours and frequencies of [spec_palette] for the id; the selection
    is never empty. *)
Theorem X20_selected_rows_are_the_artworks_rows
    (es : list event) (ω0 : world rng) (s : session F) (ω : world rng)
    (i : nat) (k : json) (d : detail) :
  details_ok ω0 ->
  clicks es None ω0 = Some (Some s, ω) ->
  analyzed_artworks s !! i = Some (k, d) ->
  exists z,
    id_int k = Return z /\
    rows_with_id F (df_palette s) k = rows d /\
    nrows (rows_with_id F (df_palette s) k) = 5%nat /\
    Artwork_ID (rows d) = repeat z 5 /\
    (Color_HEX (rows d), Frequency (rows d)) =
      spec_palette rng F seed_state np_choice np_rand np_sum fdiv z.
Proof.
  intros Hok E Hi.
  destruct (reached_tidy es ω0 s ω Hok E)
    as [(_ & Hoka & Hnd & Hint & Hdf & _) _].
  assert (exists z, id_int (object_id d) = Return z) as [z Hz].
  { apply (proj1 (Forall_forall _ _) Hint (k, d)).
    by eapply list_elem_of_lookup_2. }
  destruct (with_id_frame rng F seed_state np_choice np_rand np_sum fdiv
              cell_other choice_length rand_length
              (analyzed_artworks s) i k d z Hoka Hnd Hint Hi Hz)
    as [Hk Hrows].
  exists z. split; [done |]. rewrite Hdf, Hrows.
  split; [done |]. unfold rows_of. rewrite Hz.
  cbn [Artwork_ID Color_HEX Frequency nrows Artist].
  split; [done |]. split; [done |].
  by destruct (spec_palette _ _ _ _ _ _ _ z).
Qed.

End TableTheorems.

Lemma X14_witness :
  exists g',
    toy_handle (ClickAdd 0) (Some (session_after monet)) (world_after monet) =
    Restarted
      (Some (mkSession 2 (Some (results_after monet))
               (analyzed_artworks (session_after monet) ++
                [(JNum 1, painting 1)])
               (df_append (df_palette (session_after monet))
                  (toy_rows (painting 1)))))
      (with_gen g' (world_after monet)) /\
    Artwork_ID (toy_rows (painting 1)) = repeat 1 5 /\
    (Color_HEX (toy_rows (painting 1)), Frequency (toy_rows (painting 1))) =
      spec_palette nat QArith_base.Q toy_seed toy_choice toy_rand toy_sum
        QArith_base.Qdiv 1 /\
    nrows (df_append (df_palette (session_after monet))
             (toy_rows (painting 1))) =
      (nrows (df_palette (session_after monet)) + 5)%nat.
Proof.
  apply (X14_add_appends_five_rows collection no_repr nat QArith_base.Q
           toy_seed toy_choice toy_rand toy_sum QArith_base.Qdiv no_cell
           MuseumClaims.toy_choice_length MuseumClaims.toy_rand_length
           monet world0 (session_after monet) (world_after monet)
           (results_after monet) 0 1 (painting 1)).
  - exact world0_ok.
  - apply reached_eq. vm_compute; reflexivity.
  - vm_compute. discriminate.
  - vm_compute; reflexivity.
  - vm_compute; reflexivity.
  - vm_compute; reflexivity.
Defined.

Lemma X15_witness :
  let s := session_after (monet ++ [ClickAdd 0; ClickAdd 1; ClickDelete 0]) in
  df_palette s = toy_frame (analyzed_artworks s) /\
  nrows (df_palette s) = (5 * length (analyzed_artworks s))%nat /\
  NoDup (keys (analyzed_artworks s)) /\
  Forall (fun e => exists z, id_int (object_id e.2) = Return z)
    (analyzed_artworks s) /\
  (step s = 0 \/ step s = 1 \/ step s = 2) /\
  (step s = 2 -> analyzed_artworks s <> []).
Proof.
  apply (X15_table_matches_analysed_artworks collection no_repr nat
           QArith_base.Q toy_seed toy_choice toy_rand toy_sum
           QArith_base.Qdiv no_cell
           MuseumClaims.toy_choice_length MuseumClaims.toy_rand_length
           (monet ++ [ClickAdd 0; ClickAdd 1; ClickDelete 0]) world0
           (session_after (monet ++ [ClickAdd 0; ClickAdd 1; ClickDelete 0]))
           (world_after (monet ++ [ClickAdd 0; ClickAdd 1; ClickDelete 0]))).
  - exact world0_ok.
  - apply reached_eq. vm_compute; reflexivity.
Defined.

(** After the search, two artworks are added and the first is deleted:
    the second one, object 2, is left with its five rows. *)
Example one_artwork_left :
  let s := session_after (monet ++ [ClickAdd 0; ClickAdd 1; ClickDelete 0]) in
  step s = 2 /\
  map fst (analyzed_artworks s) = [JNum 2] /\
  Artwork_ID (df_palette s) = [2; 2; 2; 2; 2] /\
  Color_HEX (df_palette s) =
    [u "#3A5C3C"; u "#F7DC6F"; u "#C4B4D8"; u "#5A7B8E"; u "#1D2E40"].
Proof. vm_compute. repeat split; reflexivity. Qed.

Lemma X16_witness :
  toy_handle (ClickDelete 0) (Some (session_after (monet ++ [ClickAdd 0])))
    (world_after (monet ++ [ClickAdd 0])) =
  Crashed (LibraryError (u "No objects to concatenate"))
    (Some (mkSession (step (session_after (monet ++ [ClickAdd 0])))
             (search_results_details (session_after (monet ++ [ClickAdd 0])))
             [] (df_palette (session_after (monet ++ [ClickAdd 0])))))
    (world_after (monet ++ [ClickAdd 0])) /\
  nrows (df_palette (session_after (monet ++ [ClickAdd 0]))) = 5%nat.
Proof.
  apply (X16_deleting_the_last_artwork_raises collection no_repr nat
           QArith_base.Q toy_seed toy_choice toy_rand toy_sum
           QArith_base.Qdiv no_cell
           MuseumClaims.toy_choice_length MuseumClaims.toy_rand_length
           (monet ++ [ClickAdd 0]) world0
           (session_after (monet ++ [ClickAdd 0]))
           (world_after (monet ++ [ClickAdd 0]))
           (JNum 1, painting 1)).
  - exact world0_ok.
  - apply reached_eq. vm_compute; reflexivity.
  - vm_compute; reflexivity.
Defined.

Lemma X20_witness :
  let es := monet ++ [ClickAdd 0; ClickAdd 1; ClickAdd 2] in
  exists z,
    id_int (JNum 2) = Return z /\
    rows_with_id QArith_base.Q (df_palette (session_after es)) (JNum 2) =
      toy_rows (painting 2) /\
    nrows (rows_with_id QArith_base.Q (df_palette (session_after es))
             (JNum 2)) = 5%nat /\
    Artwork_ID (toy_rows (painting 2)) = repeat z 5 /\
    (Color_HEX (toy_rows (painting 2)), Frequency (toy_rows (painting 2))) =
      spec_palette nat QArith_base.Q toy_seed toy_choice toy_rand toy_sum
        QArith_base.Qdiv z.
Proof.
  apply (X20_selected_rows_are_the_artworks_rows collection no_repr nat
           QArith_base.Q toy_seed toy_choice toy_rand toy_sum
           QArith_base.Qdiv no_cell
           MuseumClaims.toy_choice_length MuseumClaims.toy_rand_length
           (monet ++ [ClickAdd 0; ClickAdd 1; ClickAdd 2]) world0
           (session_after (monet ++ [ClickAdd 0; ClickAdd 1; ClickAdd 2]))
           (world_after (monet ++ [ClickAdd 0; ClickAdd 1; ClickAdd 2]))
           1%nat (JNum 2) (painting 2)).
  - exact world0_ok.
  - apply reached_eq. vm_compute; reflexivity.
  - vm_compute; reflexivity.
Defined.

Lemma X17_witness :
  let es := monet ++ [ClickAdd 0; ClickAdd 1; ClickAdd 2] in
  let rest :=
    take 1 (analyzed_artworks (session_after es)) ++
    drop 2 (analyzed_artworks (session_after es)) in
  exists g',
    toy_handle (ClickDelete 1) (Some (session_after es)) (world_after es) =
    Restarted
      (Some (mkSession (step (session_after es))
               (search_results_details (session_after es)) rest
               (toy_frame rest)))
      (with_gen g' (world_after es)) /\
    length rest = (length (analyzed_artworks (session_after es)) - 1)%nat /\
    nrows (toy_frame rest) = (5 * length rest)%nat.
Proof.
  apply (X17_delete_rebuilds_the_table collection no_repr nat
           QArith_base.Q toy_seed toy_choice toy_rand toy_sum
           QArith_base.Qdiv no_cell
           MuseumClaims.toy_choice_length MuseumClaims.toy_rand_length
           (monet ++ [ClickAdd 0; ClickAdd 1; ClickAdd 2]) world0
           (session_after (monet ++ [ClickAdd 0; ClickAdd 1; ClickAdd 2]))
           (world_after (monet ++ [ClickAdd 0; ClickAdd 1; ClickAdd 2]))
           1%nat (JNum 2, painting 2)).
  - exact world0_ok.
  - apply reached_eq. vm_compute; reflexivity.
  - vm_compute; reflexivity.
  - vm_compute. lia.
Defined.

End DashboardExtras.
